(** * Request and response validation of the triage and generatePlan functions

    A shallow embedding of the two Netlify function handlers
    ([netlify/functions/triage.js] and [netlify/functions/generatePlan.js]):
    the JavaScript values they inspect, the two regular expressions used for
    [next_steps], the shape validators, the provider error classification and
    the handlers themselves, followed by the properties proved about them. *)

From Stdlib Require Import List NArith ZArith QArith Bool String Ascii Lia Lqa.
From Stdlib Require Import DecimalString.
Import ListNotations.
Local Close Scope Q_scope.
Local Open Scope N_scope.

Set Implicit Arguments.
Set Warnings "-register-all".

(** ** JavaScript strings

    A JavaScript string is a sequence of UTF-16 code units; [length], [trim],
    [slice] and a regular expression without the [u] flag all work on code
    units. *)

Definition jsstr := list N.

Definition js (s : string) : jsstr := map N_of_ascii (list_ascii_of_string s).

Fixpoint str_eqb (s t : jsstr) : bool :=
  match s, t with
  | [], [] => true
  | a :: s', b :: t' => (a =? b) && str_eqb s' t'
  | _, _ => false
  end.

Definition nonEmpty (s : jsstr) : bool :=
  match s with [] => false | _ :: _ => true end.

Definition between (lo hi c : N) : bool := (lo <=? c) && (c <=? hi).

(** [WhiteSpace] and [LineTerminator] of ECMAScript: what [trim] strips and
    what [\s] matches. *)
Definition isLineTerminator (c : N) : bool :=
  (c =? 10) || (c =? 13) || (c =? 8232) || (c =? 8233).

Definition isWhiteSpace (c : N) : bool :=
  (c =? 9) || (c =? 11) || (c =? 12) || (c =? 32) || (c =? 160) ||
  (c =? 5760) || between 8192 8202 c || (c =? 8239) || (c =? 8287) ||
  (c =? 12288) || (c =? 65279) || isLineTerminator c.

Fixpoint trimStart (s : jsstr) : jsstr :=
  match s with
  | c :: t => if isWhiteSpace c then trimStart t else s
  | [] => []
  end.

Definition trim (s : jsstr) : jsstr := rev (trimStart (rev (trimStart s))).

(** [s.slice(0, n)] for [0 <= n]. *)
Definition slice0 (n : nat) (s : jsstr) : jsstr := firstn n s.

(** [String.prototype.toLowerCase] on the Basic Latin letters.  No code unit
    outside [A-Z] lower-cases to one of [t], [r], [u], [e], which is all that
    the comparison with ["true"] below depends on. *)
Definition toLowerCase (s : jsstr) : jsstr :=
  map (fun c => if between 65 90 c then c + 32 else c) s.

(** [Buffer.byteLength(s, "utf8")]: a surrogate pair is four bytes, a lone
    surrogate is written as U+FFFD (three bytes). *)
Definition isHighSurrogate (c : N) : bool := between 55296 56319 c.
Definition isLowSurrogate (c : N) : bool := between 56320 57343 c.

Fixpoint byteLength (s : jsstr) : N :=
  match s with
  | [] => 0
  | c :: t =>
      if c <? 128 then 1 + byteLength t
      else if c <? 2048 then 2 + byteLength t
      else if isHighSurrogate c then
        match t with
        | d :: t' => if isLowSurrogate d then 4 + byteLength t' else 3 + byteLength t
        | [] => 3
        end
      else 3 + byteLength t
  end.

(** ** Regular expressions

    The fragment of ECMAScript patterns the two validators use, with the
    backtracking matcher of the language specification: a matcher takes the
    position (the code units before it, nearest first, and those after it) and
    a continuation. *)

Inductive regex : Type :=
| Eps
| Class (p : N -> bool)
| Cat (r1 r2 : regex)
| Or (r1 r2 : regex)
| Star (r : regex)
| AssertStart
| AssertEnd
| WordBoundary.

Definition cont := jsstr -> jsstr -> bool.

Definition isWordChar (c : N) : bool :=
  between 97 122 c || between 65 90 c || between 48 57 c || (c =? 95).

Definition isWordAt (s : jsstr) : bool :=
  match s with
  | c :: _ => isWordChar c
  | [] => false
  end.

(** Greedy [r*]: an iteration that consumes nothing is rejected, so at most
    [length a] iterations can happen. *)
Fixpoint loop (body : jsstr -> jsstr -> cont -> bool) (n : nat)
    (b a : jsstr) (k : cont) : bool :=
  match n with
  | O => k b a
  | S n' =>
      body b a (fun b' a' =>
        (List.length a' <? List.length a)%nat && loop body n' b' a' k)
      || k b a
  end.

Fixpoint exec (r : regex) (b a : jsstr) (k : cont) : bool :=
  match r with
  | Eps => k b a
  | Class p =>
      match a with
      | c :: a' => p c && k (c :: b) a'
      | [] => false
      end
  | Cat r1 r2 => exec r1 b a (fun b' a' => exec r2 b' a' k)
  | Or r1 r2 => exec r1 b a k || exec r2 b a k
  | Star r1 => loop (exec r1) (List.length a) b a k
  | AssertStart => match b with [] => k b a | _ :: _ => false end
  | AssertEnd => match a with [] => k b a | _ :: _ => false end
  | WordBoundary => xorb (isWordAt b) (isWordAt a) && k b a
  end.

Definition accept : cont := fun _ _ => true.

(** [RegExp.prototype.test] for a pattern without the [g] and [y] flags: a
    match is tried at every index from 0 on. *)
Fixpoint search (r : regex) (b a : jsstr) : bool :=
  exec r b a accept ||
  match a with
  | c :: a' => search r (c :: b) a'
  | [] => false
  end.

Definition test (r : regex) (s : jsstr) : bool := search r [] s.

(** Pattern syntax. *)
Definition Opt (r : regex) : regex := Or r Eps.
Definition Plus (r : regex) : regex := Cat r (Star r).
Definition Chr (c : N) : regex := Class (N.eqb c).

Fixpoint Lit (s : jsstr) : regex :=
  match s with
  | [] => Eps
  | c :: t => Cat (Chr c) (Lit t)
  end.

Fixpoint Alts (rs : list regex) : regex :=
  match rs with
  | [] => Class (fun _ => false)
  | [r] => r
  | r :: rs' => Or r (Alts rs')
  end.

Definition dot (c : N) : bool := negb (isLineTerminator c).
Definition digit (c : N) : bool := between 48 57 c.
Definition upper (c : N) : bool := between 65 90 c.
Definition letter (c : N) : bool := between 97 122 c || between 65 90 c.

(** [[\.\)\:\-]] *)
Definition numberingMark (c : N) : bool :=
  (c =? 46) || (c =? 41) || (c =? 58) || (c =? 45).

(** [[-•]]: hyphen-minus and U+2022. *)
Definition bulletMark (c : N) : bool := (c =? 45) || (c =? 8226).

Definition actionVerbs : list string :=
  ["Gather"; "Define"; "Identify"; "Review"; "Assess"; "Analyze"; "Map";
   "Document"; "Implement"; "Automate"; "Configure"; "Create"; "Set";
   "Establish"; "Build"; "Prototype"; "Pilot"; "Test"; "Deploy"; "Monitor";
   "Measure"; "Train"; "Communicate"; "Schedule"; "Prioritize"; "Standardize";
   "Integrate"; "Refine"; "Update"; "Validate"; "Draft"; "Run"; "Enable";
   "Collect"; "Clean"; "Design"; "Plan"; "Decide"; "Align"]%string.

Definition restOfLine : regex := Cat (Star (Class dot)) AssertEnd.

(** The triage pattern: [^ (Gather|Define|...|Align) \b .* $]. *)
Definition triageNextStepsPattern : regex :=
  Cat AssertStart
    (Cat (Alts (map (fun v => Lit (js v)) actionVerbs))
       (Cat WordBoundary restOfLine)).

(** The generatePlan pattern, written token by token:
    [^ (?: \s* (?: \d+ [\.\)\:\-] \s* | [-•] \s* ) )? [A-Z] [a-zA-Z]+ \b .* $]. *)
Definition numberingPrefix : regex :=
  Cat (Star (Class isWhiteSpace))
    (Or (Cat (Plus (Class digit))
           (Cat (Class numberingMark) (Star (Class isWhiteSpace))))
        (Cat (Class bulletMark) (Star (Class isWhiteSpace)))).

Definition planNextStepsPattern : regex :=
  Cat AssertStart
    (Cat (Opt numberingPrefix)
       (Cat (Class upper)
          (Cat (Plus (Class letter))
             (Cat WordBoundary restOfLine)))).

(** ** JavaScript values

    A number is an IEEE double: not-a-number, an infinity, or a finite value,
    kept here as the rational it denotes ([-0] and [0] are the same rational;
    [===], [>=] and truthiness do not tell them apart either). *)

Inductive number : Type :=
| NaN
| PosInfinity
| NegInfinity
| Finite (q : Q).

(** An object lists its own enumerable properties in [Object.keys] order. *)
Inductive value : Type :=
| VUndefined
| VNull
| VBool (b : bool)
| VNum (n : number)
| VStr (s : jsstr)
| VArr (items : list value)
| VObj (props : list (jsstr * value)).

Inductive jstype : Type :=
| TUndefined | TObject | TBoolean | TNumber | TString.

Definition typeof (v : value) : jstype :=
  match v with
  | VUndefined => TUndefined
  | VNull => TObject
  | VBool _ => TBoolean
  | VNum _ => TNumber
  | VStr _ => TString
  | VArr _ => TObject
  | VObj _ => TObject
  end.

Definition isObjectType (t : jstype) : bool :=
  match t with TObject => true | _ => false end.

Definition num_eqb (x y : number) : bool :=
  match x, y with
  | Finite p, Finite q => Qeq_bool p q
  | PosInfinity, PosInfinity => true
  | NegInfinity, NegInfinity => true
  | _, _ => false
  end.

(** [x >= y] *)
Definition num_geb (x y : number) : bool :=
  match x, y with
  | NaN, _ | _, NaN => false
  | PosInfinity, _ => true
  | _, NegInfinity => true
  | NegInfinity, _ => false
  | _, PosInfinity => false
  | Finite p, Finite q => Qle_bool q p
  end.

Definition ofZ (z : Z) : number := Finite (inject_Z z).

(** [ToBoolean] *)
Definition truthy (v : value) : bool :=
  match v with
  | VUndefined | VNull => false
  | VBool b => b
  | VNum NaN => false
  | VNum (Finite q) => negb (Qeq_bool q 0)
  | VNum _ => true
  | VStr s => match s with [] => false | _ :: _ => true end
  | VArr _ | VObj _ => true
  end.

Definition isArray (v : value) : bool :=
  match v with VArr _ => true | _ => false end.

Fixpoint lookup (k : jsstr) (props : list (jsstr * value)) : option value :=
  match props with
  | [] => None
  | (k', v) :: rest => if str_eqb k k' then Some v else lookup k rest
  end.

Definition includes (ks : list jsstr) (k : jsstr) : bool :=
  existsb (str_eqb k) ks.

(** ** Completions: a JavaScript evaluation returns or throws *)

Inductive completion (A : Type) : Type :=
| Normal (a : A)
| Throw (e : value).
Arguments Normal {A} a.
Arguments Throw {A} e.

Definition bind {A B : Type} (c : completion A) (f : A -> completion B)
  : completion B :=
  match c with
  | Normal a => f a
  | Throw e => Throw e
  end.

Notation "x <- c ;; k" := (bind c (fun x => k))
  (at level 61, c at next level, right associativity).

Definition TypeError (msg : jsstr) : value :=
  VObj [(js "name", VStr (js "TypeError")); (js "message", VStr msg)].

Definition showN (n : N) : jsstr := js (NilZero.string_of_uint (N.to_uint n)).

Definition indexKeys (n : nat) : list jsstr :=
  map (fun i => showN (N.of_nat i)) (seq 0 n).

(** [Object.keys(v)] *)
Definition Object_keys (v : value) : completion (list jsstr) :=
  match v with
  | VUndefined | VNull =>
      Throw (TypeError (js "Cannot convert undefined or null to object"))
  | VObj props => Normal (map fst props)
  | VArr items => Normal (indexKeys (List.length items))
  | VStr s => Normal (indexKeys (List.length s))
  | VBool _ | VNum _ => Normal []
  end.

(** The members every plain object inherits from [Object.prototype]. *)
Definition objectPrototypeKeys : list jsstr :=
  map js ["constructor"; "__defineGetter__"; "__defineSetter__";
          "hasOwnProperty"; "__lookupGetter__"; "__lookupSetter__";
          "isPrototypeOf"; "propertyIsEnumerable"; "toString"; "valueOf";
          "__proto__"; "toLocaleString"]%string.

(** [k in v] on a plain object; on anything that is not an object the
    operator throws.  (An array is never passed to it here.) *)
Definition HasProperty (k : jsstr) (v : value) : completion bool :=
  match v with
  | VObj props =>
      Normal (match lookup k props with
              | Some _ => true
              | None => includes objectPrototypeKeys k
              end)
  | VArr items => Normal (includes (js "length" :: indexKeys (List.length items)) k)
  | _ => Throw (TypeError (js "Cannot use 'in' operator to search for a key"))
  end.

(** [v.k], [v[k]] for the data properties read in these files, none of which
    is a built-in member of an object, array or primitive wrapper.  On
    [undefined] and [null] the read throws a [TypeError] that names the
    operand and the property. *)
Definition Get (v : value) (k : jsstr) : completion value :=
  match v with
  | VUndefined =>
      Throw (TypeError (js "Cannot read properties of undefined (reading '" ++
                        k ++ js "')"))
  | VNull =>
      Throw (TypeError (js "Cannot read properties of null (reading '" ++
                        k ++ js "')"))
  | VObj props =>
      Normal (match lookup k props with Some x => x | None => VUndefined end)
  | _ => Normal VUndefined
  end.

(** [v?.k] *)
Definition GetOptional (v : value) (k : jsstr) : completion value :=
  match v with
  | VUndefined | VNull => Normal VUndefined
  | _ => Get v k
  end.

(** ** The shape validators *)

Definition allowedKeys : list jsstr :=
  map js ["problem_statement"; "clarifying_questions"; "proposed_approach";
          "recommended_tools"; "risks_and_privacy"; "next_steps"]%string.

(** [for (const k of keys) if (!allowedKeys.includes(k)) return ...] *)
Fixpoint unexpectedProperty (keys : list jsstr) : option jsstr :=
  match keys with
  | [] => None
  | k :: rest =>
      if negb (includes allowedKeys k)
      then Some (js "Unexpected property: " ++ k)
      else unexpectedProperty rest
  end.

(** [for (const k of allowedKeys) if (!(k in obj)) return ...] *)
Fixpoint missingProperty (obj : value) (ks : list jsstr)
  : completion (option jsstr) :=
  match ks with
  | [] => Normal None
  | k :: rest =>
      present <- HasProperty k obj ;;
      if negb present
      then Normal (Some (js "Missing required property: " ++ k))
      else missingProperty obj rest
  end.

Definition strlen (s : jsstr) : N := N.of_nat (List.length s).

(** The body of [checkArray]'s loop over the items. *)
Fixpoint checkItems (field : jsstr) (minLen : N) (pattern : option regex)
    (items : list value) : option jsstr :=
  match items with
  | [] => None
  | item :: rest =>
      match item with
      | VStr s =>
          if strlen (trim s) <? minLen
          then Some (field ++ js " items must be strings (minLength " ++
                     showN minLen ++ js ").")
          else
            match pattern with
            | Some p =>
                if negb (test p s)
                then Some (field ++ js " items must match required pattern.")
                else checkItems field minLen pattern rest
            | None => checkItems field minLen pattern rest
            end
      | _ => Some (field ++ js " items must be strings (minLength " ++
                   showN minLen ++ js ").")
      end
  end.

Definition checkArray (obj : value) (field : jsstr) (minItems maxItems minLen : N)
    (pattern : option regex) : completion (option jsstr) :=
  arr <- Get obj field ;;
  match arr with
  | VArr items =>
      if (N.of_nat (List.length items) <? minItems)
         || (maxItems <? N.of_nat (List.length items))
      then Normal (Some (field ++ js " must have " ++ showN minItems ++
                         js "-" ++ showN maxItems ++ js " items."))
      else Normal (checkItems field minLen pattern items)
  | _ => Normal (Some (field ++ js " must be an array."))
  end.

(** [a || b] on two validation results: the first error wins. *)
Definition orElse (a : completion (option jsstr))
    (b : completion (option jsstr)) : completion (option jsstr) :=
  r <- a ;;
  match r with
  | Some msg => Normal (Some msg)
  | None => b
  end.

(** The two validators are the same text up to [nextStepsPattern]. *)
Definition validateShape (nextStepsPattern : regex) (obj : value)
  : completion (option jsstr) :=
  if negb (truthy obj) || negb (isObjectType (typeof obj)) || isArray obj
  then Normal (Some (js "Response is not an object."))
  else
    keys <- Object_keys obj ;;
    match unexpectedProperty keys with
    | Some msg => Normal (Some msg)
    | None =>
        missing <- missingProperty obj allowedKeys ;;
        match missing with
        | Some msg => Normal (Some msg)
        | None =>
            ps <- Get obj (js "problem_statement") ;;
            match ps with
            | VStr s =>
                if strlen (trim s) <? 10
                then Normal (Some (js "problem_statement must be a string (minLength 10)."))
                else
                  orElse (checkArray obj (js "clarifying_questions") 3 5 5 None)
                  (orElse (checkArray obj (js "proposed_approach") 4 7 5 None)
                  (orElse (checkArray obj (js "recommended_tools") 1 10 2 None)
                  (orElse (checkArray obj (js "risks_and_privacy") 1 10 5 None)
                          (checkArray obj (js "next_steps") 4 7 3
                             (Some nextStepsPattern)))))
            | _ => Normal (Some (js "problem_statement must be a string (minLength 10)."))
            end
        end
    end.

Definition validateTriageShape : value -> completion (option jsstr) :=
  validateShape triageNextStepsPattern.

Definition validatePlanShape : value -> completion (option jsstr) :=
  validateShape planNextStepsPattern.

(** ** Provider error classification *)

Record httpError : Type := { errStatusCode : N; message : jsstr }.

Definition isStatus (status : value) (z : Z) : bool :=
  match status with
  | VNum n => num_eqb n (ofZ z)
  | _ => false
  end.

Definition toHttpError (err : value) : completion httpError :=
  s <- GetOptional err (js "status") ;;
  let status := match typeof s with TNumber => s | _ => VNull end in
  if isStatus status 401 || isStatus status 403
  then Normal {| errStatusCode := 502; message := js "LLM authentication failed." |}
  else if isStatus status 429
  then Normal {| errStatusCode := 429;
                 message := js "Rate limited by LLM provider. Try again shortly." |}
  else if truthy status &&
          match status with VNum n => num_geb n (ofZ 500) | _ => false end
  then Normal {| errStatusCode := 502;
                 message := js "LLM provider error. Try again shortly." |}
  else Normal {| errStatusCode := 502; message := js "LLM request failed." |}.

(** ** Requests, responses and the environment *)

Module Event.
(** The event Netlify passes to a function: [body] is a string or [null],
    [isBase64Encoded] a boolean; [headers] is kept as a value since the
    local caller script leaves it out. *)
Record t : Type := {
  httpMethod : jsstr;
  headers : value;
  body : option jsstr;
  isBase64Encoded : bool
}.
End Event.

Module Response.
(** [Json v] is the text [JSON.stringify(v)]. *)
Inductive payload : Type :=
| Empty
| Json (v : value).

Record t : Type := {
  statusCode : N;
  headers : list (jsstr * jsstr);
  body : payload
}.
End Response.

Record environment : Type := {
  OPENAI_API_KEY : option jsstr;
  OPENAI_MODEL : option jsstr;
  DEBUG_ERRORS_variable : option jsstr
}.

Definition MAX_INPUT_CHARS : N := 8000.
Definition MAX_BODY_BYTES : N := 64 * 1024.

(** [x || d] for an environment variable. *)
Definition orDefault (x : option jsstr) (d : jsstr) : jsstr :=
  match x with
  | Some ((_ :: _) as s) => s
  | _ => d
  end.

Definition DEBUG_ERRORS (env : environment) : bool :=
  str_eqb (toLowerCase (orDefault (DEBUG_ERRORS_variable env) [])) (js "true").

Definition corsHeaders : list (jsstr * jsstr) :=
  [(js "access-control-allow-origin", js "*");
   (js "access-control-allow-headers", js "content-type");
   (js "access-control-allow-methods", js "POST, OPTIONS")].

Definition jsonResponse (statusCode : N) (bodyObj : value) : Response.t :=
  {| Response.statusCode := statusCode;
     Response.headers :=
       (js "content-type", js "application/json; charset=utf-8") :: corsHeaders;
     Response.body := Response.Json bodyObj |}.

(** [a || b] on values. *)
Definition vor (a b : value) : value := if truthy a then a else b.

Definition getRequestId (event : Event.t) : completion value :=
  let h := vor (Event.headers event) (VObj []) in
  a <- Get h (js "x-nf-request-id") ;;
  b <- Get h (js "X-Nf-Request-Id") ;;
  c <- Get h (js "x-request-id") ;;
  d <- Get h (js "X-Request-Id") ;;
  Normal (vor a (vor b (vor c (vor d VNull)))).

(** What distinguishes the two handler files. *)
Record endpoint : Type := {
  textField : jsstr;
  systemPrompt : jsstr;
  userPromptHeading : jsstr;
  formatName : jsstr;
  validate : value -> completion (option jsstr)
}.

Definition triage : endpoint :=
  {| textField := js "userMessage";
     systemPrompt :=
       js "You are an assistant that produces structured JSON for ticket triage. " ++
       js "Return ONLY valid JSON matching the provided schema. Do not wrap in markdown. " ++
       js "Do not include the schema keys as literal text inside any string values. " ++
       js "The next_steps array must contain 4-7 items, and each item must start with an action verb (e.g., Gather, Define, Implement, Review).";
     userPromptHeading := js "User message to triage:";
     formatName := js "triage_response";
     validate := validateTriageShape |}.

Definition generatePlan : endpoint :=
  {| textField := js "input";
     systemPrompt :=
       js "You are an AI Office Hours Helper. " ++
       js "Given a workflow problem, produce a concise, practical plan. " ++
       js "Return ONLY valid JSON matching the provided schema. Do not wrap in markdown. " ++
       js "Do not include the schema keys as literal text inside any string values. " ++
       js "The next_steps array must contain 4-7 items, and each item must start with an action verb (no numbering or bullet prefixes).";
     userPromptHeading := js "Workflow problem:";
     formatName := js "office_hours_plan";
     validate := validatePlanShape |}.

(** The argument of [client.responses.create]; the JSON schema constant sent
    along is fixed per file and named by [format]. *)
Record createParams : Type := {
  apiKey : jsstr;
  model : jsstr;
  system : jsstr;
  user : jsstr;
  format : jsstr
}.

(** ** Handler computations: completions plus the log of provider calls *)

Definition M (A : Type) : Type :=
  list createParams -> completion A * list createParams.

Definition ret {A : Type} (a : A) : M A := fun log => (Normal a, log).

Definition lift {A : Type} (c : completion A) : M A := fun log => (c, log).

Definition bindM {A B : Type} (m : M A) (f : A -> M B) : M B :=
  fun log =>
    match m log with
    | (Normal a, log') => f a log'
    | (Throw e, log') => (Throw e, log')
    end.

Definition tryCatch {A : Type} (m : M A) (handle : value -> M A) : M A :=
  fun log =>
    match m log with
    | (Throw e, log') => handle e log'
    | done => done
    end.

Notation "x <~ c ;; k" := (bindM c (fun x => k))
  (at level 61, c at next level, right associativity).

(** ** The handlers *)

Section Host.

(** Built-ins of the host and the provider client. *)
Variable JSON_parse : jsstr -> completion value.
(** [Buffer.from(s, "base64").toString("utf8")] *)
Variable base64ToUtf8 : jsstr -> jsstr.
(** [String(v)] *)
Variable String_ : value -> jsstr.
(** [new OpenAI({ apiKey }).responses.create(params)], awaited. *)
Variable responses_create : createParams -> completion value.

Definition invoke (params : createParams) : M value :=
  fun log => (responses_create params, log ++ [params]).

Definition safeJsonParse (text : jsstr) : value + value :=
  match JSON_parse text with
  | Normal v => inl v
  | Throw e => inr e
  end.

(** The optional debug members spread into an error body. *)
Definition debugFields (env : environment) (fields : list (jsstr * value))
  : list (jsstr * value) :=
  if DEBUG_ERRORS env then fields else [].

Variable ep : endpoint.
Variable env : environment.

(** The request sent to the provider for a validated text. *)
Definition request (key : jsstr) (text : jsstr) : createParams :=
  {| apiKey := key;
     model := orDefault (OPENAI_MODEL env) (js "gpt-4o-mini");
     system := systemPrompt ep;
     user := userPromptHeading ep ++ [10] ++ text ++ [10; 10] ++
             js "Generate a response that matches the JSON schema exactly.";
     format := formatName ep |}.

(** The [try] block around the provider call. *)
Definition callProvider (key : jsstr) (requestId : value) (text : jsstr)
  : M Response.t :=
  response <~ invoke (request key text) ;;
  output <~ lift (Get response (js "output_text")) ;;
  match output with
  | VStr ((_ :: _) as out) =>
      match safeJsonParse out with
      | inr _ =>
          ret (jsonResponse 502
                 (VObj ([(js "error", VStr (js "Model returned non-JSON output."));
                         (js "requestId", requestId)] ++
                        debugFields env
                          [(js "model_output", VStr (slice0 2000 out))])))
      | inl parsed =>
          shapeError <~ lift (validate ep parsed) ;;
          match shapeError with
          | Some ((_ :: _) as details) =>
              ret (jsonResponse 502
                     (VObj ([(js "error",
                              VStr (js "Model returned an invalid response shape."));
                             (js "requestId", requestId)] ++
                            debugFields env
                              [(js "details", VStr details);
                               (js "model_output", VStr (slice0 2000 out))])))
          | _ => ret (jsonResponse 200 parsed)
          end
      end
  | _ =>
      ret (jsonResponse 502
             (VObj [(js "error", VStr (js "No text output received from model."));
                    (js "requestId", requestId)]))
  end.

(** The [catch (err)] clause. *)
Definition providerFailure (requestId : value) (err : value) : M Response.t :=
  httpErr <~ lift (toHttpError err) ;;
  debug <~ (if DEBUG_ERRORS env
            then msg <~ lift (GetOptional err (js "message")) ;;
                 ret [(js "details", vor msg (VStr (String_ err)))]
            else ret []) ;;
  ret (jsonResponse (errStatusCode httpErr)
         (VObj ([(js "error", VStr (message httpErr));
                 (js "requestId", requestId)] ++ debug))).

(** [event.body && typeof event.body === "string" &&
    Buffer.byteLength(event.body, "utf8") > MAX_BODY_BYTES] *)
Definition bodyTooLarge (event : Event.t) : bool :=
  match Event.body event with
  | Some ((_ :: _) as b) => MAX_BODY_BYTES <? byteLength b
  | _ => false
  end.

(** [bodyText || "{}"], where [bodyText] is the body, decoded first when
    the event says it is base64. *)
Definition bodyText (event : Event.t) : jsstr :=
  let raw := match Event.body event with Some b => b | None => [] end in
  let text := if Event.isBase64Encoded event then base64ToUtf8 raw else raw in
  if nonEmpty text then text else js "{}".

(** The handler from the parsing of the body on.  The decoding and parsing
    sit in a [try] whose [catch] answers 400 as well; on a string body only
    [JSON.parse] can throw, which [safeJsonParse] has caught already. *)
Definition answer (key : jsstr) (requestId : value) (event : Event.t)
  : M Response.t :=
  match safeJsonParse (bodyText event) with
  | inr _ =>
      ret (jsonResponse 400
             (VObj [(js "error", VStr (js "Invalid JSON body."));
                    (js "requestId", requestId)]))
  | inl parsed =>
      let payload := vor parsed (VObj []) in
      field <~ lift (Get payload (textField ep)) ;;
      let text := match field with VStr s => s | _ => [] end in
      if negb (nonEmpty (trim text)) then
        ret (jsonResponse 400
               (VObj [(js "error",
                       VStr (js "Missing required field: " ++ textField ep));
                      (js "requestId", requestId)]))
      else if MAX_INPUT_CHARS <? strlen text then
        ret (jsonResponse 400
               (VObj [(js "error",
                       VStr (js "Input is too long. Please keep it under " ++
                             showN MAX_INPUT_CHARS ++ js " characters."));
                      (js "requestId", requestId)]))
      else
        tryCatch (callProvider key requestId text) (providerFailure requestId)
  end.

Definition handler (event : Event.t) : M Response.t :=
  if str_eqb (Event.httpMethod event) (js "OPTIONS") then
    ret {| Response.statusCode := 204;
           Response.headers := corsHeaders;
           Response.body := Response.Empty |}
  else if negb (str_eqb (Event.httpMethod event) (js "POST")) then
    ret (jsonResponse 405
           (VObj [(js "error", VStr (js "Method not allowed. Use POST."))]))
  else
    match OPENAI_API_KEY env with
    | Some ((_ :: _) as key) =>
        requestId <~ lift (getRequestId event) ;;
        if bodyTooLarge event then
          ret (jsonResponse 413
                 (VObj [(js "error", VStr (js "Request body too large."));
                        (js "requestId", requestId)]))
        else answer key requestId event
    | _ =>
        ret (jsonResponse 500
               (VObj [(js "error",
                       VStr (js "Missing OPENAI_API_KEY environment variable."))]))
    end.

(** Running a handler on a fresh log. *)
Definition run (event : Event.t) : completion Response.t * list createParams :=
  handler event [].

End Host.

(** ** The page: [onGenerate] of [App]

    The component keeps five pieces of state; [onGenerate] reads [input],
    posts it to the generatePlan function and updates the others.  The state
    below is the one the setters leave once the function has settled. *)

Module App.
Record state : Type := {
  input : jsstr;
  loading : bool;
  message : value;
  messageKind : jsstr;
  result : value
}.
End App.

Definition setLoading (b : bool) (st : App.state) : App.state :=
  {| App.input := App.input st; App.loading := b; App.message := App.message st;
     App.messageKind := App.messageKind st; App.result := App.result st |}.

Definition setMessage (m : value) (st : App.state) : App.state :=
  {| App.input := App.input st; App.loading := App.loading st; App.message := m;
     App.messageKind := App.messageKind st; App.result := App.result st |}.

Definition setMessageKind (k : jsstr) (st : App.state) : App.state :=
  {| App.input := App.input st; App.loading := App.loading st;
     App.message := App.message st; App.messageKind := k;
     App.result := App.result st |}.

Definition setResult (r : value) (st : App.state) : App.state :=
  {| App.input := App.input st; App.loading := App.loading st;
     App.message := App.message st; App.messageKind := App.messageKind st;
     App.result := r |}.

(** The arguments of [fetch]; [fetchBody] is the value given to
    [JSON.stringify]. *)
Record fetchInit : Type := {
  url : jsstr;
  method : jsstr;
  contentType : jsstr;
  fetchBody : value
}.

(** What the page reads of a fetch response: the status, from which [res.ok]
    follows (200 to 299), and the outcome of [res.text()]. *)
Record fetchResponse : Type := {
  status : N;
  text : completion jsstr
}.

Definition ok (res : fetchResponse) : bool := between 200 299 (status res).

(** The object [new Error(msg)], as far as its [message] goes. *)
Definition newError (msg : jsstr) : value := VObj [(js "message", VStr msg)].

(** Page computations: completions plus the log of the requests sent. *)
Definition Fetching (A : Type) : Type :=
  list fetchInit -> completion A * list fetchInit.

Definition settle {A : Type} (c : completion A) : Fetching A :=
  fun log => (c, log).

Definition andThen {A B : Type} (m : Fetching A) (f : A -> Fetching B)
  : Fetching B :=
  fun log =>
    match m log with
    | (Normal a, log') => f a log'
    | (Throw e, log') => (Throw e, log')
    end.

Notation "x <+ c ;; k" := (andThen c (fun x => k))
  (at level 61, c at next level, right associativity).

Section Page.

Variable JSON_parse : jsstr -> completion value.
(** [String(v)] *)
Variable String_ : value -> jsstr.
Variable fetch : fetchInit -> completion fetchResponse.

(** String conversion as done by [+] and by a template literal. *)
Definition toText (v : value) : jsstr :=
  match v with
  | VStr s => s
  | _ => String_ v
  end.

(** [text ? JSON.parse(text) : null], [null] as well when parsing throws. *)
Definition parseOrNull (t : jsstr) : value :=
  if nonEmpty t then
    match JSON_parse t with
    | Normal v => v
    | Throw _ => VNull
    end
  else VNull.

Definition planRequest (trimmed : jsstr) : fetchInit :=
  {| url := js "/.netlify/functions/generatePlan";
     method := js "POST";
     contentType := js "application/json";
     fetchBody := VObj [(js "input", VStr trimmed)] |}.

(** [await fetch(url, init)]: the call is what adds to the log. *)
Definition callFetch (init : fetchInit) : Fetching fetchResponse :=
  fun log => (fetch init, log ++ [init]).

(** The [try] block: the value to store as the result, or what is thrown. *)
Definition fetchPlan (trimmed : jsstr) : Fetching value :=
  res <+ callFetch (planRequest trimmed) ;;
  t <+ settle (text res) ;;
  let json := parseOrNull t in
  if negb (ok res) then
    error <+ settle (GetOptional json (js "error")) ;;
    let errMsg :=
      vor error (VStr (js "Request failed (" ++ showN (status res) ++ js ")")) in
    id <+ settle (GetOptional json (js "requestId")) ;;
    let requestId :=
      if truthy id then js " (requestId: " ++ toText id ++ js ")" else [] in
    settle (Throw (newError (toText errMsg ++ requestId)))
  else if negb (truthy json) || negb (isObjectType (typeof json)) then
    settle (Throw (newError (js "Server returned an unexpected response.")))
  else settle (Normal json).

(** One click, from an empty log: the state the setters leave and the
    requests that were sent. *)
Definition onGenerate (st : App.state) : completion App.state * list fetchInit :=
  let log : list fetchInit := [] in
  let st := setMessageKind (js "info") (setMessage (VStr []) st) in
  let trimmed := trim (App.input st) in
  if negb (nonEmpty trimmed) then
    (Normal (setMessage
               (VStr (js "Type a workflow problem above, then click Generate Plan."))
               (setMessageKind (js "info") st)), log)
  else
    let st := setLoading true st in
    let tried := fetchPlan trimmed log in
    let settled :=
      match fst tried with
      | Normal json => Normal (setResult json st)
      | Throw err =>
          m <- GetOptional err (js "message") ;;
          Normal (setMessage (vor m (VStr (js "Something went wrong.")))
                    (setMessageKind (js "error") st))
      end in
    (* finally *)
    (st' <- settled ;; Normal (setLoading false st'), snd tried).

End Page.

(** * The interface description, as predicates

    What the description of the two endpoints says of items, results,
    requests and responses, in its own terms; the properties below compare
    the code above with these. *)

(** ** Items of [next_steps] *)

(** The remainder of an item, after its first word: the word ends there and
    no line terminator follows (the patterns end in [.*$] and have no flags). *)
Definition endsWord (rest : jsstr) : Prop :=
  isWordAt rest = false /\ forallb dot rest = true.

(** Triage: the item begins with one of the listed verbs as a whole word. *)
Definition startsWithActionVerb (s : jsstr) : Prop :=
  exists v rest, In v actionVerbs /\ s = js v ++ rest /\ isWordAt rest = false.

(** A numbering prefix: blanks, digits, one of [. ) : -], blanks. *)
Definition numbered (pre : jsstr) : Prop :=
  exists sp ds m sp',
    pre = sp ++ ds ++ m :: sp' /\
    forallb isWhiteSpace sp = true /\ ds <> [] /\ forallb digit ds = true /\
    numberingMark m = true /\ forallb isWhiteSpace sp' = true.

(** A bullet prefix: blanks, a hyphen or U+2022, blanks. *)
Definition bulleted (pre : jsstr) : Prop :=
  exists sp m sp',
    pre = sp ++ m :: sp' /\
    forallb isWhiteSpace sp = true /\ bulletMark m = true /\
    forallb isWhiteSpace sp' = true.

(** A capitalized word: an upper-case letter and at least one more letter. *)
Definition capitalizedWord (c : N) (w : jsstr) : Prop :=
  upper c = true /\ w <> [] /\ forallb letter w = true.

(** generatePlan: optionally a numbering or bullet prefix, then a
    capitalized word. *)
Definition startsWithCapitalizedWord (s : jsstr) : Prop :=
  exists pre c w rest,
    s = pre ++ c :: w ++ rest /\
    (pre = [] \/ numbered pre \/ bulleted pre) /\
    capitalizedWord c w /\ isWordAt rest = false.

(** The part of the generatePlan pattern after the optional prefix. *)
Definition wordThenRest : regex :=
  Cat (Class upper) (Cat (Plus (Class letter)) (Cat WordBoundary restOfLine)).

(** ** Results *)

(** [field] holds [lo] to [hi] strings, each of trimmed length at least
    [minLen] and each satisfying [ok]. *)
Definition stringsField (props : list (jsstr * value)) (field : string)
    (lo hi minLen : N) (ok : jsstr -> Prop) : Prop :=
  exists items,
    lookup (js field) props = Some (VArr items) /\
    lo <= N.of_nat (List.length items) <= hi /\
    Forall (fun item => exists s, item = VStr s /\ minLen <= strlen (trim s) /\ ok s)
           items.

Definition anyString : jsstr -> Prop := fun _ => True.

(** A plan/triage result whose [next_steps] items satisfy [ok]. *)
Definition conforms (ok : jsstr -> Prop) (v : value) : Prop :=
  exists props,
    v = VObj props /\
    (forall k, In k (map fst props) <-> In k allowedKeys) /\
    (exists s, lookup (js "problem_statement") props = Some (VStr s) /\
               10 <= strlen (trim s)) /\
    stringsField props "clarifying_questions" 3 5 5 anyString /\
    stringsField props "proposed_approach" 4 7 5 anyString /\
    stringsField props "recommended_tools" 1 10 2 anyString /\
    stringsField props "risks_and_privacy" 1 10 5 anyString /\
    stringsField props "next_steps" 4 7 3 ok.

Definition matches (p : regex) : jsstr -> Prop := fun s => test p s = true.

Definition patternOk (pattern : option regex) : jsstr -> Prop :=
  match pattern with
  | Some p => matches p
  | None => anyString
  end.

(** ** Requests and responses *)

(** The text a parsed body carries in [field]: the field's value when that
    is a string, the empty string otherwise. *)
Definition textOf (field : jsstr) (parsed : value) : jsstr :=
  match parsed with
  | VObj props =>
      match lookup field props with
      | Some (VStr s) => s
      | _ => []
      end
  | _ => []
  end.

Definition preflight : Response.t :=
  {| Response.statusCode := 204;
     Response.headers := corsHeaders;
     Response.body := Response.Empty |}.

(** The body of an error response: message, correlation id, debug members. *)
Definition errorBody (msg : jsstr) (requestId : value)
    (extra : list (jsstr * value)) : value :=
  VObj ([(js "error", VStr msg); (js "requestId", requestId)] ++ extra).

(** The size of the body as received, in bytes of UTF-8. *)
Definition bodyBytes (event : Event.t) : N :=
  match Event.body event with
  | Some b => byteLength b
  | None => 0
  end.

(** A request that passes every check of the handler before the provider
    call, with the text it carries. *)
Definition admitted (JSON_parse : jsstr -> completion value)
    (base64ToUtf8 : jsstr -> jsstr) (ep : endpoint) (env : environment)
    (event : Event.t) (key text : jsstr) : Prop :=
  Event.httpMethod event = js "POST" /\
  OPENAI_API_KEY env = Some key /\ key <> [] /\
  bodyBytes event <= MAX_BODY_BYTES /\
  exists parsed,
    JSON_parse (bodyText base64ToUtf8 event) = Normal parsed /\
    text = textOf (textField ep) parsed /\
    trim text <> [] /\ strlen text <= MAX_INPUT_CHARS.

(** The four header names a correlation id is read from, in order. *)
Definition requestIdHeaders : list jsstr :=
  map js ["x-nf-request-id"; "X-Nf-Request-Id"; "x-request-id"; "X-Request-Id"]%string.

(** The request carries the correlation id [id]: one of the four headers
    holds it, and none of them holds anything else. *)
Definition carriesRequestId (headers : value) (id : jsstr) : Prop :=
  exists hs,
    headers = VObj hs /\ id <> [] /\
    (exists name, In name requestIdHeaders /\ lookup name hs = Some (VStr id)) /\
    (forall name v, In name requestIdHeaders -> lookup name hs = Some v ->
                    truthy v = true -> v = VStr id).

(** The designated text field is absent, not a string, empty or made of
    white space only. *)
Definition textFieldMissing (field : jsstr) (parsed : value) : Prop :=
  forall props s,
    parsed = VObj props -> lookup field props = Some (VStr s) ->
    forallb isWhiteSpace s = true.

(** The numeric [status] of a thrown value, if it has one. *)
Definition statusOf (err : value) : option number :=
  match err with
  | VObj props =>
      match lookup (js "status") props with
      | Some (VNum n) => Some n
      | _ => None
      end
  | _ => None
  end.

Definition isCode (n : number) (z : Z) : Prop :=
  exists q, n = Finite q /\ (q == inject_Z z)%Q.

Definition atLeast (n : number) (z : Z) : Prop :=
  n = PosInfinity \/ exists q, n = Finite q /\ (inject_Z z <= q)%Q.

(** The four outcomes of the error table. *)
Definition upstreamAuth : httpError :=
  {| errStatusCode := 502; message := js "LLM authentication failed." |}.
Definition upstreamThrottled : httpError :=
  {| errStatusCode := 429;
     message := js "Rate limited by LLM provider. Try again shortly." |}.
Definition upstreamError : httpError :=
  {| errStatusCode := 502; message := js "LLM provider error. Try again shortly." |}.
Definition upstreamFailure : httpError :=
  {| errStatusCode := 502; message := js "LLM request failed." |}.

Definition members (v : value) : list (jsstr * value) :=
  match v with
  | VObj props => props
  | _ => []
  end.

(** The members of the object a response carries as its body. *)
Definition bodyMembers (r : Response.t) : list (jsstr * value) :=
  match Response.body r with
  | Response.Json v => members v
  | Response.Empty => []
  end.

(** The handler's outcome is a response of status [code] that declares JSON
    beside the cross-origin headers and whose body is [JSON.stringify] of
    [bodyObj], returned after the provider calls [calls]. *)
Definition answered (outcome : completion Response.t * list createParams)
    (code : N) (bodyObj : value) (calls : list createParams) : Prop :=
  exists r,
    outcome = (Normal r, calls) /\
    Response.statusCode r = code /\
    Response.headers r =
      (js "content-type", js "application/json; charset=utf-8") :: corsHeaders /\
    Response.body r = Response.Json bodyObj.

(** The correlation id of a request: what the first of the four headers, in
    their order, that holds a truthy value holds. *)
Definition firstRequestId (headers : value) (id : value) : Prop :=
  exists hs earlier name later,
    headers = VObj hs /\
    requestIdHeaders = earlier ++ name :: later /\
    lookup name hs = Some id /\ truthy id = true /\
    (forall n v, In n earlier -> lookup n hs = Some v -> truthy v = false).

(** The string is empty or begins with a code unit that is not white space. *)
Definition headNotBlank (s : jsstr) : Prop :=
  match s with
  | [] => True
  | c :: _ => isWhiteSpace c = false
  end.

(** ** How the provider stage answers

    The five ways the [try] block and its [catch] produce the response [r]
    for an admitted request: a failure envelope for a value thrown by the
    call, by the reading of the output or by the validator; the three 502
    of the response validator; the 200. *)
Definition providerAnswer (JSON_parse : jsstr -> completion value)
    (responses_create : createParams -> completion value)
    (ep : endpoint) (env : environment) (key : jsstr) (rid : value)
    (text : jsstr) (r : Response.t) : Prop :=
  let called := responses_create (request ep env key text) in
  (exists err e extra,
     (called = Throw err \/
      (exists resp, called = Normal resp /\
                    Get resp (js "output_text") = Throw err) \/
      (exists resp out parsed,
         called = Normal resp /\
         Get resp (js "output_text") = Normal (VStr out) /\ out <> [] /\
         JSON_parse out = Normal parsed /\ validate ep parsed = Throw err)) /\
     toHttpError err = Normal e /\
     (DEBUG_ERRORS env = false -> extra = []) /\
     r = jsonResponse (errStatusCode e) (errorBody (message e) rid extra)) \/
  (exists resp output,
     called = Normal resp /\ Get resp (js "output_text") = Normal output /\
     (forall out, output = VStr out -> out = []) /\
     r = jsonResponse 502
           (errorBody (js "No text output received from model.") rid [])) \/
  (exists resp out e,
     called = Normal resp /\
     Get resp (js "output_text") = Normal (VStr out) /\ out <> [] /\
     JSON_parse out = Throw e /\
     r = jsonResponse 502
           (errorBody (js "Model returned non-JSON output.") rid
              (debugFields env [(js "model_output", VStr (slice0 2000 out))]))) \/
  (exists resp out parsed details,
     called = Normal resp /\
     Get resp (js "output_text") = Normal (VStr out) /\ out <> [] /\
     JSON_parse out = Normal parsed /\
     validate ep parsed = Normal (Some details) /\ details <> [] /\
     r = jsonResponse 502
           (errorBody (js "Model returned an invalid response shape.") rid
              (debugFields env [(js "details", VStr details);
                                (js "model_output", VStr (slice0 2000 out))]))) \/
  (exists resp out parsed,
     called = Normal resp /\
     Get resp (js "output_text") = Normal (VStr out) /\ out <> [] /\
     JSON_parse out = Normal parsed /\
     (validate ep parsed = Normal None \/ validate ep parsed = Normal (Some [])) /\
     r = jsonResponse 200 parsed).

(** ** The page *)

(** The request for [trimmed] was answered with an ok status and a text that
    parses to the object [json]. *)
Definition planReceived (JSON_parse : jsstr -> completion value)
    (fetch : fetchInit -> completion fetchResponse)
    (trimmed : jsstr) (json : value) : Prop :=
  exists res t,
    fetch (planRequest trimmed) = Normal res /\ ok res = true /\
    text res = Normal t /\ json = parseOrNull JSON_parse t /\
    truthy json = true /\ isObjectType (typeof json) = true.

(** The state after a failed run: the message [shown] as an error, the
    loading flag off, the input and the result as they were. *)
Definition failed (st : App.state) (shown : value) : App.state :=
  {| App.input := App.input st; App.loading := false; App.message := shown;
     App.messageKind := js "error"; App.result := App.result st |}.

(** What the page appends to a message for the correlation id [id]. *)
Definition requestIdSuffix (id : jsstr) : jsstr :=
  js " (requestId: " ++ id ++ js ")".

(** * Sample data and a sample host *)

Definition strings (l : list string) : value :=
  VArr (map (fun s => VStr (js s)) l).

Definition samplePlan : value :=
  VObj [(js "problem_statement", VStr (js "Tickets are triaged by hand."));
        (js "clarifying_questions",
         strings ["How many tickets?"; "Which tools?"; "Who owns routing?"]%string);
        (js "proposed_approach",
         strings ["Collect samples"; "Label them"; "Train a router"; "Pilot it"]%string);
        (js "recommended_tools", strings ["Jira"]%string);
        (js "risks_and_privacy", strings ["Tickets may hold personal data"]%string);
        (js "next_steps",
         strings ["Define the labels"; "Implement the router"; "Review results";
                  "Automate routing"]%string)].

(** A plan whose steps are numbered: fine for generatePlan, not for triage. *)
Definition numberedPlan : value :=
  VObj [(js "problem_statement", VStr (js "Tickets are triaged by hand."));
        (js "clarifying_questions",
         strings ["How many tickets?"; "Which tools?"; "Who owns routing?"]%string);
        (js "proposed_approach",
         strings ["Collect samples"; "Label them"; "Train a router"; "Pilot it"]%string);
        (js "recommended_tools", strings ["Jira"]%string);
        (js "risks_and_privacy", strings ["Tickets may hold personal data"]%string);
        (js "next_steps",
         strings ["1. Define the labels"; "2. Implement the router";
                  "3. Review results"; "4. Automate routing"]%string)].

Definition syntaxError : value :=
  VObj [(js "name", VStr (js "SyntaxError"))].

(** A parser that knows the given texts only. *)
Definition tableParse (table : list (jsstr * value)) (s : jsstr) : completion value :=
  match lookup s table with
  | Some v => Normal v
  | None => Throw syntaxError
  end.

Definition longText : jsstr := repeat 97 (N.to_nat 8001).
Definition bigBody : jsstr := repeat 97 (N.to_nat 65537).

Definition sampleParse : jsstr -> completion value :=
  tableParse [(js "{}", VObj []);
              (js "REQ", VObj [(js "userMessage", VStr (js "Our tickets pile up"))]);
              (js "BLANK", VObj [(js "userMessage", VStr (js "   "));
                                 (js "priority", VStr (js "high"))]);
              (js "LONG", VObj [(js "userMessage", VStr longText)]);
              (js "PLAN", samplePlan);
              (js "EMPTY", VObj [])].

Definition sampleDecode (s : jsstr) : jsstr := s.
Definition sampleString (v : value) : jsstr := js "[object Object]".

Definition answering (out : jsstr) (params : createParams) : completion value :=
  Normal (VObj [(js "output_text", VStr out)]).

Definition failing (status : Z) (params : createParams) : completion value :=
  Throw (VObj [(js "status", VNum (ofZ status));
               (js "message", VStr (js "upstream said no"))]).

Definition sampleEnv : environment :=
  {| OPENAI_API_KEY := Some (js "sk-test");
     OPENAI_MODEL := None;
     DEBUG_ERRORS_variable := None |}.

Definition debugEnv : environment :=
  {| OPENAI_API_KEY := Some (js "sk-test");
     OPENAI_MODEL := None;
     DEBUG_ERRORS_variable := Some (js "TRUE") |}.

Definition keylessEnv : environment :=
  {| OPENAI_API_KEY := None;
     OPENAI_MODEL := None;
     DEBUG_ERRORS_variable := None |}.

Definition sampleHeaders : value :=
  VObj [(js "content-type", VStr (js "application/json"));
        (js "x-request-id", VStr (js "req-1"))].

Definition sampleEvent (method : string) (body : option jsstr) : Event.t :=
  {| Event.httpMethod := js method;
     Event.headers := sampleHeaders;
     Event.body := body;
     Event.isBase64Encoded := false |}.

(** A request with two different ids: the one under [x-nf-request-id] comes
    first in the order of [getRequestId], whatever the order of the headers. *)
Definition twoIdEvent : Event.t :=
  {| Event.httpMethod := js "POST";
     Event.headers := VObj [(js "x-request-id", VStr (js "req-1"));
                            (js "x-nf-request-id", VStr (js "nf-7"))];
     Event.body := Some (js "REQ");
     Event.isBase64Encoded := false |}.

(** A parser for the page and for the function behind it: the body the
    page posts, a plan and an error envelope. *)
Definition pageParse : jsstr -> completion value :=
  tableParse [(js "PAGE", VObj [(js "input", VStr (js "Our tickets pile up"))]);
              (js "PLAN", samplePlan);
              (js "ERR",
               errorBody (js "Rate limited by LLM provider. Try again shortly.")
                         (VStr (js "req-1")) [])].

Definition samplePage : App.state :=
  {| App.input := js "  Our tickets pile up ";
     App.loading := false;
     App.message := VStr (js "earlier message");
     App.messageKind := js "error";
     App.result := VNull |}.

(** A server that answers every request with the given status and text. *)
Definition replying (code : N) (body : jsstr) (init : fetchInit) :
    completion fetchResponse :=
  Normal {| status := code; text := Normal body |}.

(** * Properties *)

(** ** The patterns on a few items *)

Example triage_pattern_ex1 : test triageNextStepsPattern (js "Gather the logs") = true.
Proof. reflexivity. Qed.
Example triage_pattern_ex2 : test triageNextStepsPattern (js "Settle the logs") = false.
Proof. reflexivity. Qed.
Example triage_pattern_ex3 : test triageNextStepsPattern (js "1. Gather the logs") = false.
Proof. reflexivity. Qed.
Example plan_pattern_ex1 : test planNextStepsPattern (js "1. Gather the logs") = true.
Proof. reflexivity. Qed.
Example plan_pattern_ex2 : test planNextStepsPattern (js "  Gather the logs") = false.
Proof. reflexivity. Qed.
Example plan_pattern_ex3 : test planNextStepsPattern (js " - Ab") = true.
Proof. reflexivity. Qed.
Example plan_pattern_ex4 : test planNextStepsPattern (js "Ab1 cd") = false.
Proof. reflexivity. Qed.

(** ** The matcher on the pattern shapes used *)

Module RegexFacts.

Lemma exec_Cat r1 r2 b a k :
  exec (Cat r1 r2) b a k = exec r1 b a (fun b' a' => exec r2 b' a' k).
Proof. reflexivity. Qed.

Lemma exec_Class p b a k :
  exec (Class p) b a k = true <->
  exists c y, a = c :: y /\ p c = true /\ k (c :: b) y = true.
Proof.
  destruct a as [|c a']; simpl.
  - split; [discriminate | intros (c & y & H & _); discriminate].
  - rewrite andb_true_iff. split.
    + intros [Hp Hk]. now exists c, a'.
    + intros (c' & y & H & Hp & Hk). injection H as -> ->. now split.
Qed.

Lemma loop_Class p n : forall b a k,
  (List.length a <= n)%nat ->
  loop (exec (Class p)) n b a k = true <->
  exists x y, a = x ++ y /\ forallb p x = true /\ k (rev x ++ b) y = true.
Proof.
  induction n as [|n IH]; intros b a k Hlen.
  - destruct a; [|simpl in Hlen; lia]. simpl. split.
    + intros Hk. now exists [], [].
    + intros (x & y & H & _ & Hk). symmetry in H.
      apply app_eq_nil in H as [-> ->]. exact Hk.
  - cbn [loop]. rewrite orb_true_iff, exec_Class. split.
    + intros [(c & y & -> & Hp & H) | Hk].
      * apply andb_true_iff in H as [_ H].
        apply IH in H; [|simpl in Hlen; lia].
        destruct H as (x & y' & -> & Hx & Hk).
        exists (c :: x), y'. simpl. rewrite Hp, Hx, <- app_assoc.
        now repeat split.
      * now exists [], a.
    + intros (x & y & -> & Hx & Hk). destruct x as [|c x].
      * now right.
      * left. simpl in Hx. apply andb_true_iff in Hx as [Hp Hx].
        exists c, (x ++ y). repeat split; trivial.
        apply andb_true_iff. split.
        -- apply Nat.ltb_lt. simpl. lia.
        -- apply IH; [simpl in Hlen; lia|].
           exists x, y. simpl in Hk. rewrite <- app_assoc in Hk.
           now repeat split.
Qed.

Lemma exec_Star_Class p b a k :
  exec (Star (Class p)) b a k = true <->
  exists x y, a = x ++ y /\ forallb p x = true /\ k (rev x ++ b) y = true.
Proof. apply loop_Class. reflexivity. Qed.

Lemma exec_Plus_Class p b a k :
  exec (Plus (Class p)) b a k = true <->
  exists c x y, a = c :: x ++ y /\ forallb p (c :: x) = true /\
                k (rev (c :: x) ++ b) y = true.
Proof.
  unfold Plus. rewrite exec_Cat, exec_Class. split.
  - intros (c & y & -> & Hp & H). apply exec_Star_Class in H.
    destruct H as (x & y' & -> & Hx & Hk).
    exists c, x, y'. simpl. rewrite Hp, Hx, <- app_assoc. now repeat split.
  - intros (c & x & y & -> & Hx & Hk). simpl in Hx.
    apply andb_true_iff in Hx as [Hp Hx].
    exists c, (x ++ y). repeat split; trivial.
    apply exec_Star_Class. exists x, y. simpl in Hk.
    rewrite <- app_assoc in Hk. now repeat split.
Qed.

Lemma exec_Lit w : forall b a k,
  exec (Lit w) b a k = true <->
  exists y, a = w ++ y /\ k (rev w ++ b) y = true.
Proof.
  induction w as [|c w IH]; intros b a k.
  - simpl. split; [intros H; now exists a | now intros (y & -> & H)].
  - cbn [Lit]. rewrite exec_Cat. unfold Chr. rewrite exec_Class. split.
    + intros (c' & y & -> & Hc & H). apply N.eqb_eq in Hc as <-.
      apply IH in H as (y' & -> & Hk). exists y'. simpl.
      rewrite <- app_assoc. now split.
    + intros (y & -> & Hk). exists c, (w ++ y). repeat split.
      * apply N.eqb_refl.
      * apply IH. exists y. simpl in Hk. rewrite <- app_assoc in Hk. now split.
Qed.

Lemma exec_Alts_Lit (ws : list jsstr) : forall b a k,
  exec (Alts (map Lit ws)) b a k = true <->
  exists w y, In w ws /\ a = w ++ y /\ k (rev w ++ b) y = true.
Proof.
  induction ws as [|w ws IH]; intros b a k.
  - simpl. destruct a; split; try discriminate; now intros (? & ? & [] & _).
  - assert (Hor : exec (Alts (map Lit (w :: ws))) b a k =
                  exec (Lit w) b a k || exec (Alts (map Lit ws)) b a k).
    { destruct ws as [|w' ws']; [|reflexivity].
      cbn [map Alts]. destruct (exec (Lit w) b a k); [reflexivity|].
      destruct a; reflexivity. }
    rewrite Hor, orb_true_iff, exec_Lit, IH. split.
    + intros [(y & -> & Hk) | (w' & y & Hin & -> & Hk)].
      * exists w, y. repeat split; trivial. now left.
      * exists w', y. repeat split; trivial. now right.
    + intros (w' & y & [<- | Hin] & -> & Hk).
      * left. now exists y.
      * right. now exists w', y.
Qed.

Lemma exec_restOfLine b a :
  exec restOfLine b a accept = true <-> forallb dot a = true.
Proof.
  unfold restOfLine. rewrite exec_Cat, exec_Star_Class. split.
  - intros (x & y & -> & Hx & H). destruct y; [|discriminate].
    now rewrite app_nil_r.
  - intros H. exists a, []. rewrite app_nil_r. now repeat split.
Qed.

Lemma search_anchored r : forall a b,
  b <> [] -> search (Cat AssertStart r) b a = false.
Proof.
  induction a as [|c a IH]; intros b Hb; destruct b as [|c0 b]; try congruence.
  - reflexivity.
  - cbn [search]. rewrite IH by discriminate. reflexivity.
Qed.

Lemma test_anchored r s :
  test (Cat AssertStart r) s = exec r [] s accept.
Proof.
  unfold test. destruct s as [|c s]; cbn [search].
  - rewrite exec_Cat. cbn [exec]. apply orb_false_r.
  - rewrite search_anchored by discriminate. rewrite exec_Cat. cbn [exec].
    apply orb_false_r.
Qed.

End RegexFacts.

Module PatternFacts.
Import RegexFacts.

Ltac reassoc := repeat (rewrite <- app_assoc; simpl); reflexivity.

Lemma exec_WordBoundary b a k :
  exec WordBoundary b a k = xorb (isWordAt b) (isWordAt a) && k b a.
Proof. reflexivity. Qed.

Lemma exec_Opt r b a k :
  exec (Opt r) b a k = exec r b a k || k b a.
Proof. reflexivity. Qed.

Lemma exec_Or r1 r2 b a k :
  exec (Or r1 r2) b a k = exec r1 b a k || exec r2 b a k.
Proof. reflexivity. Qed.

Lemma letter_isWordChar c : letter c = true -> isWordChar c = true.
Proof.
  unfold letter, isWordChar. intros H. apply orb_true_iff in H as [-> | ->].
  - reflexivity.
  - now rewrite orb_true_r.
Qed.

Lemma upper_letter c : upper c = true -> letter c = true.
Proof. unfold letter, upper. intros ->. apply orb_true_r. Qed.

Lemma word_before l b :
  l <> [] -> forallb isWordChar l = true -> isWordAt (rev l ++ b) = true.
Proof.
  intros Hl Hall. destruct (rev l) as [|c r] eqn:E.
  - apply (f_equal (@rev N)) in E. rewrite rev_involutive in E. contradiction.
  - simpl. rewrite forallb_forall in Hall. apply Hall, in_rev.
    rewrite E. now left.
Qed.

Lemma letters_are_word l : forallb letter l = true -> forallb isWordChar l = true.
Proof.
  rewrite !forallb_forall. intros H c Hc. apply letter_isWordChar, H, Hc.
Qed.

Lemma boundary_after_word b a :
  isWordAt b = true ->
  exec (Cat WordBoundary restOfLine) b a accept = true <-> endsWord a.
Proof.
  intros Hb. rewrite exec_Cat, exec_WordBoundary, Hb, andb_true_iff.
  rewrite exec_restOfLine. unfold endsWord.
  destruct (isWordAt a); simpl; intuition congruence.
Qed.

Lemma verbs_are_words :
  forallb (fun w => nonEmpty w && forallb isWordChar w) (map js actionVerbs) = true.
Proof. vm_compute. reflexivity. Qed.

Lemma verbs_are_capitalized :
  forallb (fun w => match w with
                    | c :: ((_ :: _) as l) => upper c && forallb letter l
                    | _ => false
                    end) (map js actionVerbs) = true.
Proof. vm_compute. reflexivity. Qed.

(** The triage pattern, exactly. *)
Lemma triage_pattern_iff s :
  test triageNextStepsPattern s = true <->
  exists v rest, In v actionVerbs /\ s = js v ++ rest /\ endsWord rest.
Proof.
  unfold triageNextStepsPattern.
  rewrite test_anchored, exec_Cat, <- (map_map js Lit), exec_Alts_Lit.
  pose proof verbs_are_words as Hw. rewrite forallb_forall in Hw.
  assert (Hb : forall w b, In w (map js actionVerbs) -> isWordAt (rev w ++ b) = true).
  { intros w b Hin. apply Hw in Hin. apply andb_true_iff in Hin as [Hne Hall].
    apply word_before; trivial. now destruct w. }
  split.
  - intros (w & y & Hin & -> & Hk).
    apply boundary_after_word in Hk; [|now apply Hb].
    apply in_map_iff in Hin as (v & <- & Hv). now exists v, y.
  - intros (v & rest & Hv & -> & Hend).
    exists (js v), rest. assert (Hin : In (js v) (map js actionVerbs)) by now apply in_map.
    repeat split; trivial.
    apply boundary_after_word; [now apply Hb|exact Hend].
Qed.

Lemma exec_wordThenRest b a :
  exec wordThenRest b a accept = true <->
  exists c w rest, a = c :: w ++ rest /\ capitalizedWord c w /\ endsWord rest.
Proof.
  unfold wordThenRest, capitalizedWord. rewrite exec_Cat, exec_Class. split.
  - intros (c & y & -> & Hc & H). apply exec_Plus_Class in H.
    destruct H as (c0 & x & rest & -> & Hl & Hk).
    apply boundary_after_word in Hk.
    + exists c, (c0 :: x), rest. split; [reflexivity|]. split; [|exact Hk].
      repeat split; trivial. discriminate.
    + apply word_before; [discriminate|now apply letters_are_word].
  - intros (c & w & rest & -> & (Hc & Hne & Hl) & Hend).
    destruct w as [|c0 x]; [contradiction|].
    exists c, ((c0 :: x) ++ rest). repeat split; trivial.
    apply exec_Plus_Class. exists c0, x, rest. repeat split; trivial.
    apply boundary_after_word; [|exact Hend].
    apply word_before; [discriminate|now apply letters_are_word].
Qed.

Lemma exec_numberingPrefix b a (k : cont) :
  exec numberingPrefix b a k = true <->
  (exists sp d ds m sp' y,
      a = sp ++ (d :: ds) ++ m :: sp' ++ y /\
      forallb isWhiteSpace sp = true /\ forallb digit (d :: ds) = true /\
      numberingMark m = true /\ forallb isWhiteSpace sp' = true /\
      k (rev sp' ++ m :: rev (d :: ds) ++ rev sp ++ b) y = true) \/
  (exists sp m sp' y,
      a = sp ++ m :: sp' ++ y /\
      forallb isWhiteSpace sp = true /\ bulletMark m = true /\
      forallb isWhiteSpace sp' = true /\
      k (rev sp' ++ m :: rev sp ++ b) y = true).
Proof.
  unfold numberingPrefix. rewrite exec_Cat, exec_Star_Class. split.
  - intros (sp & y & -> & Hsp & H). rewrite exec_Or, orb_true_iff in H.
    destruct H as [H | H].
    + left. rewrite exec_Cat in H. apply exec_Plus_Class in H.
      destruct H as (d & ds & y1 & -> & Hds & H).
      rewrite exec_Cat in H. apply exec_Class in H.
      destruct H as (m & y2 & -> & Hm & H). apply exec_Star_Class in H.
      destruct H as (sp' & y3 & -> & Hsp' & Hk).
      exists sp, d, ds, m, sp', y3. now repeat split.
    + right. rewrite exec_Cat in H. apply exec_Class in H.
      destruct H as (m & y2 & -> & Hm & H). apply exec_Star_Class in H.
      destruct H as (sp' & y3 & -> & Hsp' & Hk).
      exists sp, m, sp', y3. now repeat split.
  - intros [(sp & d & ds & m & sp' & y & -> & Hsp & Hds & Hm & Hsp' & Hk)
           |(sp & m & sp' & y & -> & Hsp & Hm & Hsp' & Hk)].
    + exists sp, ((d :: ds) ++ m :: sp' ++ y). repeat split; trivial.
      rewrite exec_Or, orb_true_iff. left.
      rewrite exec_Cat. apply exec_Plus_Class.
      exists d, ds, (m :: sp' ++ y). repeat split; trivial.
      rewrite exec_Cat. apply exec_Class.
      exists m, (sp' ++ y). repeat split; trivial.
      apply exec_Star_Class. exists sp', y. now repeat split.
    + exists sp, (m :: sp' ++ y). repeat split; trivial.
      rewrite exec_Or, orb_true_iff. right.
      rewrite exec_Cat. apply exec_Class.
      exists m, (sp' ++ y). repeat split; trivial.
      apply exec_Star_Class. exists sp', y. now repeat split.
Qed.

(** The generatePlan pattern, exactly. *)
Lemma plan_pattern_iff s :
  test planNextStepsPattern s = true <->
  exists pre c w rest,
    s = pre ++ c :: w ++ rest /\
    (pre = [] \/ numbered pre \/ bulleted pre) /\
    capitalizedWord c w /\ endsWord rest.
Proof.
  unfold planNextStepsPattern. fold wordThenRest.
  rewrite test_anchored, exec_Cat, exec_Opt, orb_true_iff.
  rewrite exec_numberingPrefix. split.
  - intros [[H | H] | H].
    + destruct H as (sp & d & ds & m & sp' & y & -> & Hsp & Hds & Hm & Hsp' & Hk).
      apply exec_wordThenRest in Hk as (c & w & rest & -> & Hw & Hend).
      exists (sp ++ (d :: ds) ++ m :: sp'), c, w, rest.
      split; [reassoc|]. split; [|now split].
      right; left. exists sp, (d :: ds), m, sp'.
      repeat split; trivial. discriminate.
    + destruct H as (sp & m & sp' & y & -> & Hsp & Hm & Hsp' & Hk).
      apply exec_wordThenRest in Hk as (c & w & rest & -> & Hw & Hend).
      exists (sp ++ m :: sp'), c, w, rest.
      split; [reassoc|]. split; [|now split].
      right; right. now exists sp, m, sp'.
    + apply exec_wordThenRest in H as (c & w & rest & -> & Hw & Hend).
      exists [], c, w, rest. split; [reflexivity|]. split; [now left|now split].
  - intros (pre & c & w & rest & -> & Hpre & Hw & Hend).
    assert (Hk : forall b, exec wordThenRest b (c :: w ++ rest) accept = true).
    { intros b. apply exec_wordThenRest. now exists c, w, rest. }
    destruct Hpre as [-> | [(sp & ds & m & sp' & -> & Hsp & Hne & Hds & Hm & Hsp')
                           |(sp & m & sp' & -> & Hsp & Hm & Hsp')]].
    + right. apply Hk.
    + left; left. destruct ds as [|d ds]; [contradiction|].
      exists sp, d, ds, m, sp', (c :: w ++ rest).
      split; [reassoc|]. now repeat split.
    + left; right. exists sp, m, sp', (c :: w ++ rest).
      split; [reassoc|]. now repeat split.
Qed.

End PatternFacts.

Module ValidatorFacts.

Lemma str_eqb_eq s : forall t, str_eqb s t = true <-> s = t.
Proof.
  induction s as [|a s IH]; intros [|b t]; simpl; split;
    try congruence; try discriminate.
  - intros H. apply andb_true_iff in H as [Hab H].
    apply N.eqb_eq in Hab. apply IH in H. congruence.
  - intros H. injection H as -> ->. rewrite N.eqb_refl. simpl. now apply IH.
Qed.

Lemma includes_In ks k : includes ks k = true <-> In k ks.
Proof.
  unfold includes. rewrite existsb_exists. split.
  - intros (x & Hin & H). apply str_eqb_eq in H. now subst.
  - intros H. exists k. split; trivial. now apply str_eqb_eq.
Qed.

Lemma lookup_In k props : lookup k props <> None <-> In k (map fst props).
Proof.
  induction props as [|[k' v] props IH]; simpl.
  - intuition congruence.
  - destruct (str_eqb k k') eqn:E.
    + apply str_eqb_eq in E. subst. split; [now left | discriminate].
    + rewrite IH. split; [now right|]. intros [H | H]; trivial.
      subst. assert (str_eqb k k = true) by now apply str_eqb_eq. congruence.
Qed.

Lemma unexpectedProperty_None keys :
  unexpectedProperty keys = None <-> forall k, In k keys -> In k allowedKeys.
Proof.
  induction keys as [|k keys IH]; cbn [unexpectedProperty].
  - simpl. intuition.
  - destruct (includes allowedKeys k) eqn:E; cbn [negb].
    + rewrite IH. apply includes_In in E. split.
      * intros H k' [<- | Hin]; auto.
      * intros H k' Hin. apply H. now right.
    + split; [discriminate|]. intros H.
      assert (Hk : In k allowedKeys) by (apply H; now left).
      apply includes_In in Hk. congruence.
Qed.

Lemma allowed_not_inherited k :
  In k allowedKeys -> includes objectPrototypeKeys k = false.
Proof.
  assert (H : forallb (fun k => negb (includes objectPrototypeKeys k)) allowedKeys = true)
    by (vm_compute; reflexivity).
  rewrite forallb_forall in H. intros Hin. apply H in Hin.
  now apply negb_true_iff in Hin.
Qed.

Lemma missingProperty_obj props ks :
  (forall k, In k ks -> In k allowedKeys) ->
  exists r, missingProperty (VObj props) ks = Normal r /\
            (r = None <-> forall k, In k ks -> In k (map fst props)).
Proof.
  induction ks as [|k ks IH]; intros Hks; cbn [missingProperty HasProperty bind].
  - exists None. simpl. intuition.
  - rewrite (@allowed_not_inherited k) by (apply Hks; now left).
    destruct (lookup k props) eqn:E; cbn [negb].
    + destruct IH as (r & -> & Hr); [intros; apply Hks; now right|].
      exists r. split; trivial. rewrite Hr. split.
      * intros H k' [<- | Hin]; auto. apply lookup_In. congruence.
      * intros H k' Hin. apply H. now right.
    + eexists. split; [reflexivity|]. split; [discriminate|]. intros H.
      assert (Hk : In k (map fst props)) by (apply H; now left).
      apply lookup_In in Hk. congruence.
Qed.

Lemma checkItems_None field minLen pattern items :
  checkItems field minLen pattern items = None <->
  Forall (fun item => exists s, item = VStr s /\ minLen <= strlen (trim s) /\
                               patternOk pattern s) items.
Proof.
  induction items as [|item items IH]; simpl.
  - split; trivial.
  - rewrite Forall_cons_iff, <- IH. clear IH.
    destruct item as [| |b|n|s|l|o];
      try (split; [discriminate | intros [(s' & H & _) _]; discriminate]).
    destruct (strlen (trim s) <? minLen) eqn:Elen.
    + apply N.ltb_lt in Elen. split; [discriminate|].
      intros [(s' & H & Hlen & _) _]. injection H as <-. lia.
    + apply N.ltb_ge in Elen. destruct pattern as [p|]; simpl.
      * destruct (test p s) eqn:Et; simpl.
        -- split; [|tauto]. intros H. split; trivial. now exists s.
        -- split; [discriminate|]. intros [(s' & H & _ & Hp) _].
           injection H as <-. unfold matches in Hp. congruence.
      * split; [|tauto]. intros H. split; trivial. exists s.
        repeat split; trivial.
Qed.

Lemma checkArray_obj props (field : string) lo hi minLen pattern :
  exists r, checkArray (VObj props) (js field) lo hi minLen pattern = Normal r /\
            (r = None <-> stringsField props field lo hi minLen (patternOk pattern)).
Proof.
  unfold checkArray, stringsField. cbn [Get bind].
  destruct (lookup (js field) props) as [[| |b|n|s|items|o]|];
    try (eexists; split; [reflexivity|]; split;
         [discriminate | intros (items' & H & _); discriminate]).
  destruct ((N.of_nat (List.length items) <? lo) || (hi <? N.of_nat (List.length items)))
    eqn:E.
  - eexists; split; [reflexivity|]. split; [discriminate|].
    intros (items' & H & Hlen & _). injection H as <-.
    apply orb_true_iff in E as [E | E]; apply N.ltb_lt in E; lia.
  - eexists; split; [reflexivity|]. apply orb_false_iff in E as [E1 E2].
    apply N.ltb_ge in E1, E2. rewrite checkItems_None. split.
    + intros H. exists items. repeat split; trivial.
    + intros (items' & H & _ & Hall). now injection H as <-.
Qed.

Lemma orElse_chain props (field : string) lo hi minLen pattern next :
  (exists r, next = Normal r) ->
  exists r, orElse (checkArray (VObj props) (js field) lo hi minLen pattern) next
            = Normal r /\
            (r = None <->
             stringsField props field lo hi minLen (patternOk pattern) /\
             next = Normal None).
Proof.
  intros (rn & ->).
  destruct (checkArray_obj props field lo hi minLen pattern) as (r & Hr & Hiff).
  unfold orElse. rewrite Hr. cbn [bind]. destruct r as [msg|].
  - eexists; split; [reflexivity|]. split; [discriminate|].
    intros [H _]. apply Hiff in H. discriminate.
  - exists rn. split; trivial. split.
    + intros ->. split; trivial. now apply Hiff.
    + intros [_ H]. now injection H.
Qed.

Lemma guard_object v :
  negb (truthy v) || negb (isObjectType (typeof v)) || isArray v = false <->
  exists props, v = VObj props.
Proof.
  destruct v as [| |b|n|s|l|props]; cbn [typeof isObjectType isArray negb];
    rewrite ?orb_true_r; cbn [orb];
    try (split; [discriminate | intros (props' & H); discriminate]).
  split; [intros _; now exists props | reflexivity].
Qed.

(** A validator returns, and returns [null] exactly on conforming values. *)
Lemma validateShape_returns pattern v :
  exists r, validateShape pattern v = Normal r /\
            (r = None <-> conforms (matches pattern) v).
Proof.
  unfold validateShape, conforms.
  destruct (negb (truthy v) || negb (isObjectType (typeof v)) || isArray v) eqn:G.
  - eexists; split; [reflexivity|]. split; [discriminate|].
    intros (props & -> & _).
    assert (H : exists p, VObj props = VObj p) by now exists props.
    apply guard_object in H. congruence.
  - apply guard_object in G as (props & ->). cbn [Object_keys bind].
    destruct (unexpectedProperty (map fst props)) as [msg|] eqn:U.
    { eexists; split; [reflexivity|]. split; [discriminate|].
      intros (props' & H & Hkeys & _). injection H as <-.
      assert (U' : unexpectedProperty (map fst props) = None)
        by (apply unexpectedProperty_None; intros k; apply Hkeys).
      congruence. }
    rewrite unexpectedProperty_None in U.
    destruct (@missingProperty_obj props allowedKeys) as (m & -> & Hm); [trivial|].
    cbn [bind]. destruct m as [msg|].
    { eexists; split; [reflexivity|]. split; [discriminate|].
      intros (props' & H & Hkeys & _). injection H as <-.
      assert (Hn : @None jsstr = None) by reflexivity.
      destruct Hm as [_ Hm]. discriminate Hm. intros k; apply Hkeys. }
    assert (Hkeys : forall k, In k (map fst props) <-> In k allowedKeys).
    { intros k; split; [apply U | now apply Hm]. }
    cbn [Get].
    destruct (lookup (js "problem_statement") props) as [ps|] eqn:P;
      [destruct ps as [| |b|n|s|l|o]|]; cbn [bind];
      try (eexists; split; [reflexivity|]; split; [discriminate|];
           intros (props' & H & _ & (s' & Hs & _) & _); injection H as <-;
           congruence).
    destruct (strlen (trim s) <? 10) eqn:L.
    { eexists; split; [reflexivity|]. split; [discriminate|].
      intros (props' & H & _ & (s' & Hs & Hlen) & _). injection H as <-.
      apply N.ltb_lt in L. assert (s' = s) by congruence. subst. lia. }
    apply N.ltb_ge in L.
    destruct (@checkArray_obj props "next_steps" 4 7 3 (Some pattern))
      as (r5 & E5 & H5).
    destruct (@orElse_chain props "risks_and_privacy" 1 10 5 None _
                (ex_intro _ r5 E5)) as (r4 & E4 & H4).
    destruct (@orElse_chain props "recommended_tools" 1 10 2 None _
                (ex_intro _ r4 E4)) as (r3 & E3 & H3).
    destruct (@orElse_chain props "proposed_approach" 4 7 5 None _
                (ex_intro _ r3 E3)) as (r2 & E2 & H2).
    destruct (@orElse_chain props "clarifying_questions" 3 5 5 None _
                (ex_intro _ r2 E2)) as (r1 & E1 & H1).
    exists r1. split; [exact E1|]. cbn [patternOk] in *. split.
    + intros ->. destruct H1 as [H1 _]. destruct (H1 eq_refl) as [F1 N1].
      rewrite E2 in N1. injection N1 as ->.
      destruct H2 as [H2 _]. destruct (H2 eq_refl) as [F2 N2].
      rewrite E3 in N2. injection N2 as ->.
      destruct H3 as [H3 _]. destruct (H3 eq_refl) as [F3 N3].
      rewrite E4 in N3. injection N3 as ->.
      destruct H4 as [H4 _]. destruct (H4 eq_refl) as [F4 N4].
      rewrite E5 in N4. injection N4 as ->.
      exists props. repeat split; try apply Hkeys; trivial.
      * now exists s.
      * now apply H5.
    + intros (props' & H & _ & _ & F1 & F2 & F3 & F4 & F5). injection H as <-.
      apply H5 in F5. subst r5.
      assert (r4 = None) as -> by (apply H4; now split).
      assert (r3 = None) as -> by (apply H3; now split).
      assert (r2 = None) as -> by (apply H2; now split).
      apply H1. now split.
Qed.

Lemma validateShape_None pattern v :
  validateShape pattern v = Normal None <-> conforms (matches pattern) v.
Proof.
  destruct (validateShape_returns pattern v) as (r & -> & H). rewrite <- H.
  split; [now intros [= ->] | now intros ->].
Qed.

(** Every error message is a non-empty string, so that [if (shapeError)]
    in the handlers is the test for an error. *)
Lemma nonEmpty_app_r s t : nonEmpty t = true -> nonEmpty (s ++ t) = true.
Proof. destruct s; simpl; trivial. Qed.

Lemma nonEmpty_app_l s t : nonEmpty s = true -> nonEmpty (s ++ t) = true.
Proof. destruct s; simpl; [discriminate|trivial]. Qed.

Lemma unexpectedProperty_message keys m :
  unexpectedProperty keys = Some m -> nonEmpty m = true.
Proof.
  induction keys as [|k keys IH]; cbn [unexpectedProperty]; [discriminate|].
  destruct (negb (includes allowedKeys k)); [|exact IH].
  intros [= <-]. reflexivity.
Qed.

Lemma missingProperty_message obj ks m :
  missingProperty obj ks = Normal (Some m) -> nonEmpty m = true.
Proof.
  induction ks as [|k ks IH]; cbn [missingProperty]; [discriminate|].
  destruct (HasProperty k obj) as [present|e]; cbn [bind]; [|discriminate].
  destruct (negb present); [|exact IH].
  intros [= <-]. reflexivity.
Qed.

Lemma checkItems_message field minLen pattern items m :
  checkItems field minLen pattern items = Some m -> nonEmpty m = true.
Proof.
  induction items as [|item items IH]; cbn [checkItems]; [discriminate|].
  assert (H1 : nonEmpty (field ++ js " items must be strings (minLength " ++
                         showN minLen ++ js ").") = true)
    by now apply nonEmpty_app_r, nonEmpty_app_l.
  assert (H2 : nonEmpty (field ++ js " items must match required pattern.") = true)
    by now apply nonEmpty_app_r.
  destruct item as [| |b|n|s|l|o]; try (now intros [= <-]).
  destruct (strlen (trim s) <? minLen); [now intros [= <-]|].
  destruct pattern as [p|]; [|exact IH].
  destruct (negb (test p s)); [now intros [= <-]|exact IH].
Qed.

Lemma checkArray_message obj field lo hi minLen pattern m :
  checkArray obj field lo hi minLen pattern = Normal (Some m) -> nonEmpty m = true.
Proof.
  unfold checkArray. destruct (Get obj field) as [arr|e]; cbn [bind]; [|discriminate].
  assert (H1 : nonEmpty (field ++ js " must be an array.") = true)
    by now apply nonEmpty_app_r.
  assert (H2 : nonEmpty (field ++ js " must have " ++ showN lo ++ js "-" ++
                         showN hi ++ js " items.") = true)
    by now apply nonEmpty_app_r, nonEmpty_app_l.
  destruct arr as [| |b|n|s|items|o]; try (now intros [= <-]).
  destruct ((N.of_nat (List.length items) <? lo) || (hi <? N.of_nat (List.length items)));
    [now intros [= <-]|].
  intros [= H]. now apply checkItems_message in H.
Qed.

Lemma orElse_message a b m :
  orElse a b = Normal (Some m) -> a = Normal (Some m) \/ b = Normal (Some m).
Proof.
  unfold orElse. destruct a as [[x|]|e]; cbn [bind]; auto; discriminate.
Qed.

Lemma validateShape_message pattern v m :
  validateShape pattern v = Normal (Some m) -> m <> [].
Proof.
  intros H. assert (Hm : nonEmpty m = true); [|now destruct m].
  revert H. unfold validateShape.
  destruct (negb (truthy v) || negb (isObjectType (typeof v)) || isArray v);
    [now intros [= <-]|].
  destruct (Object_keys v) as [keys|e]; cbn [bind]; [|discriminate].
  destruct (unexpectedProperty keys) as [u|] eqn:U.
  { intros [= <-]. now apply unexpectedProperty_message in U. }
  destruct (missingProperty v allowedKeys) as [[w|]|e] eqn:W; cbn [bind];
    [|idtac|discriminate].
  { intros [= <-]. now apply missingProperty_message in W. }
  destruct (Get v (js "problem_statement")) as [ps|e]; cbn [bind]; [|discriminate].
  destruct ps as [| |b|n|s|l|o]; try (now intros [= <-]).
  destruct (strlen (trim s) <? 10); [now intros [= <-]|].
  intros H.
  repeat (apply orElse_message in H as [H | H];
          [now apply checkArray_message in H|]).
  now apply checkArray_message in H.
Qed.

End ValidatorFacts.

Module HandlerFacts.
Import ValidatorFacts.

Lemma trimStart_nil s : trimStart s = [] <-> forallb isWhiteSpace s = true.
Proof.
  induction s as [|c s IH]; simpl; [tauto|].
  destruct (isWhiteSpace c); simpl; [exact IH|]. split; discriminate.
Qed.

Lemma trim_nil s : trim s = [] <-> forallb isWhiteSpace s = true.
Proof.
  unfold trim. split.
  - intros H. destruct (trimStart s) as [|c t] eqn:E.
    + now apply trimStart_nil.
    + exfalso. apply (f_equal (@rev N)) in H. rewrite rev_involutive in H.
      simpl in H. apply trimStart_nil in H. rewrite forallb_forall in H.
      assert (Hc : isWhiteSpace c = true).
      { apply H. apply in_or_app. right. now left. }
      destruct s as [|c0 s]; [discriminate|]. simpl in E.
      assert (Hs : forall l, trimStart l = c :: t -> isWhiteSpace c = false).
      { clear. induction l as [|a l IH]; simpl; [discriminate|].
        destruct (isWhiteSpace a) eqn:Ea; [exact IH|]. now intros [= <- _]. }
      assert (Hf : isWhiteSpace c = false) by (apply (Hs (c0 :: s)); exact E).
      congruence.
  - intros H. apply trimStart_nil in H. now rewrite H.
Qed.

Lemma answered_jsonResponse outcome code v calls :
  outcome = (Normal (jsonResponse code v), calls) -> answered outcome code v calls.
Proof.
  intros ->. exists (jsonResponse code v).
  split; [reflexivity|]. split; [reflexivity|]. split; reflexivity.
Qed.

Lemma answered_inv outcome code v calls :
  answered outcome code v calls -> outcome = (Normal (jsonResponse code v), calls).
Proof.
  intros (r & -> & H1 & H2 & H3). destruct r as [c h b]. simpl in H1, H2, H3.
  now subst.
Qed.

Lemma bodyTooLarge_bytes event :
  bodyTooLarge event = (MAX_BODY_BYTES <? bodyBytes event).
Proof.
  unfold bodyTooLarge, bodyBytes. now destruct (Event.body event) as [[|c b]|].
Qed.

Lemma truthy_vor a : truthy (vor a (VObj [])) = true.
Proof. unfold vor. now destruct (truthy a) eqn:E. Qed.

Lemma Get_truthy v k :
  truthy v = true ->
  Get v k = Normal (match v with
                    | VObj props =>
                        match lookup k props with Some x => x | None => VUndefined end
                    | _ => VUndefined
                    end).
Proof. destruct v; simpl; try discriminate; reflexivity. Qed.

Lemma getRequestId_returns event : exists rid, getRequestId event = Normal rid.
Proof.
  unfold getRequestId. rewrite !Get_truthy by apply truthy_vor.
  cbn [bind]. eauto.
Qed.

Lemma GetOptional_returns v k : exists x, GetOptional v k = Normal x.
Proof. destruct v; simpl; eauto. Qed.

Lemma toHttpError_returns err :
  exists e, toHttpError err = Normal e /\
            (errStatusCode e = 429 \/ errStatusCode e = 502).
Proof.
  unfold toHttpError. destruct (GetOptional_returns err (js "status")) as (s & ->).
  cbn [bind].
  repeat match goal with
         | |- context [if ?c then _ else _] => destruct c
         end; eexists; split; try reflexivity; simpl; auto.
Qed.

Lemma Get_payload field parsed :
  Get (vor parsed (VObj [])) field =
  Normal (match vor parsed (VObj []) with
          | VObj props =>
              match lookup field props with Some x => x | None => VUndefined end
          | _ => VUndefined
          end).
Proof. apply Get_truthy, truthy_vor. Qed.

Lemma textOf_payload field parsed :
  match (match vor parsed (VObj []) with
         | VObj props =>
             match lookup field props with Some x => x | None => VUndefined end
         | _ => VUndefined
         end) with
  | VStr s => s
  | _ => []
  end = textOf field parsed.
Proof.
  unfold vor, textOf. destruct parsed as [| |b|n|s|l|props]; simpl; try reflexivity.
  - now destruct b.
  - destruct n; simpl; try reflexivity. now destruct (Qeq_bool q 0).
  - now destruct s.
  - destruct (lookup field props) as [[]|]; reflexivity.
Qed.

Section Stages.
Variable JSON_parse : jsstr -> completion value.
Variable base64ToUtf8 : jsstr -> jsstr.
Variable String_ : value -> jsstr.
Variable responses_create : createParams -> completion value.
Variable ep : endpoint.
Variable env : environment.

Local Abbreviation handler' := (handler JSON_parse base64ToUtf8 String_ responses_create ep env).
Local Abbreviation answer' := (answer JSON_parse base64ToUtf8 String_ responses_create ep env).
Local Abbreviation callProvider' := (callProvider JSON_parse responses_create ep env).
Local Abbreviation providerFailure' := (providerFailure String_ env).
Local Abbreviation bodyText' := (bodyText base64ToUtf8).

Lemma handler_options event log :
  Event.httpMethod event = js "OPTIONS" ->
  handler' event log = (Normal preflight, log).
Proof. intros H. unfold handler. rewrite H. reflexivity. Qed.

Lemma handler_other_method event log :
  Event.httpMethod event <> js "OPTIONS" ->
  Event.httpMethod event <> js "POST" ->
  handler' event log =
  (Normal (jsonResponse 405
             (VObj [(js "error", VStr (js "Method not allowed. Use POST."))])),
   log).
Proof.
  intros H1 H2. unfold handler.
  destruct (str_eqb (Event.httpMethod event) (js "OPTIONS")) eqn:E1.
  { apply str_eqb_eq in E1. contradiction. }
  destruct (str_eqb (Event.httpMethod event) (js "POST")) eqn:E2.
  { apply str_eqb_eq in E2. contradiction. }
  reflexivity.
Qed.

Lemma handler_no_key event log :
  Event.httpMethod event = js "POST" ->
  orDefault (OPENAI_API_KEY env) [] = [] ->
  handler' event log =
  (Normal (jsonResponse 500
             (VObj [(js "error",
                     VStr (js "Missing OPENAI_API_KEY environment variable."))])),
   log).
Proof.
  intros H K. unfold handler. rewrite H.
  change (str_eqb (js "POST") (js "OPTIONS")) with false.
  change (str_eqb (js "POST") (js "POST")) with true. cbn [negb].
  destruct (OPENAI_API_KEY env) as [[|c k]|]; try reflexivity. simpl in K. discriminate.
Qed.

Lemma handler_keyed event log key :
  Event.httpMethod event = js "POST" ->
  OPENAI_API_KEY env = Some key -> key <> [] ->
  exists rid,
    getRequestId event = Normal rid /\
    handler' event log =
    if bodyTooLarge event
    then (Normal (jsonResponse 413
                    (errorBody (js "Request body too large.") rid [])), log)
    else answer' key rid event log.
Proof.
  intros H K Hne. destruct (getRequestId_returns event) as (rid & Hrid).
  exists rid. split; trivial. unfold handler. rewrite H, K.
  change (str_eqb (js "POST") (js "OPTIONS")) with false.
  change (str_eqb (js "POST") (js "POST")) with true. cbn [negb].
  destruct key as [|c k]; [contradiction|].
  unfold bindM, lift. rewrite Hrid. now destruct (bodyTooLarge event).
Qed.

Lemma answer_invalid_json key rid event log e :
  JSON_parse (bodyText' event) = Throw e ->
  answer' key rid event log =
  (Normal (jsonResponse 400 (errorBody (js "Invalid JSON body.") rid [])), log).
Proof.
  intros H. unfold answer, safeJsonParse. now rewrite H.
Qed.

Lemma answer_parsed key rid event log parsed :
  JSON_parse (bodyText' event) = Normal parsed ->
  answer' key rid event log =
  let text := textOf (textField ep) parsed in
  if negb (nonEmpty (trim text)) then
    (Normal (jsonResponse 400
               (errorBody (js "Missing required field: " ++ textField ep) rid [])),
     log)
  else if MAX_INPUT_CHARS <? strlen text then
    (Normal (jsonResponse 400
               (errorBody (js "Input is too long. Please keep it under 8000 characters.")
                          rid [])),
     log)
  else tryCatch (callProvider' key rid text) (providerFailure' rid) log.
Proof.
  intros H. unfold answer, safeJsonParse. rewrite H.
  unfold bindM, lift. rewrite Get_payload, textOf_payload. cbv zeta.
  destruct (negb (nonEmpty (trim (textOf (textField ep) parsed)))); [reflexivity|].
  destruct (MAX_INPUT_CHARS <? strlen (textOf (textField ep) parsed)); reflexivity.
Qed.

Lemma providerFailure_returns rid err log :
  exists e extra,
    toHttpError err = Normal e /\
    providerFailure' rid err log =
    (Normal (jsonResponse (errStatusCode e) (errorBody (message e) rid extra)), log) /\
    (DEBUG_ERRORS env = false -> extra = []) /\
    (DEBUG_ERRORS env = true -> exists d, extra = [(js "details", d)]).
Proof.
  destruct (toHttpError_returns err) as (e & He & _).
  unfold providerFailure, bindM, lift, ret. rewrite He.
  destruct (DEBUG_ERRORS env).
  - destruct (GetOptional_returns err (js "message")) as (m & ->).
    exists e. eexists. repeat split; try reflexivity; try discriminate. eauto.
  - exists e, []. repeat split; try reflexivity; try discriminate.
Qed.

Lemma provider_throws key rid text log err :
  responses_create (request ep env key text) = Throw err ->
  tryCatch (callProvider' key rid text) (providerFailure' rid) log =
  providerFailure' rid err (log ++ [request ep env key text]).
Proof.
  intros H. unfold tryCatch, callProvider, bindM, invoke.
  now rewrite H.
Qed.

Lemma provider_success key rid text log resp out parsed :
  responses_create (request ep env key text) = Normal resp ->
  Get resp (js "output_text") = Normal (VStr out) -> out <> [] ->
  JSON_parse out = Normal parsed ->
  validate ep parsed = Normal None ->
  tryCatch (callProvider' key rid text) (providerFailure' rid) log =
  (Normal (jsonResponse 200 parsed), log ++ [request ep env key text]).
Proof.
  intros H G Hne P V. destruct out as [|c out]; [contradiction|].
  unfold tryCatch, callProvider, bindM, invoke, lift, safeJsonParse.
  now rewrite H, G, P, V.
Qed.

Lemma provider_non_json key rid text log resp out e :
  responses_create (request ep env key text) = Normal resp ->
  Get resp (js "output_text") = Normal (VStr out) -> out <> [] ->
  JSON_parse out = Throw e ->
  tryCatch (callProvider' key rid text) (providerFailure' rid) log =
  (Normal (jsonResponse 502
             (errorBody (js "Model returned non-JSON output.") rid
                (debugFields env [(js "model_output", VStr (slice0 2000 out))]))),
   log ++ [request ep env key text]).
Proof.
  intros H G Hne P. destruct out as [|c out]; [contradiction|].
  unfold tryCatch, callProvider, bindM, invoke, lift, safeJsonParse.
  now rewrite H, G, P.
Qed.

Lemma provider_invalid_shape key rid text log resp out parsed details :
  responses_create (request ep env key text) = Normal resp ->
  Get resp (js "output_text") = Normal (VStr out) -> out <> [] ->
  JSON_parse out = Normal parsed ->
  validate ep parsed = Normal (Some details) -> details <> [] ->
  tryCatch (callProvider' key rid text) (providerFailure' rid) log =
  (Normal (jsonResponse 502
             (errorBody (js "Model returned an invalid response shape.") rid
                (debugFields env [(js "details", VStr details);
                                  (js "model_output", VStr (slice0 2000 out))]))),
   log ++ [request ep env key text]).
Proof.
  intros H G Hne P V Hd. destruct out as [|c out]; [contradiction|].
  destruct details as [|d details]; [contradiction|].
  unfold tryCatch, callProvider, bindM, invoke, lift, safeJsonParse.
  now rewrite H, G, P, V.
Qed.

Lemma debugFields_off fields : DEBUG_ERRORS env = false -> debugFields env fields = [].
Proof. unfold debugFields. now intros ->. Qed.

(** Whatever the provider does, the provider stage answers, with a 200 or
    with an error envelope of status 429 or 502; one call is logged. *)
Lemma provider_stage key rid text log :
  exists r,
    tryCatch (callProvider' key rid text) (providerFailure' rid) log =
    (Normal r, log ++ [request ep env key text]) /\
    ((exists parsed, r = jsonResponse 200 parsed) \/
     exists code msg extra,
       r = jsonResponse code (errorBody msg rid extra) /\
       (code = 429 \/ code = 502) /\
       (DEBUG_ERRORS env = false -> extra = [])).
Proof.
  assert (Hfail : forall err,
    exists r, providerFailure' rid err (log ++ [request ep env key text]) =
              (Normal r, log ++ [request ep env key text]) /\
    exists code msg extra,
       r = jsonResponse code (errorBody msg rid extra) /\
       (code = 429 \/ code = 502) /\
       (DEBUG_ERRORS env = false -> extra = [])).
  { intros err.
    destruct (providerFailure_returns rid err (log ++ [request ep env key text]))
      as (e & extra & He & Hp & Hoff & _).
    destruct (toHttpError_returns err) as (e' & He' & Hcode).
    assert (e' = e) by congruence. subst e'.
    eexists. split; [exact Hp|]. exists (errStatusCode e), (message e), extra.
    now repeat split. }
  unfold tryCatch, callProvider, bindM, invoke, lift, safeJsonParse.
  destruct (responses_create (request ep env key text)) as [resp|err];
    [|destruct (Hfail err) as (r & Hr & Hc); exists r; split; [exact Hr|now right]].
  destruct (Get resp (js "output_text")) as [output|err];
    [|destruct (Hfail err) as (r & Hr & Hc); exists r; split; [exact Hr|now right]].
  assert (Hno : exists r,
    ret (jsonResponse 502
           (VObj [(js "error", VStr (js "No text output received from model."));
                  (js "requestId", rid)])) (log ++ [request ep env key text]) =
    (Normal r, log ++ [request ep env key text]) /\
    ((exists parsed, r = jsonResponse 200 parsed) \/
     exists code msg extra,
       r = jsonResponse code (errorBody msg rid extra) /\
       (code = 429 \/ code = 502) /\
       (DEBUG_ERRORS env = false -> extra = []))).
  { eexists. split; [reflexivity|]. right.
    exists 502, (js "No text output received from model."), []. now repeat split; auto. }
  destruct output as [| |b|n|[|c out]|l|o]; try exact Hno. clear Hno.
  destruct (JSON_parse (c :: out)) as [parsed|e].
  - destruct (validate ep parsed) as [[[|d details]|]|err].
    + eexists. split; [reflexivity|]. left. now exists parsed.
    + eexists. split; [reflexivity|]. right. do 3 eexists.
      split; [reflexivity|]. split; [now right|]. apply debugFields_off.
    + eexists. split; [reflexivity|]. left. now exists parsed.
    + destruct (Hfail err) as (r & Hr & Hc). exists r. split; [exact Hr|now right].
  - eexists. split; [reflexivity|]. right. do 3 eexists.
    split; [reflexivity|]. split; [now right|]. apply debugFields_off.
Qed.

(** Every response of a handler. *)
Lemma handler_outcomes event log :
  exists r log',
    handler' event log = (Normal r, log') /\
    (r = preflight \/
     r = jsonResponse 405
           (VObj [(js "error", VStr (js "Method not allowed. Use POST."))]) \/
     r = jsonResponse 500
           (VObj [(js "error",
                   VStr (js "Missing OPENAI_API_KEY environment variable."))]) \/
     (exists parsed, r = jsonResponse 200 parsed) \/
     exists rid code msg extra,
       getRequestId event = Normal rid /\
       r = jsonResponse code (errorBody msg rid extra) /\
       In code [413; 400; 429; 502] /\
       (DEBUG_ERRORS env = false -> extra = [])).
Proof.
  destruct (list_eq_dec N.eq_dec (Event.httpMethod event) (js "OPTIONS")) as [Ho|Ho].
  { do 2 eexists. split; [now apply handler_options|]. now left. }
  destruct (list_eq_dec N.eq_dec (Event.httpMethod event) (js "POST")) as [Hp|Hp].
  2:{ do 2 eexists. split; [now apply handler_other_method|]. right; now left. }
  destruct (OPENAI_API_KEY env) as [key|] eqn:K.
  2:{ do 2 eexists. split; [apply handler_no_key; trivial; now rewrite K|].
      right; right; now left. }
  destruct key as [|c key].
  { do 2 eexists. split; [apply handler_no_key; trivial; now rewrite K|].
    right; right; now left. }
  destruct (@handler_keyed event log (c :: key) Hp K) as (rid & Hrid & ->);
    [discriminate|].
  destruct (bodyTooLarge event).
  { do 2 eexists. split; [reflexivity|]. do 4 right.
    exists rid, 413, (js "Request body too large."), [].
    repeat split; trivial. simpl; auto. }
  destruct (JSON_parse (bodyText' event)) as [parsed|e] eqn:P.
  2:{ rewrite (answer_invalid_json _ _ _ _ P). do 2 eexists.
      split; [reflexivity|]. do 4 right.
      exists rid, 400, (js "Invalid JSON body."), [].
      repeat split; trivial. simpl; auto. }
  rewrite (answer_parsed _ _ _ _ P). cbv zeta.
  destruct (negb (nonEmpty (trim (textOf (textField ep) parsed)))).
  { do 2 eexists. split; [reflexivity|]. do 4 right.
    exists rid, 400. do 2 eexists. repeat split; trivial. simpl; auto. }
  destruct (MAX_INPUT_CHARS <? strlen (textOf (textField ep) parsed)).
  { do 2 eexists. split; [reflexivity|]. do 4 right.
    exists rid, 400. do 2 eexists. repeat split; trivial. simpl; auto. }
  destruct (provider_stage (c :: key) rid (textOf (textField ep) parsed) log)
    as (r & -> & [H200 | (code & msg & extra & -> & Hcode & Hoff)]).
  - do 2 eexists. split; [reflexivity|]. do 3 right. now left.
  - do 2 eexists. split; [reflexivity|]. do 4 right.
    exists rid, code, msg, extra. repeat split; trivial.
    simpl. destruct Hcode as [-> | ->]; auto.
Qed.

Lemma admitted_handler event key text log :
  admitted JSON_parse base64ToUtf8 ep env event key text ->
  exists rid,
    getRequestId event = Normal rid /\
    handler' event log =
    tryCatch (callProvider' key rid text) (providerFailure' rid) log.
Proof.
  intros (Hp & K & Hne & Hsize & parsed & P & -> & Ht & Hlen).
  destruct (@handler_keyed event log key Hp K Hne) as (rid & Hrid & ->).
  exists rid. split; trivial. apply N.ltb_ge in Hsize.
  rewrite bodyTooLarge_bytes, Hsize, (answer_parsed _ _ _ _ P). cbv zeta.
  destruct (trim (textOf (textField ep) parsed)) eqn:E; [contradiction|].
  cbn [nonEmpty negb].
  apply N.ltb_ge in Hlen. now rewrite Hlen.
Qed.

End Stages.

End HandlerFacts.

(** ** The validators *)

Section ValidatorClaims.
Import RegexFacts PatternFacts ValidatorFacts.

Lemma stringsField_mono (ok ok' : jsstr -> Prop) props field lo hi minLen :
  (forall s, ok s -> ok' s) ->
  stringsField props field lo hi minLen ok ->
  stringsField props field lo hi minLen ok'.
Proof.
  intros Himp (items & Hl & Hn & Hall). exists items. repeat split; try apply Hn; trivial.
  eapply Forall_impl; [|exact Hall]. intros item (s & -> & Hlen & Hok).
  exists s. auto.
Qed.

Lemma conforms_mono (ok ok' : jsstr -> Prop) v :
  (forall s, ok s -> ok' s) -> conforms ok v -> conforms ok' v.
Proof.
  intros Himp (props & -> & Hk & Hps & F1 & F2 & F3 & F4 & F5).
  exists props. repeat split; try apply Hk; trivial.
  eapply stringsField_mono; eauto.
Qed.

Lemma triage_pattern_within_plan s :
  matches triageNextStepsPattern s -> matches planNextStepsPattern s.
Proof.
  unfold matches. rewrite triage_pattern_iff, plan_pattern_iff.
  intros (v & rest & Hv & -> & Hend).
  pose proof verbs_are_capitalized as Hcap. rewrite forallb_forall in Hcap.
  specialize (Hcap (js v) (in_map js _ _ Hv)).
  destruct (js v) as [|c [|c0 w]]; try discriminate.
  apply andb_true_iff in Hcap as [Hc Hw].
  exists [], c, (c0 :: w), rest. split; [reflexivity|]. split; [now left|].
  split; [|exact Hend]. repeat split; trivial. discriminate.
Qed.

Lemma accepted_next_steps pattern v :
  validateShape pattern v = Normal None ->
  exists props items,
    v = VObj props /\
    lookup (js "next_steps") props = Some (VArr items) /\
    Forall (fun item => exists s, item = VStr s /\ matches pattern s) items.
Proof.
  intros H. apply validateShape_None in H.
  destruct H as (props & -> & _ & _ & _ & _ & _ & _ & items & Hl & _ & Hall).
  exists props, items. repeat split; trivial.
  eapply Forall_impl; [|exact Hall]. intros item (s & -> & _ & Hm). now exists s.
Qed.

(** C1.  Each validator returns [null] exactly on the non-array objects that
    have the six allowed keys and no other, a [problem_statement] string of
    trimmed length at least 10, and the five arrays of strings within their
    cardinality and trimmed-length bounds, the [next_steps] items matching the
    endpoint's pattern; and when the model's output parses to such an object,
    the handler answers 200 with that very object as its body. *)
Theorem validators_accept_exactly_conforming :
  (forall v, validateTriageShape v = Normal None <->
             conforms (matches triageNextStepsPattern) v) /\
  (forall v, validatePlanShape v = Normal None <->
             conforms (matches planNextStepsPattern) v) /\
  (forall JSON_parse base64ToUtf8 String_ responses_create ep env event key text
          resp out parsed,
      admitted JSON_parse base64ToUtf8 ep env event key text ->
      responses_create (request ep env key text) = Normal resp ->
      Get resp (js "output_text") = Normal (VStr out) -> out <> [] ->
      JSON_parse out = Normal parsed ->
      validate ep parsed = Normal None ->
      exists r,
        run JSON_parse base64ToUtf8 String_ responses_create ep env event =
        (Normal r, [request ep env key text]) /\
        Response.statusCode r = 200 /\
        Response.headers r =
          (js "content-type", js "application/json; charset=utf-8") :: corsHeaders /\
        Response.body r = Response.Json parsed).
Proof.
  split; [|split].
  - intros v. apply validateShape_None.
  - intros v. apply validateShape_None.
  - intros JSON_parse base64ToUtf8 String_ responses_create ep env event key text
           resp out parsed Hadm Hresp Hout Hne Hparse Hvalid.
    apply HandlerFacts.answered_jsonResponse. unfold run.
    destruct (@HandlerFacts.admitted_handler JSON_parse base64ToUtf8 String_
                responses_create ep env event key text [] Hadm) as (rid & _ & ->).
    eapply HandlerFacts.provider_success; eauto.
Qed.

(** C2.  An object the generatePlan validator accepts has [next_steps] items
    that each begin, after at most a numbering or bullet prefix, with a
    capitalized word; one the triage validator accepts has items that each
    begin with one of the listed action verbs as a whole word, nothing before
    it; and the two patterns do differ on numbered items and on unlisted
    verbs. *)
Theorem next_steps_requirements :
  (forall v, validatePlanShape v = Normal None ->
     exists props items,
       v = VObj props /\ lookup (js "next_steps") props = Some (VArr items) /\
       Forall (fun item => exists s, item = VStr s /\ startsWithCapitalizedWord s)
              items) /\
  (forall v, validateTriageShape v = Normal None ->
     exists props items,
       v = VObj props /\ lookup (js "next_steps") props = Some (VArr items) /\
       Forall (fun item => exists s, item = VStr s /\ startsWithActionVerb s)
              items) /\
  (test planNextStepsPattern (js "1. Gather the logs") = true /\
   test triageNextStepsPattern (js "1. Gather the logs") = false) /\
  (test planNextStepsPattern (js "Fix the parser") = true /\
   test triageNextStepsPattern (js "Fix the parser") = false).
Proof.
  split; [|split; [|split; split; reflexivity]].
  - intros v H. apply accepted_next_steps in H.
    destruct H as (props & items & -> & Hl & Hall).
    exists props, items. repeat split; trivial.
    eapply Forall_impl; [|exact Hall]. intros item (s & -> & Hm).
    exists s. split; trivial. apply plan_pattern_iff in Hm.
    destruct Hm as (pre & c & w & rest & -> & Hpre & Hw & Hword & _).
    now exists pre, c, w, rest.
  - intros v H. apply accepted_next_steps in H.
    destruct H as (props & items & -> & Hl & Hall).
    exists props, items. repeat split; trivial.
    eapply Forall_impl; [|exact Hall]. intros item (s & -> & Hm).
    exists s. split; trivial. apply triage_pattern_iff in Hm.
    destruct Hm as (verb & rest & Hv & -> & Hword & _).
    now exists verb, rest.
Qed.

(** C9.  Whatever the triage pattern matches the generatePlan pattern matches
    too, and so whatever [validateTriageShape] accepts [validatePlanShape]
    accepts. *)
Theorem triage_within_plan :
  (forall s, test triageNextStepsPattern s = true ->
             test planNextStepsPattern s = true) /\
  (forall v, validateTriageShape v = Normal None ->
             validatePlanShape v = Normal None).
Proof.
  split.
  - exact triage_pattern_within_plan.
  - intros v H. apply validateShape_None. apply validateShape_None in H.
    revert H. apply conforms_mono. exact triage_pattern_within_plan.
Qed.

(** C10.  On every value, of whatever type and with whatever members, each
    validator returns, with one verdict ([null] or a message) and never by
    throwing; the verdict is determined by the value. *)
Theorem validators_total :
  forall v,
    (exists! verdict, validateTriageShape v = Normal verdict) /\
    (exists! verdict, validatePlanShape v = Normal verdict).
Proof.
  intros v. split.
  - destruct (validateShape_returns triageNextStepsPattern v) as (r & Hr & _).
    exists r. split; [exact Hr|]. unfold validateTriageShape. rewrite Hr.
    now intros r' [= <-].
  - destruct (validateShape_returns planNextStepsPattern v) as (r & Hr & _).
    exists r. split; [exact Hr|]. unfold validatePlanShape. rewrite Hr.
    now intros r' [= <-].
Qed.

End ValidatorClaims.

(** ** Provider errors and correlation ids *)

Module ClassificationFacts.

Lemma isCode_eqb n z : num_eqb n (ofZ z) = true <-> isCode n z.
Proof.
  unfold isCode, ofZ. destruct n as [| | |q]; simpl;
    try (split; [discriminate | intros (q' & H & _); discriminate]).
  rewrite Qeq_bool_iff. split.
  - intros H. now exists q.
  - now intros (q' & [= <-] & H).
Qed.

Lemma atLeast_geb n z : num_geb n (ofZ z) = true <-> atLeast n z.
Proof.
  unfold atLeast, ofZ. destruct n as [| | |q]; simpl.
  - split; [discriminate | intros [H | (q' & H & _)]; discriminate].
  - split; auto.
  - split; [discriminate | intros [H | (q' & H & _)]; discriminate].
  - rewrite Qle_bool_iff. split.
    + intros H. right. now exists q.
    + intros [H | (q' & [= <-] & H)]; [discriminate | exact H].
Qed.

Lemma truthy_atLeast_500 n : atLeast n 500 -> truthy (VNum n) = true.
Proof.
  intros [-> | (q & -> & H)]; [reflexivity|]. simpl.
  destruct (Qeq_bool q 0) eqn:E; trivial.
  apply Qeq_bool_iff in E. unfold inject_Z in H. lra.
Qed.

Lemma codes_apart n z z' : z <> z' -> isCode n z -> ~ isCode n z'.
Proof.
  intros Hz (q & -> & H) (q' & [= <-] & H'). rewrite H in H'.
  apply Hz. unfold inject_Z, Qeq in H'. simpl in H'. lia.
Qed.

Lemma code_below n z z' : (z < z')%Z -> isCode n z -> ~ atLeast n z'.
Proof.
  intros Hz (q & -> & H) [H' | (q' & [= <-] & H')]; [discriminate|].
  rewrite H in H'. unfold inject_Z, Qle in H'. simpl in H'. lia.
Qed.

Lemma GetOptional_status err :
  GetOptional err (js "status") =
  Normal (match err with
          | VObj props =>
              match lookup (js "status") props with
              | Some x => x
              | None => VUndefined
              end
          | _ => VUndefined
          end).
Proof. now destruct err. Qed.

(** [toHttpError] as a table on the numeric status. *)
Lemma toHttpError_table err :
  toHttpError err =
  Normal (match statusOf err with
          | Some n =>
              if num_eqb n (ofZ 401) || num_eqb n (ofZ 403) then upstreamAuth
              else if num_eqb n (ofZ 429) then upstreamThrottled
              else if truthy (VNum n) && num_geb n (ofZ 500) then upstreamError
              else upstreamFailure
          | None => upstreamFailure
          end).
Proof.
  unfold toHttpError, statusOf. rewrite GetOptional_status. cbn [bind].
  destruct err as [| |b|n|s|l|props]; try reflexivity.
  destruct (lookup (js "status") props) as [[| |b|n|s|l|o]|]; try reflexivity.
  cbn [typeof isStatus].
  destruct (num_eqb n (ofZ 401) || num_eqb n (ofZ 403)); [reflexivity|].
  destruct (num_eqb n (ofZ 429)); [reflexivity|].
  destruct (truthy (VNum n) && num_geb n (ofZ 500)); reflexivity.
Qed.

End ClassificationFacts.

Module RequestIdFacts.

Lemma vor_chain a b c d x :
  (forall v, In v [a; b; c; d] -> truthy v = true -> v = x) ->
  In x [a; b; c; d] -> truthy x = true ->
  vor a (vor b (vor c (vor d VNull))) = x.
Proof.
  intros Hall Hin Hx. unfold vor.
  destruct (truthy a) eqn:Ea; [apply Hall; simpl; auto|].
  destruct (truthy b) eqn:Eb; [apply Hall; simpl; auto|].
  destruct (truthy c) eqn:Ec; [apply Hall; simpl; auto|].
  destruct (truthy d) eqn:Ed; [apply Hall; simpl; auto|].
  simpl in Hin. destruct Hin as [<- | [<- | [<- | [<- | []]]]]; congruence.
Qed.

Lemma getRequestId_carried event id :
  carriesRequestId (Event.headers event) id ->
  getRequestId event = Normal (VStr id).
Proof.
  intros (hs & Hh & Hne & (name & Hname & Hl) & Hall).
  unfold getRequestId. rewrite Hh.
  change (vor (VObj hs) (VObj [])) with (VObj hs). cbn [Get bind]. f_equal.
  set (get := fun k => match lookup k hs with Some x => x | None => VUndefined end).
  change (vor (get (js "x-nf-request-id"))
            (vor (get (js "X-Nf-Request-Id"))
               (vor (get (js "x-request-id"))
                  (vor (get (js "X-Request-Id")) VNull))) = VStr id).
  assert (Hget : forall k, In k requestIdHeaders -> truthy (get k) = true ->
                           get k = VStr id).
  { intros k Hk. unfold get. destruct (lookup k hs) as [v|] eqn:E; [|discriminate].
    intros Hv. now apply (Hall k). }
  apply vor_chain.
  - intros v Hv. simpl in Hv.
    destruct Hv as [<- | [<- | [<- | [<- | []]]]]; apply Hget; simpl; auto.
  - assert (Hx : get name = VStr id) by (unfold get; now rewrite Hl).
    rewrite <- Hx. simpl in Hname.
    destruct Hname as [<- | [<- | [<- | [<- | []]]]]; simpl; auto.
  - now destruct id.
Qed.

Lemma vor_false a b : truthy a = false -> vor a b = b.
Proof. unfold vor. now intros ->. Qed.

Lemma vor_true a b : truthy a = true -> vor a b = a.
Proof. unfold vor. now intros ->. Qed.

Lemma getRequestId_first event id :
  firstRequestId (Event.headers event) id ->
  getRequestId event = Normal id.
Proof.
  intros (hs & earlier & name & later & Hh & Hsplit & Hl & Ht & Hearlier).
  unfold getRequestId. rewrite Hh.
  change (vor (VObj hs) (VObj [])) with (VObj hs). cbn [Get bind]. f_equal.
  set (get := fun k => match lookup k hs with Some x => x | None => VUndefined end).
  change (vor (get (js "x-nf-request-id"))
            (vor (get (js "X-Nf-Request-Id"))
               (vor (get (js "x-request-id"))
                  (vor (get (js "X-Request-Id")) VNull))) = id).
  assert (Hskip : forall n, In n earlier -> truthy (get n) = false).
  { intros n Hn. unfold get. destruct (lookup n hs) as [v|] eqn:E; [|reflexivity].
    now apply (Hearlier n). }
  assert (Hname : get name = id) by (unfold get; now rewrite Hl).
  assert (Htrue : truthy (get name) = true) by now rewrite Hname.
  change requestIdHeaders
    with [js "x-nf-request-id"; js "X-Nf-Request-Id"; js "x-request-id";
          js "X-Request-Id"] in Hsplit.
  destruct earlier as [|a [|b [|c [|d earlier]]]]; cbn [app] in Hsplit.
  - injection Hsplit as <- _. now rewrite vor_true.
  - injection Hsplit as <- <- _.
    rewrite vor_false by (apply Hskip; simpl; auto). now rewrite vor_true.
  - injection Hsplit as <- <- <- _.
    rewrite !vor_false by (apply Hskip; simpl; auto). now rewrite vor_true.
  - injection Hsplit as <- <- <- <- _.
    rewrite !vor_false by (apply Hskip; simpl; auto). now rewrite vor_true.
  - injection Hsplit as _ _ _ _ Hnil. now destruct earlier.
Qed.

End RequestIdFacts.

Section HandlerClaims.
Import ValidatorFacts HandlerFacts ClassificationFacts RequestIdFacts.

Variable JSON_parse : jsstr -> completion value.
Variable base64ToUtf8 : jsstr -> jsstr.
Variable String_ : value -> jsstr.
Variable responses_create : createParams -> completion value.
Variable ep : endpoint.
Variable env : environment.

Local Abbreviation run' :=
  (run JSON_parse base64ToUtf8 String_ responses_create ep env).
Local Abbreviation bodyText' := (bodyText base64ToUtf8).

Lemma run_keyed event key :
  Event.httpMethod event = js "POST" ->
  OPENAI_API_KEY env = Some key -> key <> [] ->
  exists rid,
    getRequestId event = Normal rid /\
    run' event =
    if MAX_BODY_BYTES <? bodyBytes event
    then (Normal (jsonResponse 413
                    (errorBody (js "Request body too large.") rid [])), [])
    else answer JSON_parse base64ToUtf8 String_ responses_create ep env
           key rid event [].
Proof.
  intros Hp K Hne. unfold run.
  destruct (@handler_keyed JSON_parse base64ToUtf8 String_ responses_create
              ep env event [] key Hp K Hne) as (rid & Hrid & ->).
  exists rid. split; trivial. now rewrite bodyTooLarge_bytes.
Qed.

Lemma run_text_checks event key parsed :
  Event.httpMethod event = js "POST" ->
  OPENAI_API_KEY env = Some key -> key <> [] ->
  bodyBytes event <= MAX_BODY_BYTES ->
  JSON_parse (bodyText' event) = Normal parsed ->
  exists rid,
    getRequestId event = Normal rid /\
    (trim (textOf (textField ep) parsed) = [] ->
     run' event =
     (Normal (jsonResponse 400
                (errorBody (js "Missing required field: " ++ textField ep)
                           rid [])), [])) /\
    (trim (textOf (textField ep) parsed) <> [] ->
     MAX_INPUT_CHARS < strlen (textOf (textField ep) parsed) ->
     run' event =
     (Normal (jsonResponse 400
                (errorBody
                   (js "Input is too long. Please keep it under 8000 characters.")
                   rid [])), [])).
Proof.
  intros Hp K Hne H P. destruct (run_keyed event Hp K Hne) as (rid & Hrid & ->).
  exists rid. split; trivial. apply N.ltb_ge in H.
  rewrite H, (answer_parsed _ _ _ _ _ _ _ _ _ _ P). cbv zeta. split.
  - intros Ht. now rewrite Ht.
  - intros Ht Hlen. apply N.ltb_lt in Hlen. rewrite Hlen.
    now destruct (trim (textOf (textField ep) parsed)).
Qed.

Lemma run_no_key event :
  Event.httpMethod event = js "POST" ->
  orDefault (OPENAI_API_KEY env) [] = [] ->
  run' event =
  (Normal (jsonResponse 500
             (VObj [(js "error",
                     VStr (js "Missing OPENAI_API_KEY environment variable."))])),
   []).
Proof. intros Hp K. unfold run. now apply handler_no_key. Qed.

(** C3, amended.  The checks are applied in this order: the method (405),
    the provider credential (500), the size of the body (413), the JSON of
    the body (400), the text field (400); no provider call is made on any
    of these rejections. *)
Theorem checks_in_source_order event :
  (Event.httpMethod event <> js "OPTIONS" ->
   Event.httpMethod event <> js "POST" ->
   answered (run' event) 405
     (VObj [(js "error", VStr (js "Method not allowed. Use POST."))]) []) /\
  (Event.httpMethod event = js "POST" ->
   orDefault (OPENAI_API_KEY env) [] = [] ->
   answered (run' event) 500
     (VObj [(js "error",
             VStr (js "Missing OPENAI_API_KEY environment variable."))]) []) /\
  (forall key,
     Event.httpMethod event = js "POST" ->
     OPENAI_API_KEY env = Some key -> key <> [] ->
     exists rid,
       getRequestId event = Normal rid /\
       (MAX_BODY_BYTES < bodyBytes event ->
        answered (run' event) 413
          (errorBody (js "Request body too large.") rid []) []) /\
       (bodyBytes event <= MAX_BODY_BYTES ->
        forall e, JSON_parse (bodyText' event) = Throw e ->
        answered (run' event) 400 (errorBody (js "Invalid JSON body.") rid []) []) /\
       (bodyBytes event <= MAX_BODY_BYTES ->
        forall parsed, JSON_parse (bodyText' event) = Normal parsed ->
        trim (textOf (textField ep) parsed) = [] ->
        answered (run' event) 400
          (errorBody (js "Missing required field: " ++ textField ep) rid []) []) /\
       (bodyBytes event <= MAX_BODY_BYTES ->
        forall parsed, JSON_parse (bodyText' event) = Normal parsed ->
        trim (textOf (textField ep) parsed) <> [] ->
        MAX_INPUT_CHARS < strlen (textOf (textField ep) parsed) ->
        answered (run' event) 400
          (errorBody
             (js "Input is too long. Please keep it under 8000 characters.")
             rid []) [])).
Proof.
  split; [|split].
  - intros Ho Hp. apply answered_jsonResponse. unfold run.
    now apply handler_other_method.
  - intros Hp K. apply answered_jsonResponse. now apply run_no_key.
  - intros key Hp K Hne. destruct (run_keyed event Hp K Hne) as (rid & Hrid & Hrun).
    exists rid. split; trivial. split; [|split; [|split]].
    + intros H. apply answered_jsonResponse. apply N.ltb_lt in H.
      now rewrite Hrun, H.
    + intros H e P. apply answered_jsonResponse. apply N.ltb_ge in H.
      rewrite Hrun, H. eapply answer_invalid_json; eauto.
    + intros H parsed P Ht. apply answered_jsonResponse.
      destruct (run_text_checks event Hp K Hne H P) as (rid' & Hrid' & Hm & _).
      assert (rid' = rid) by congruence. subst. now apply Hm.
    + intros H parsed P Ht Hlen. apply answered_jsonResponse.
      destruct (run_text_checks event Hp K Hne H P) as (rid' & Hrid' & _ & Hl).
      assert (rid' = rid) by congruence. subst. now apply Hl.
Qed.

(** C5, amended.  With the credential present and the body within the size
    ceiling, a text of more than 8000 code units that is not blank is
    answered 400 with the message naming the ceiling; and whatever the
    credential and the size, no provider call is made for it. *)
Theorem long_text_rejected event props s :
  Event.httpMethod event = js "POST" ->
  JSON_parse (bodyText' event) = Normal (VObj props) ->
  lookup (textField ep) props = Some (VStr s) ->
  trim s <> [] -> MAX_INPUT_CHARS < strlen s ->
  (forall key,
     OPENAI_API_KEY env = Some key -> key <> [] ->
     bodyBytes event <= MAX_BODY_BYTES ->
     exists rid,
       getRequestId event = Normal rid /\
       answered (run' event) 400
         (errorBody
            (js "Input is too long. Please keep it under 8000 characters.")
            rid []) []) /\
  snd (run' event) = [].
Proof.
  intros Hp P Hl Ht Hlen.
  assert (Htext : textOf (textField ep) (VObj props) = s)
    by (unfold textOf; now rewrite Hl).
  split.
  - intros key K Hne Hsize.
    destruct (run_text_checks event Hp K Hne Hsize P) as (rid & Hrid & _ & H).
    exists rid. split; trivial. apply answered_jsonResponse.
    apply H; now rewrite Htext.
  - destruct (OPENAI_API_KEY env) as [[|c key]|] eqn:K;
      try (rewrite run_no_key; trivial; now rewrite K).
    assert (Hne : c :: key <> []) by discriminate.
    destruct (N.lt_ge_cases MAX_BODY_BYTES (bodyBytes event)) as [Hs | Hs].
    + destruct (run_keyed event Hp K Hne) as (rid & _ & ->).
      apply N.ltb_lt in Hs. now rewrite Hs.
    + destruct (run_text_checks event Hp K Hne Hs P) as (rid & _ & _ & H).
      rewrite H; trivial; now rewrite Htext.
Qed.

(** C6.  With the credential present and the body within the size ceiling,
    a JSON body whose text field is absent, not a string, empty or blank is
    answered 400 [Missing required field: <field>], whatever else the body
    holds; an empty body is read as the empty object and answered the same. *)
Theorem missing_text_rejected event key :
  Event.httpMethod event = js "POST" ->
  OPENAI_API_KEY env = Some key -> key <> [] ->
  bodyBytes event <= MAX_BODY_BYTES ->
  exists rid,
    getRequestId event = Normal rid /\
    (forall parsed,
       JSON_parse (bodyText' event) = Normal parsed ->
       textFieldMissing (textField ep) parsed ->
       exists r,
         run' event = (Normal r, []) /\
         Response.statusCode r = 400 /\
         Response.body r =
           Response.Json
             (VObj [(js "error",
                     VStr (js "Missing required field: " ++ textField ep));
                    (js "requestId", rid)])) /\
    ((Event.body event = None \/ Event.body event = Some []) ->
     Event.isBase64Encoded event = false \/ base64ToUtf8 [] = [] ->
     JSON_parse (js "{}") = Normal (VObj []) ->
     exists r,
       run' event = (Normal r, []) /\
       Response.statusCode r = 400 /\
       Response.body r =
         Response.Json
           (VObj [(js "error",
                   VStr (js "Missing required field: " ++ textField ep));
                  (js "requestId", rid)])).
Proof.
  intros Hp K Hne Hsize.
  destruct (getRequestId_returns event) as (rid & Hrid).
  exists rid. split; trivial.
  assert (Hmiss : forall parsed,
            JSON_parse (bodyText' event) = Normal parsed ->
            trim (textOf (textField ep) parsed) = [] ->
            run' event =
            (Normal (jsonResponse 400
                       (errorBody (js "Missing required field: " ++ textField ep)
                                  rid [])), [])).
  { intros parsed P Ht.
    destruct (run_text_checks event Hp K Hne Hsize P) as (rid' & Hrid' & Hm & _).
    assert (rid' = rid) by congruence. subst. now apply Hm. }
  assert (Hblank : forall parsed,
            textFieldMissing (textField ep) parsed ->
            trim (textOf (textField ep) parsed) = []).
  { intros parsed Hm. unfold textOf. destruct parsed as [| |b|n|s|l|props]; trivial.
    destruct (lookup (textField ep) props) as [[| |b|n|s|l|o]|] eqn:E; trivial.
    apply trim_nil. now apply (Hm props). }
  split.
  - intros parsed P Hm. eexists. split; [apply (Hmiss parsed P); now apply Hblank|].
    split; reflexivity.
  - intros Hbody Hdec P.
    assert (Hb : bodyText' event = js "{}").
    { unfold bodyText.
      assert (Hraw : match Event.body event with Some b => b | None => [] end = [])
        by (destruct Hbody as [-> | ->]; reflexivity).
      rewrite Hraw. destruct Hdec as [-> | Hd]; [reflexivity|].
      rewrite Hd. now destruct (Event.isBase64Encoded event). }
    rewrite <- Hb in P. eexists. split; [apply (Hmiss (VObj []) P); reflexivity|].
    split; reflexivity.
Qed.

End HandlerClaims.

Section ProviderClaims.
Import ValidatorFacts HandlerFacts ClassificationFacts RequestIdFacts.

Variable JSON_parse : jsstr -> completion value.
Variable base64ToUtf8 : jsstr -> jsstr.
Variable String_ : value -> jsstr.
Variable responses_create : createParams -> completion value.
Variable ep : endpoint.
Variable env : environment.

Local Abbreviation run' :=
  (run JSON_parse base64ToUtf8 String_ responses_create ep env).

Lemma run_admitted event key text :
  admitted JSON_parse base64ToUtf8 ep env event key text ->
  exists rid,
    getRequestId event = Normal rid /\
    run' event =
    tryCatch (callProvider JSON_parse responses_create ep env key rid text)
             (providerFailure String_ env rid) [].
Proof. intros H. unfold run. now apply admitted_handler. Qed.

(** C7.  [toHttpError] returns on every thrown value: 502 authentication
    failure for a numeric status 401 or 403, 429 for 429, 502 provider error
    for a status of 500 or more, 502 request failure for any other status
    and for a value without a numeric status.  The handler returns a
    response on every request, and when the provider call throws that
    response is the error envelope built from this classification. *)
Theorem provider_failures_classified :
  (forall err,
     exists e,
       toHttpError err = Normal e /\
       (forall n, statusOf err = Some n ->
                  isCode n 401 \/ isCode n 403 -> e = upstreamAuth) /\
       (forall n, statusOf err = Some n -> isCode n 429 -> e = upstreamThrottled) /\
       (forall n, statusOf err = Some n -> atLeast n 500 -> e = upstreamError) /\
       (forall n, statusOf err = Some n ->
                  ~ isCode n 401 -> ~ isCode n 403 -> ~ isCode n 429 ->
                  ~ atLeast n 500 -> e = upstreamFailure) /\
       (statusOf err = None -> e = upstreamFailure)) /\
  (forall event, exists r calls, run' event = (Normal r, calls)) /\
  (forall event key text err,
     admitted JSON_parse base64ToUtf8 ep env event key text ->
     responses_create (request ep env key text) = Throw err ->
     exists rid e extra r,
       getRequestId event = Normal rid /\
       toHttpError err = Normal e /\
       (DEBUG_ERRORS env = false -> extra = []) /\
       run' event = (Normal r, [request ep env key text]) /\
       Response.statusCode r = errStatusCode e /\
       Response.body r =
         Response.Json
           (VObj ([(js "error", VStr (message e)); (js "requestId", rid)] ++
                  extra))).
Proof.
  split; [|split].
  - intros err. eexists. split; [apply toHttpError_table|].
    destruct (statusOf err) as [n|]; repeat split; try discriminate; trivial.
    + intros n' [= <-] H.
      assert (E : num_eqb n (ofZ 401) || num_eqb n (ofZ 403) = true).
      { apply orb_true_iff. destruct H as [H | H]; apply isCode_eqb in H; auto. }
      now rewrite E.
    + intros n' [= <-] H.
      assert (E1 : num_eqb n (ofZ 401) = false).
      { apply not_true_iff_false. rewrite isCode_eqb.
        apply (@codes_apart n 429 401); [discriminate | exact H]. }
      assert (E2 : num_eqb n (ofZ 403) = false).
      { apply not_true_iff_false. rewrite isCode_eqb.
        apply (@codes_apart n 429 403); [discriminate | exact H]. }
      apply isCode_eqb in H. now rewrite E1, E2, H.
    + intros n' [= <-] H.
      assert (E : forall z, (z < 500)%Z -> num_eqb n (ofZ z) = false).
      { intros z Hz. apply not_true_iff_false. rewrite isCode_eqb.
        intros Hc. now apply (@code_below n z 500 Hz Hc). }
      rewrite !E by reflexivity. cbn [orb].
      rewrite (truthy_atLeast_500 H). apply atLeast_geb in H. now rewrite H.
    + intros n' [= <-] H1 H2 H3 H4.
      rewrite <- isCode_eqb in H1, H2, H3. rewrite <- atLeast_geb in H4.
      apply not_true_iff_false in H1, H2, H3, H4.
      rewrite H1, H2, H3, H4. cbn [orb]. now rewrite andb_false_r.
  - intros event.
    destruct (handler_outcomes JSON_parse base64ToUtf8 String_ responses_create
                ep env event []) as (r & calls & Hr & _).
    now exists r, calls.
  - intros event key text err Hadm Hthrow.
    destruct (run_admitted Hadm) as (rid & Hrid & ->).
    erewrite provider_throws by eassumption.
    destruct (providerFailure_returns String_ env rid err [request ep env key text])
      as (e & extra & He & Hp & Hoff & _).
    exists rid, e, extra. eexists.
    split; [trivial|]. split; [trivial|]. split; [trivial|].
    split; [exact Hp|]. split; reflexivity.
Qed.

(** C8.  With the debug flag off no error response has a [details] or a
    [model_output] member.  With it on, the 502 for output that is not JSON
    and the 502 for an invalid shape carry [model_output], the first 2000
    code units of the model's text. *)
Theorem debug_fields_gated event :
  (DEBUG_ERRORS env = false ->
   forall r calls props,
     run' event = (Normal r, calls) ->
     Response.statusCode r <> 200 ->
     Response.body r = Response.Json (VObj props) ->
     lookup (js "details") props = None /\
     lookup (js "model_output") props = None) /\
  (DEBUG_ERRORS env = true ->
   forall key text resp out,
     admitted JSON_parse base64ToUtf8 ep env event key text ->
     responses_create (request ep env key text) = Normal resp ->
     Get resp (js "output_text") = Normal (VStr out) -> out <> [] ->
     exists rid,
       getRequestId event = Normal rid /\
       (forall e,
          JSON_parse out = Throw e ->
          answered (run' event) 502
            (errorBody (js "Model returned non-JSON output.") rid
               [(js "model_output", VStr (slice0 2000 out))])
            [request ep env key text]) /\
       (forall parsed details,
          JSON_parse out = Normal parsed ->
          ep = triage \/ ep = generatePlan ->
          validate ep parsed = Normal (Some details) ->
          answered (run' event) 502
            (errorBody (js "Model returned an invalid response shape.") rid
               [(js "details", VStr details);
                (js "model_output", VStr (slice0 2000 out))])
            [request ep env key text]) /\
       strlen (slice0 2000 out) <= 2000 /\
       exists rest, out = slice0 2000 out ++ rest).
Proof.
  split.
  - intros Hoff r calls props Hrun Hcode Hbody.
    destruct (handler_outcomes JSON_parse base64ToUtf8 String_ responses_create
                ep env event []) as (r' & calls' & Hr & Hcases).
    unfold run in Hrun. rewrite Hrun in Hr. injection Hr as <- <-.
    destruct Hcases as [-> | [-> | [-> | [(parsed & ->) |
      (rid & code & msg & extra & _ & -> & _ & Hextra)]]]].
    + discriminate.
    + injection Hbody as <-. split; reflexivity.
    + injection Hbody as <-. split; reflexivity.
    + now contradiction Hcode.
    + rewrite (Hextra Hoff) in Hbody. injection Hbody as <-. split; reflexivity.
  - intros Hon key text resp out Hadm Hresp Hout Hne.
    destruct (run_admitted Hadm) as (rid & Hrid & Hrun).
    exists rid. split; trivial. split; [|split; [|split]].
    + intros e P. apply answered_jsonResponse. rewrite Hrun.
      erewrite provider_non_json by eassumption.
      unfold debugFields. now rewrite Hon.
    + intros parsed details P Hep V. apply answered_jsonResponse. rewrite Hrun.
      assert (Hd : details <> []).
      { destruct Hep as [-> | ->]; simpl in V;
          now apply validateShape_message in V. }
      erewrite provider_invalid_shape by eassumption.
      unfold debugFields. now rewrite Hon.
    + unfold strlen, slice0. pose proof (firstn_le_length 2000 out). lia.
    + exists (skipn 2000 out). unfold slice0. now rewrite firstn_skipn.
Qed.

End ProviderClaims.

(** ** The properties on the sample host *)

Section Samples.
Import ValidatorFacts.

Local Abbreviation sampleRun :=
  (run sampleParse sampleDecode sampleString).

Lemma sample_carries_requestId : carriesRequestId sampleHeaders (js "req-1").
Proof.
  exists (members sampleHeaders). split; [reflexivity|]. split; [discriminate|]. split.
  - exists (js "x-request-id"). split; [simpl; auto | reflexivity].
  - intros name v Hname. simpl in Hname.
    destruct Hname as [<- | [<- | [<- | [<- | []]]]]; vm_compute;
      intros H _; congruence.
Defined.

Lemma sample_admitted (env : environment) :
  OPENAI_API_KEY env = Some (js "sk-test") ->
  admitted sampleParse sampleDecode triage env
    (sampleEvent "POST" (Some (js "REQ"))) (js "sk-test") (js "Our tickets pile up").
Proof.
  intros K. split; [reflexivity|]. split; [exact K|]. split; [discriminate|].
  split; [vm_compute; discriminate|].
  exists (VObj [(js "userMessage", VStr (js "Our tickets pile up"))]).
  split; [reflexivity|]. split; [reflexivity|].
  split; vm_compute; discriminate.
Defined.

Lemma validators_accept_exactly_conforming_witness :
  exists r,
    sampleRun (answering (js "PLAN")) triage sampleEnv
      (sampleEvent "POST" (Some (js "REQ"))) =
    (Normal r,
     [request triage sampleEnv (js "sk-test") (js "Our tickets pile up")]) /\
    Response.statusCode r = 200 /\
    Response.headers r =
      (js "content-type", js "application/json; charset=utf-8") :: corsHeaders /\
    Response.body r = Response.Json samplePlan.
Proof.
  apply (proj2 (proj2 validators_accept_exactly_conforming))
    with (resp := VObj [(js "output_text", VStr (js "PLAN"))]) (out := js "PLAN").
  - apply sample_admitted. reflexivity.
  - reflexivity.
  - reflexivity.
  - discriminate.
  - reflexivity.
  - vm_compute. reflexivity.
Defined.

Lemma next_steps_requirements_witness :
  (exists props items,
     numberedPlan = VObj props /\
     lookup (js "next_steps") props = Some (VArr items) /\
     Forall (fun item => exists s, item = VStr s /\ startsWithCapitalizedWord s)
            items) /\
  (exists props items,
     samplePlan = VObj props /\
     lookup (js "next_steps") props = Some (VArr items) /\
     Forall (fun item => exists s, item = VStr s /\ startsWithActionVerb s) items).
Proof.
  split.
  - apply (proj1 next_steps_requirements). vm_compute. reflexivity.
  - apply (proj1 (proj2 next_steps_requirements)). vm_compute. reflexivity.
Defined.

Lemma triage_within_plan_witness :
  test planNextStepsPattern (js "Gather the logs") = true /\
  validatePlanShape samplePlan = Normal None.
Proof.
  split.
  - apply (proj1 triage_within_plan). vm_compute. reflexivity.
  - apply (proj2 triage_within_plan). vm_compute. reflexivity.
Defined.

Lemma validators_total_witness :
  validateTriageShape samplePlan = Normal None /\
  validatePlanShape (VNum NaN) = Normal (Some (js "Response is not an object.")).
Proof.
  split.
  - destruct (proj1 (validators_total samplePlan)) as (r & Hr & Hu).
    rewrite Hr. f_equal. apply Hu. vm_compute. reflexivity.
  - destruct (proj2 (validators_total (VNum NaN))) as (r & Hr & Hu).
    rewrite Hr. f_equal. apply Hu. vm_compute. reflexivity.
Defined.

(** C3, as stated, fails: a POST whose body is over the ceiling, with no
    credential in the environment, is answered 500 and not 413. *)
Lemma credential_checked_before_size :
  MAX_BODY_BYTES < bodyBytes (sampleEvent "POST" (Some bigBody)) /\
  OPENAI_API_KEY keylessEnv = None /\
  answered
    (sampleRun (answering (js "PLAN")) triage keylessEnv
       (sampleEvent "POST" (Some bigBody)))
    500
    (VObj [(js "error",
            VStr (js "Missing OPENAI_API_KEY environment variable."))]) [] /\
  answered
    (sampleRun (answering (js "PLAN")) generatePlan keylessEnv
       (sampleEvent "POST" (Some bigBody)))
    500
    (VObj [(js "error",
            VStr (js "Missing OPENAI_API_KEY environment variable."))]) [].
Proof.
  split; [vm_compute; reflexivity|]. split; [reflexivity|].
  split; apply HandlerFacts.answered_jsonResponse; vm_compute; reflexivity.
Qed.

Lemma checks_in_source_order_witness :
  answered
    (sampleRun (answering (js "PLAN")) triage sampleEnv (sampleEvent "GET" None))
    405 (VObj [(js "error", VStr (js "Method not allowed. Use POST."))]) [] /\
  answered
    (sampleRun (answering (js "PLAN")) triage keylessEnv
       (sampleEvent "POST" (Some bigBody)))
    500
    (VObj [(js "error",
            VStr (js "Missing OPENAI_API_KEY environment variable."))]) [] /\
  answered
    (sampleRun (answering (js "PLAN")) triage sampleEnv
       (sampleEvent "POST" (Some bigBody)))
    413 (errorBody (js "Request body too large.") (VStr (js "req-1")) []) [] /\
  answered
    (sampleRun (answering (js "PLAN")) triage sampleEnv
       (sampleEvent "POST" (Some (js "{oops"))))
    400 (errorBody (js "Invalid JSON body.") (VStr (js "req-1")) []) [].
Proof.
  split; [|split; [|split]].
  - apply (proj1 (checks_in_source_order sampleParse sampleDecode sampleString
                    (answering (js "PLAN")) triage sampleEnv (sampleEvent "GET" None)));
      discriminate.
  - apply (proj1 (proj2 (checks_in_source_order sampleParse sampleDecode sampleString
                           (answering (js "PLAN")) triage keylessEnv
                           (sampleEvent "POST" (Some bigBody)))));
      reflexivity.
  - destruct (proj2 (proj2 (checks_in_source_order sampleParse sampleDecode
                              sampleString (answering (js "PLAN")) triage sampleEnv
                              (sampleEvent "POST" (Some bigBody))))
                (js "sk-test") eq_refl eq_refl) as (rid & Hrid & H413 & _);
      [discriminate|].
    injection Hrid as <-. apply H413. vm_compute. reflexivity.
  - destruct (proj2 (proj2 (checks_in_source_order sampleParse sampleDecode
                              sampleString (answering (js "PLAN")) triage sampleEnv
                              (sampleEvent "POST" (Some (js "{oops")))))
                (js "sk-test") eq_refl eq_refl) as (rid & Hrid & _ & H400 & _);
      [discriminate|].
    injection Hrid as <-. apply (H400 ltac:(vm_compute; discriminate) syntaxError).
    reflexivity.
Defined.

(** C4, as stated, fails: the request carries a correlation id, yet the 200
    answer is the validated object, which has no [requestId] member; nor has
    the body of the 405 and of the 500 for a missing credential. *)
Lemma success_body_has_no_requestId :
  carriesRequestId sampleHeaders (js "req-1") /\
  answered
    (sampleRun (answering (js "PLAN")) triage sampleEnv
       (sampleEvent "POST" (Some (js "REQ"))))
    200 samplePlan
    [request triage sampleEnv (js "sk-test") (js "Our tickets pile up")] /\
  lookup (js "requestId") (members samplePlan) = None /\
  (forall r calls,
     sampleRun (answering (js "PLAN")) triage sampleEnv (sampleEvent "GET" None) =
     (Normal r, calls) ->
     Response.statusCode r = 405 /\ lookup (js "requestId") (bodyMembers r) = None) /\
  (forall r calls,
     sampleRun (answering (js "PLAN")) triage keylessEnv
       (sampleEvent "POST" (Some (js "REQ"))) = (Normal r, calls) ->
     Response.statusCode r = 500 /\ lookup (js "requestId") (bodyMembers r) = None).
Proof.
  split; [exact sample_carries_requestId|].
  split; [apply HandlerFacts.answered_jsonResponse; vm_compute; reflexivity|].
  split; [vm_compute; reflexivity|].
  split; intros r calls H; vm_compute in H; injection H as <- <-;
    split; reflexivity.
Qed.

Lemma longText_long : MAX_INPUT_CHARS < strlen longText.
Proof.
  unfold longText, strlen. rewrite repeat_length, N2Nat.id. reflexivity.
Defined.

Lemma longText_not_blank : trim longText <> [].
Proof.
  intros H. apply HandlerFacts.trim_nil in H. unfold longText in H.
  destruct (N.to_nat 8001) as [|n] eqn:E; [lia|]. discriminate H.
Defined.

(** C5, as stated, fails: with no credential in the environment the long
    text is answered 500, not 400. *)
Lemma long_text_without_credential :
  sampleParse (js "LONG") = Normal (VObj [(js "userMessage", VStr longText)]) /\
  MAX_INPUT_CHARS < strlen longText /\
  trim longText <> [] /\
  answered
    (sampleRun (answering (js "PLAN")) triage keylessEnv
       (sampleEvent "POST" (Some (js "LONG"))))
    500
    (VObj [(js "error",
            VStr (js "Missing OPENAI_API_KEY environment variable."))]) [].
Proof.
  split; [reflexivity|]. split; [exact longText_long|].
  split; [exact longText_not_blank|].
  apply HandlerFacts.answered_jsonResponse. apply run_no_key; reflexivity.
Qed.

Lemma long_text_rejected_witness :
  answered
    (sampleRun (answering (js "PLAN")) triage sampleEnv
       (sampleEvent "POST" (Some (js "LONG"))))
    400
    (errorBody (js "Input is too long. Please keep it under 8000 characters.")
               (VStr (js "req-1")) []) [].
Proof.
  destruct (@long_text_rejected sampleParse sampleDecode sampleString
              (answering (js "PLAN")) triage sampleEnv
              (sampleEvent "POST" (Some (js "LONG")))
              [(js "userMessage", VStr longText)] longText)
    as [H _].
  - reflexivity.
  - reflexivity.
  - reflexivity.
  - exact longText_not_blank.
  - exact longText_long.
  - destruct (H (js "sk-test") eq_refl) as (rid & Hrid & Hrun).
    + discriminate.
    + vm_compute. discriminate.
    + injection Hrid as <-. exact Hrun.
Defined.

Lemma missing_text_rejected_witness :
  (exists r,
     sampleRun (answering (js "PLAN")) triage sampleEnv
       (sampleEvent "POST" (Some (js "BLANK"))) = (Normal r, []) /\
     Response.statusCode r = 400 /\
     Response.body r =
       Response.Json
         (VObj [(js "error", VStr (js "Missing required field: userMessage"));
                (js "requestId", VStr (js "req-1"))])) /\
  (exists r,
     sampleRun (answering (js "PLAN")) generatePlan sampleEnv
       (sampleEvent "POST" None) = (Normal r, []) /\
     Response.statusCode r = 400 /\
     Response.body r =
       Response.Json
         (VObj [(js "error", VStr (js "Missing required field: input"));
                (js "requestId", VStr (js "req-1"))])).
Proof.
  split.
  - destruct (@missing_text_rejected sampleParse sampleDecode sampleString
                (answering (js "PLAN")) triage sampleEnv
                (sampleEvent "POST" (Some (js "BLANK"))) (js "sk-test"))
      as (rid & Hrid & H & _).
    + reflexivity.
    + reflexivity.
    + discriminate.
    + vm_compute. discriminate.
    + injection Hrid as <-.
      apply (H (VObj [(js "userMessage", VStr (js "   "));
                      (js "priority", VStr (js "high"))])); [reflexivity|].
      intros props s [= <-]. vm_compute. now intros [= <-].
  - destruct (@missing_text_rejected sampleParse sampleDecode sampleString
                (answering (js "PLAN")) generatePlan sampleEnv
                (sampleEvent "POST" None) (js "sk-test"))
      as (rid & Hrid & _ & H).
    + reflexivity.
    + reflexivity.
    + discriminate.
    + vm_compute. discriminate.
    + injection Hrid as <-. apply H; [now left | now left | reflexivity].
Defined.

Lemma provider_failures_classified_witness :
  toHttpError (VObj [(js "status", VNum (ofZ 403))]) = Normal upstreamAuth /\
  toHttpError (VObj [(js "status", VNum (ofZ 429))]) = Normal upstreamThrottled /\
  toHttpError (VObj [(js "status", VNum (ofZ 503))]) = Normal upstreamError /\
  toHttpError (VObj [(js "status", VNum (ofZ 404))]) = Normal upstreamFailure /\
  toHttpError (VStr (js "socket hang up")) = Normal upstreamFailure /\
  (exists r,
     sampleRun (failing 429) triage sampleEnv
       (sampleEvent "POST" (Some (js "REQ"))) =
     (Normal r,
      [request triage sampleEnv (js "sk-test") (js "Our tickets pile up")]) /\
     Response.statusCode r = 429 /\
     Response.body r =
       Response.Json
         (VObj [(js "error",
                 VStr (js "Rate limited by LLM provider. Try again shortly."));
                (js "requestId", VStr (js "req-1"))])).
Proof.
  pose proof (@provider_failures_classified sampleParse sampleDecode sampleString
                (failing 429) triage sampleEnv) as (Hclass & _ & Hthrow).
  assert (Hq : forall z z', (inject_Z z == inject_Z z')%Q -> z = z').
  { intros z z' H. unfold inject_Z, Qeq in H. simpl in H. lia. }
  assert (Hle : forall z z', (inject_Z z <= inject_Z z')%Q -> (z <= z')%Z).
  { intros z z' H. unfold inject_Z, Qle in H. simpl in H. lia. }
  split; [|split; [|split; [|split; [|split]]]].
  - destruct (Hclass (VObj [(js "status", VNum (ofZ 403))]))
      as (e & He & Hauth & _).
    rewrite He. f_equal. apply (Hauth (ofZ 403)); [reflexivity|].
    right. exists (inject_Z 403). split; reflexivity.
  - destruct (Hclass (VObj [(js "status", VNum (ofZ 429))]))
      as (e & He & _ & Hrate & _).
    rewrite He. f_equal. apply (Hrate (ofZ 429)); [reflexivity|].
    exists (inject_Z 429). split; reflexivity.
  - destruct (Hclass (VObj [(js "status", VNum (ofZ 503))]))
      as (e & He & _ & _ & Hup & _).
    rewrite He. f_equal. apply (Hup (ofZ 503)); [reflexivity|].
    right. exists (inject_Z 503). split; [reflexivity|]. unfold inject_Z, Qle. simpl. lia.
  - destruct (Hclass (VObj [(js "status", VNum (ofZ 404))]))
      as (e & He & _ & _ & _ & Hother & _).
    rewrite He. f_equal. apply (Hother (ofZ 404)); [reflexivity| | | |].
    + intros (q & [= <-] & H). apply Hq in H. discriminate.
    + intros (q & [= <-] & H). apply Hq in H. discriminate.
    + intros (q & [= <-] & H). apply Hq in H. discriminate.
    + intros [H | (q & [= <-] & H)]; [discriminate|]. apply Hle in H. lia.
  - destruct (Hclass (VStr (js "socket hang up"))) as (e & He & _ & _ & _ & _ & Hnone).
    rewrite He. f_equal. now apply Hnone.
  - destruct (Hthrow (sampleEvent "POST" (Some (js "REQ"))) (js "sk-test")
                (js "Our tickets pile up")
                (VObj [(js "status", VNum (ofZ 429));
                       (js "message", VStr (js "upstream said no"))]))
      as (rid & e & extra & r & Hrid & He & Hoff & Hrun & Hs & Hb).
    + apply sample_admitted. reflexivity.
    + reflexivity.
    + exists r. split; [exact Hrun|]. rewrite Hs, Hb, (Hoff eq_refl).
      injection Hrid as <-. vm_compute in He. injection He as <-.
      split; reflexivity.
Defined.

Lemma debug_fields_gated_witness :
  (lookup (js "details")
     (bodyMembers
        (jsonResponse 429
           (errorBody (js "Rate limited by LLM provider. Try again shortly.")
                      (VStr (js "req-1")) []))) = None) /\
  answered
    (sampleRun (answering (js "not json")) triage debugEnv
       (sampleEvent "POST" (Some (js "REQ"))))
    502
    (errorBody (js "Model returned non-JSON output.") (VStr (js "req-1"))
       [(js "model_output", VStr (js "not json"))])
    [request triage debugEnv (js "sk-test") (js "Our tickets pile up")] /\
  answered
    (sampleRun (answering (js "EMPTY")) triage debugEnv
       (sampleEvent "POST" (Some (js "REQ"))))
    502
    (errorBody (js "Model returned an invalid response shape.")
       (VStr (js "req-1"))
       [(js "details", VStr (js "Missing required property: problem_statement"));
        (js "model_output", VStr (js "EMPTY"))])
    [request triage debugEnv (js "sk-test") (js "Our tickets pile up")].
Proof.
  split; [|split].
  - destruct (@debug_fields_gated sampleParse sampleDecode sampleString
                (failing 429) triage sampleEnv
                (sampleEvent "POST" (Some (js "REQ")))) as [Hoff _].
    eapply (Hoff eq_refl _ _ _); [vm_compute; reflexivity | discriminate | reflexivity].
  - destruct (@debug_fields_gated sampleParse sampleDecode sampleString
                (answering (js "not json")) triage debugEnv
                (sampleEvent "POST" (Some (js "REQ")))) as [_ Hon].
    destruct (Hon eq_refl (js "sk-test") (js "Our tickets pile up")
                (VObj [(js "output_text", VStr (js "not json"))]) (js "not json"))
      as (rid & Hrid & Hnon & _).
    + apply sample_admitted. reflexivity.
    + reflexivity.
    + reflexivity.
    + discriminate.
    + injection Hrid as <-. apply (Hnon syntaxError). reflexivity.
  - destruct (@debug_fields_gated sampleParse sampleDecode sampleString
                (answering (js "EMPTY")) triage debugEnv
                (sampleEvent "POST" (Some (js "REQ")))) as [_ Hon].
    destruct (Hon eq_refl (js "sk-test") (js "Our tickets pile up")
                (VObj [(js "output_text", VStr (js "EMPTY"))]) (js "EMPTY"))
      as (rid & Hrid & _ & Hshape & _).
    + apply sample_admitted. reflexivity.
    + reflexivity.
    + reflexivity.
    + discriminate.
    + injection Hrid as <-.
      apply (Hshape (VObj [])); [reflexivity | now left | vm_compute; reflexivity].
Defined.

End Samples.

(** ** Every way a request is answered *)

Module AnswerFacts.
Import ValidatorFacts HandlerFacts.

Section Answers.
Variable JSON_parse : jsstr -> completion value.
Variable base64ToUtf8 : jsstr -> jsstr.
Variable String_ : value -> jsstr.
Variable responses_create : createParams -> completion value.
Variable ep : endpoint.
Variable env : environment.

Local Abbreviation run' :=
  (run JSON_parse base64ToUtf8 String_ responses_create ep env).
Local Abbreviation admitted' := (admitted JSON_parse base64ToUtf8 ep env).
Local Abbreviation stage key rid text :=
  (tryCatch (callProvider JSON_parse responses_create ep env key rid text)
            (providerFailure String_ env rid) []).

Lemma stage_failure key rid text err :
  exists e extra,
    toHttpError err = Normal e /\
    (DEBUG_ERRORS env = false -> extra = []) /\
    providerFailure String_ env rid err [request ep env key text] =
    (Normal (jsonResponse (errStatusCode e) (errorBody (message e) rid extra)),
     [request ep env key text]).
Proof.
  destruct (providerFailure_returns String_ env rid err [request ep env key text])
    as (e & extra & He & Hp & Hoff & _).
  now exists e, extra.
Qed.

(** The provider stage answers in one of the five ways, after one call. *)
Lemma stage_answer key rid text :
  exists r,
    stage key rid text = (Normal r, [request ep env key text]) /\
    providerAnswer JSON_parse responses_create ep env key rid text r.
Proof.
  unfold providerAnswer. cbv zeta.
  unfold tryCatch, callProvider, bindM, invoke, lift, safeJsonParse, ret.
  cbn [app].
  destruct (responses_create (request ep env key text)) as [resp|err] eqn:C.
  2:{ destruct (stage_failure key rid text err) as (e & extra & He & Hoff & ->).
      eexists. split; [reflexivity|]. left. exists err, e, extra. auto. }
  destruct (Get resp (js "output_text")) as [output|err] eqn:G.
  2:{ destruct (stage_failure key rid text err) as (e & extra & He & Hoff & ->).
      eexists. split; [reflexivity|]. left. exists err, e, extra.
      split; [right; left; now exists resp|auto]. }
  assert (Hno : (forall out, output = VStr out -> out = []) ->
    exists r,
      (Normal (jsonResponse 502
                 (VObj [(js "error", VStr (js "No text output received from model."));
                        (js "requestId", rid)])), [request ep env key text]) =
      (Normal r, [request ep env key text]) /\
      ((exists err e extra,
          (@Normal value resp = Throw err \/
           (exists resp0, Normal resp = Normal resp0 /\
                          Get resp0 (js "output_text") = Throw err) \/
           (exists resp0 out parsed,
              Normal resp = Normal resp0 /\
              Get resp0 (js "output_text") = Normal (VStr out) /\ out <> [] /\
              JSON_parse out = Normal parsed /\ validate ep parsed = Throw err)) /\
          toHttpError err = Normal e /\
          (DEBUG_ERRORS env = false -> extra = []) /\
          r = jsonResponse (errStatusCode e) (errorBody (message e) rid extra)) \/
       (exists resp0 output0,
          Normal resp = Normal resp0 /\
          Get resp0 (js "output_text") = Normal output0 /\
          (forall out, output0 = VStr out -> out = []) /\
          r = jsonResponse 502
                (errorBody (js "No text output received from model.") rid [])) \/
       (exists resp0 out e,
          Normal resp = Normal resp0 /\
          Get resp0 (js "output_text") = Normal (VStr out) /\ out <> [] /\
          JSON_parse out = Throw e /\
          r = jsonResponse 502
                (errorBody (js "Model returned non-JSON output.") rid
                   (debugFields env [(js "model_output", VStr (slice0 2000 out))]))) \/
       (exists resp0 out parsed details,
          Normal resp = Normal resp0 /\
          Get resp0 (js "output_text") = Normal (VStr out) /\ out <> [] /\
          JSON_parse out = Normal parsed /\
          validate ep parsed = Normal (Some details) /\ details <> [] /\
          r = jsonResponse 502
                (errorBody (js "Model returned an invalid response shape.") rid
                   (debugFields env [(js "details", VStr details);
                                     (js "model_output", VStr (slice0 2000 out))]))) \/
       (exists resp0 out parsed,
          Normal resp = Normal resp0 /\
          Get resp0 (js "output_text") = Normal (VStr out) /\ out <> [] /\
          JSON_parse out = Normal parsed /\
          (validate ep parsed = Normal None \/
           validate ep parsed = Normal (Some [])) /\
          r = jsonResponse 200 parsed))).
  { intros H. eexists. split; [reflexivity|]. right; left.
    exists resp, output. now repeat split. }
  destruct output as [| |b|n|[|c out]|l|o];
    try (apply Hno; intros out' [=]; fail); try (apply Hno; now intros out' [= <-]).
  clear Hno.
  destruct (JSON_parse (c :: out)) as [parsed|e] eqn:P.
  2:{ eexists. split; [reflexivity|]. right; right; left.
      exists resp, (c :: out), e. repeat split; trivial. discriminate. }
  destruct (validate ep parsed) as [[[|d details]|]|err] eqn:V.
  - eexists. split; [reflexivity|]. do 4 right.
    exists resp, (c :: out), parsed. repeat split; trivial; [discriminate|now right].
  - eexists. split; [reflexivity|]. do 3 right; left.
    exists resp, (c :: out), parsed, (d :: details).
    repeat split; trivial; discriminate.
  - eexists. split; [reflexivity|]. do 4 right.
    exists resp, (c :: out), parsed. repeat split; trivial; [discriminate|now left].
  - destruct (stage_failure key rid text err) as (e & extra & He & Hoff & ->).
    eexists. split; [reflexivity|]. left. exists err, e, extra.
    split; [|auto]. right; right. exists resp, (c :: out), parsed.
    repeat split; trivial. discriminate.
Qed.

(** A request is refused before the provider, with no call, or admitted and
    answered by the provider stage, with one. *)
Lemma run_cases event :
  (Event.httpMethod event = js "OPTIONS" /\ run' event = (Normal preflight, [])) \/
  (Event.httpMethod event <> js "OPTIONS" /\
   exists code msg,
     In code [405; 500] /\
     (code = 405 -> Event.httpMethod event <> js "POST") /\
     (code = 500 -> Event.httpMethod event = js "POST" /\
                    orDefault (OPENAI_API_KEY env) [] = []) /\
     run' event = (Normal (jsonResponse code (VObj [(js "error", VStr msg)])), []) /\
     msg <> []) \/
  (Event.httpMethod event = js "POST" /\
   exists key rid code msg,
     OPENAI_API_KEY env = Some key /\ key <> [] /\
     getRequestId event = Normal rid /\
     In code [413; 400] /\
     (code = 413 <-> MAX_BODY_BYTES < bodyBytes event) /\
     (forall text, ~ admitted' event key text) /\
     run' event = (Normal (jsonResponse code (errorBody msg rid [])), []) /\
     msg <> []) \/
  (exists key rid text r,
     admitted' event key text /\
     getRequestId event = Normal rid /\
     run' event = (Normal r, [request ep env key text]) /\
     providerAnswer JSON_parse responses_create ep env key rid text r).
Proof.
  destruct (list_eq_dec N.eq_dec (Event.httpMethod event) (js "OPTIONS")) as [Ho|Ho].
  { left. split; trivial. unfold run. now apply handler_options. }
  right.
  destruct (list_eq_dec N.eq_dec (Event.httpMethod event) (js "POST")) as [Hp|Hp].
  2:{ left. split; trivial. do 2 eexists.
      split; [|split; [|split; [|split; [unfold run; now apply handler_other_method|]]]].
      - simpl; auto.
      - trivial.
      - discriminate.
      - discriminate. }
  assert (Hnokey : orDefault (OPENAI_API_KEY env) [] = [] ->
    Event.httpMethod event <> js "OPTIONS" /\
    exists code msg,
      In code [405; 500] /\
      (code = 405 -> Event.httpMethod event <> js "POST") /\
      (code = 500 -> Event.httpMethod event = js "POST" /\
                     orDefault (OPENAI_API_KEY env) [] = []) /\
      run' event = (Normal (jsonResponse code (VObj [(js "error", VStr msg)])), []) /\
      msg <> []).
  { intros K. split; trivial. do 2 eexists.
    split; [|split; [|split; [|split; [unfold run; now apply handler_no_key|]]]].
    - simpl; auto.
    - discriminate.
    - auto.
    - discriminate. }
  destruct (OPENAI_API_KEY env) as [[|c k]|] eqn:K;
    [left; now apply Hnokey | | left; now apply Hnokey].
  clear Hnokey. right. set (key := c :: k) in *.
  assert (Hne : key <> []) by discriminate.
  destruct (@handler_keyed JSON_parse base64ToUtf8 String_ responses_create
              ep env event [] key Hp K Hne) as (rid & Hrid & Hrun).
  rewrite bodyTooLarge_bytes in Hrun.
  destruct (MAX_BODY_BYTES <? bodyBytes event) eqn:Hsize.
  { apply N.ltb_lt in Hsize. left. split; trivial.
    exists key, rid, 413. eexists.
    do 3 (split; [trivial|]). split; [simpl; auto|]. split; [tauto|].
    split; [intros text (_ & _ & _ & Hle & _); lia|].
    split; [unfold run; exact Hrun | discriminate]. }
  apply N.ltb_ge in Hsize.
  assert (Hnot : 413 = 400 <-> MAX_BODY_BYTES < bodyBytes event)
    by (split; [discriminate | lia]).
  destruct (JSON_parse (bodyText base64ToUtf8 event)) as [parsed|e] eqn:P.
  2:{ left. split; trivial. exists key, rid, 400. eexists.
      do 3 (split; [trivial|]). split; [simpl; auto|].
      split; [split; [discriminate | lia]|].
      split; [intros text (_ & _ & _ & _ & parsed & P' & _); congruence|].
      split; [unfold run; rewrite Hrun; eapply answer_invalid_json; eauto|].
      discriminate. }
  erewrite answer_parsed in Hrun by eassumption. cbv zeta in Hrun.
  destruct (trim (textOf (textField ep) parsed)) as [|t0 t] eqn:T.
  { left. split; trivial. exists key, rid, 400. eexists.
    do 3 (split; [trivial|]). split; [simpl; auto|].
    split; [split; [discriminate | lia]|].
    split.
    { intros text (_ & _ & _ & _ & parsed' & P' & -> & Ht & _).
      assert (parsed' = parsed) by congruence. subst. contradiction. }
    split; [unfold run; exact Hrun | discriminate]. }
  cbn [nonEmpty negb] in Hrun.
  destruct (MAX_INPUT_CHARS <? strlen (textOf (textField ep) parsed)) eqn:L.
  { apply N.ltb_lt in L. left. split; trivial.
    exists key, rid, 400. eexists.
    do 3 (split; [trivial|]). split; [simpl; auto|].
    split; [split; [discriminate | lia]|].
    split.
    { intros text (_ & _ & _ & _ & parsed' & P' & -> & _ & Hl).
      assert (parsed' = parsed) by congruence. subst. lia. }
    split; [unfold run; exact Hrun | discriminate]. }
  apply N.ltb_ge in L. right.
  destruct (stage_answer key rid (textOf (textField ep) parsed)) as (r & Hr & Hans).
  exists key, rid, (textOf (textField ep) parsed), r.
  split; [|split; [trivial|split; [unfold run; rewrite Hrun; exact Hr | exact Hans]]].
  split; [trivial|]. split; [trivial|]. split; [trivial|]. split; [trivial|].
  exists parsed. repeat split; trivial. rewrite T. discriminate.
Qed.

End Answers.
End AnswerFacts.

(** ** Correlation ids in the answers *)

Section CorrelationClaims.
Import ValidatorFacts HandlerFacts RequestIdFacts AnswerFacts.

Variable JSON_parse : jsstr -> completion value.
Variable base64ToUtf8 : jsstr -> jsstr.
Variable String_ : value -> jsstr.
Variable responses_create : createParams -> completion value.
Variable ep : endpoint.
Variable env : environment.

Local Abbreviation run' :=
  (run JSON_parse base64ToUtf8 String_ responses_create ep env).

Lemma requestId_not_allowed : ~ In (js "requestId") allowedKeys.
Proof. vm_compute. intuition discriminate. Qed.

Lemma error_not_allowed : ~ In (js "error") allowedKeys.
Proof. vm_compute. intuition discriminate. Qed.

(** A 200 carries a value that the validator of the endpoint accepted. *)
Lemma success_body event r calls :
  ep = triage \/ ep = generatePlan ->
  run' event = (Normal r, calls) ->
  Response.statusCode r = 200 ->
  exists props,
    Response.body r = Response.Json (VObj props) /\
    validate ep (VObj props) = Normal None /\
    (forall k, In k (map fst props) <-> In k allowedKeys).
Proof.
  intros Hep Hrun Hcode.
  destruct (run_cases JSON_parse base64ToUtf8 String_ responses_create ep env event)
    as [[_ H] | [(_ & code & msg & Hin & _ & _ & H & _) |
    [(_ & key & rid & code & msg & _ & _ & _ & Hin & _ & _ & H & _) |
     (key & rid & text & r' & Hadm & _ & H & Hans)]]];
    rewrite Hrun in H; injection H as -> ->.
  - discriminate.
  - simpl in Hin, Hcode. destruct Hin as [<- | [<- | []]]; discriminate.
  - simpl in Hin, Hcode. destruct Hin as [<- | [<- | []]]; discriminate.
  - destruct Hans as [(err & e & extra & _ & He & _ & ->) |
          [(resp & output & _ & _ & _ & ->) |
           [(resp & out & e & _ & _ & _ & _ & ->) |
            [(resp & out & parsed & details & _ & _ & _ & _ & _ & _ & ->) |
             (resp & out & parsed & C & G & _ & P & V & ->)]]]];
      try discriminate.
    + destruct (toHttpError_returns err) as (e' & He' & Hc).
      assert (e' = e) by congruence. subst. simpl in Hcode.
      destruct Hc as [Hc | Hc]; rewrite Hc in Hcode; discriminate.
    + assert (Hv : exists pattern, validate ep = validateShape pattern)
        by (destruct Hep as [-> | ->]; eexists; reflexivity).
      destruct Hv as (pattern & Hv). rewrite Hv in V.
      destruct V as [V | V]; [|apply validateShape_message in V; contradiction].
      pose proof V as Hc. apply validateShape_None in Hc.
      destruct Hc as (props & -> & Hkeys & _).
      exists props. rewrite Hv. now repeat split; try apply Hkeys.
Qed.

(** C4, amended.  The correlation id of a request, the first truthy value
    among its four headers, is the [requestId] member, unchanged, of every
    error envelope with status 413, 400, 429 or 502; the 200 body is the
    object the validator accepted, with the six keys only, and so has no
    [requestId] member. *)
Theorem error_envelopes_echo_requestId event r calls :
  run' event = (Normal r, calls) ->
  (forall id,
     firstRequestId (Event.headers event) id ->
     In (Response.statusCode r) [413; 400; 429; 502] ->
     exists props,
       Response.body r = Response.Json (VObj props) /\
       lookup (js "requestId") props = Some id) /\
  (ep = triage \/ ep = generatePlan ->
   Response.statusCode r = 200 ->
   exists props,
     Response.body r = Response.Json (VObj props) /\
     validate ep (VObj props) = Normal None /\
     (forall k, In k (map fst props) <-> In k allowedKeys) /\
     lookup (js "requestId") props = None).
Proof.
  intros Hrun. split.
  - intros id Hid Hcode. apply getRequestId_first in Hid.
    destruct (handler_outcomes JSON_parse base64ToUtf8 String_ responses_create
                ep env event []) as (r' & calls' & Hr & Hcases).
    unfold run in Hrun. rewrite Hrun in Hr. injection Hr as <- <-.
    destruct Hcases as [-> | [-> | [-> | [(parsed & ->) |
      (rid & code & msg & extra & Hrid & -> & _ & _)]]]];
      try (simpl in Hcode; intuition discriminate).
    rewrite Hid in Hrid. injection Hrid as <-.
    eexists. split; reflexivity.
  - intros Hep Hcode.
    destruct (success_body event Hep Hrun Hcode) as (props & Hb & V & Hkeys).
    exists props. split; [trivial|]. split; [trivial|]. split; [trivial|].
    destruct (lookup (js "requestId") props) as [v|] eqn:E; [|reflexivity].
    exfalso. apply requestId_not_allowed, Hkeys, lookup_In. congruence.
Qed.

End CorrelationClaims.

(** ** Further properties of the handlers *)

Section HandlerExtras.
Import ValidatorFacts HandlerFacts ClassificationFacts AnswerFacts.

Variable JSON_parse : jsstr -> completion value.
Variable base64ToUtf8 : jsstr -> jsstr.
Variable String_ : value -> jsstr.
Variable responses_create : createParams -> completion value.
Variable ep : endpoint.
Variable env : environment.

Local Abbreviation run' :=
  (run JSON_parse base64ToUtf8 String_ responses_create ep env).
Local Abbreviation admitted' := (admitted JSON_parse base64ToUtf8 ep env).
Local Abbreviation cases := (run_cases JSON_parse base64ToUtf8 String_
                               responses_create ep env).

Lemma providerAnswer_status key rid text r :
  providerAnswer JSON_parse responses_create ep env key rid text r ->
  In (Response.statusCode r) [200; 429; 502].
Proof.
  intros [(err & e & extra & _ & He & _ & ->) |
          [(resp & output & _ & _ & _ & ->) |
           [(resp & out & e & _ & _ & _ & _ & ->) |
            [(resp & out & parsed & details & _ & _ & _ & _ & _ & _ & ->) |
             (resp & out & parsed & _ & _ & _ & _ & _ & ->)]]]];
    try (simpl; tauto).
  destruct (toHttpError_returns err) as (e' & He' & Hcode).
  assert (e' = e) by congruence. subst. simpl. destruct Hcode as [-> | ->]; tauto.
Qed.

(** X1.  A 200 is only ever the answer to an admitted request, after one
    provider call, and its body is the value the model's output parsed to,
    which the validator accepted. *)
Theorem success_only_after_validation event r calls pattern :
  validate ep = validateShape pattern ->
  run' event = (Normal r, calls) ->
  Response.statusCode r = 200 ->
  exists key text resp out parsed,
    admitted' event key text /\
    calls = [request ep env key text] /\
    responses_create (request ep env key text) = Normal resp /\
    Get resp (js "output_text") = Normal (VStr out) /\
    JSON_parse out = Normal parsed /\
    Response.body r = Response.Json parsed /\
    conforms (matches pattern) parsed.
Proof.
  intros Hv Hrun Hcode.
  destruct (cases event) as [[_ H] | [(_ & code & msg & Hin & _ & _ & H & _) |
    [(_ & key & rid & code & msg & _ & _ & _ & Hin & _ & _ & H & _) |
     (key & rid & text & r' & Hadm & _ & H & Hans)]]];
    rewrite Hrun in H; injection H as -> ->.
  - discriminate.
  - simpl in Hin, Hcode. destruct Hin as [<- | [<- | []]]; discriminate.
  - simpl in Hin, Hcode. destruct Hin as [<- | [<- | []]]; discriminate.
  - destruct Hans as [(err & e & extra & _ & He & _ & ->) |
          [(resp & output & _ & _ & _ & ->) |
           [(resp & out & e & _ & _ & _ & _ & ->) |
            [(resp & out & parsed & details & _ & _ & _ & _ & _ & _ & ->) |
             (resp & out & parsed & C & G & _ & P & V & ->)]]]];
      try discriminate.
    + destruct (toHttpError_returns err) as (e' & He' & Hc).
      assert (e' = e) by congruence. subst. simpl in Hcode.
      destruct Hc as [Hc | Hc]; rewrite Hc in Hcode; discriminate.
    + exists key, text, resp, out, parsed.
      split; [exact Hadm|]. do 5 (split; [trivial|]).
      apply validateShape_None. rewrite Hv in V. destruct V as [V | V]; trivial.
      apply validateShape_message in V. contradiction.
Qed.

(** X2.  The status of a response is one of eight; it is 204 exactly for
    OPTIONS; a 204, 400, 405, 413 or 500 is answered without calling the
    provider, and a 200, 429 or 502 after exactly one call, made with the
    configured key for a text that is not blank and of at most 8000 code
    units, from a body of at most 65536 bytes. *)
Theorem statuses_and_calls event r calls :
  run' event = (Normal r, calls) ->
  In (Response.statusCode r) [200; 204; 400; 405; 413; 429; 500; 502] /\
  (Response.statusCode r = 204 <-> Event.httpMethod event = js "OPTIONS") /\
  (In (Response.statusCode r) [204; 400; 405; 413; 500] -> calls = []) /\
  (In (Response.statusCode r) [200; 429; 502] ->
   exists key text,
     calls = [request ep env key text] /\
     OPENAI_API_KEY env = Some key /\ key <> [] /\
     trim text <> [] /\ strlen text <= MAX_INPUT_CHARS /\
     bodyBytes event <= MAX_BODY_BYTES).
Proof.
  intros Hrun.
  destruct (cases event) as [[Ho H] | [(Ho & code & msg & Hin & _ & _ & H & _) |
    [(Hp & key & rid & code & msg & _ & _ & _ & Hin & _ & _ & H & _) |
     (key & rid & text & r' & Hadm & _ & H & Hans)]]];
    rewrite Hrun in H; injection H as -> ->.
  - repeat split; trivial; simpl; try tauto.
    intros [H | [H | [H | []]]]; discriminate.
  - simpl in Hin. destruct Hin as [<- | [<- | []]]; simpl;
      (split; [tauto|]); (split; [split; [discriminate | contradiction]|]);
      (split; [trivial|]); intros [H | [H | [H | []]]]; discriminate.
  - assert (Hno : Event.httpMethod event <> js "OPTIONS")
      by (rewrite Hp; discriminate).
    simpl in Hin. destruct Hin as [<- | [<- | []]]; simpl;
      (split; [tauto|]); (split; [split; [discriminate | contradiction]|]);
      (split; [trivial|]); intros [H | [H | [H | []]]]; discriminate.
  - pose proof (providerAnswer_status Hans) as Hst.
    destruct Hadm as (Hp & K & Hne & Hsize & parsed & P & Ht & Htrim & Hlen).
    assert (Hno : Event.httpMethod event <> js "OPTIONS")
      by (rewrite Hp; discriminate).
    simpl in Hst. split; [|split; [|split]].
    + simpl. tauto.
    + split; [|contradiction]. intros H. rewrite H in Hst.
      destruct Hst as [Hs | [Hs | [Hs | []]]]; discriminate.
    + intros Hin. simpl in Hin. exfalso.
      destruct Hst as [Hs | [Hs | [Hs | []]]]; rewrite <- Hs in Hin;
        destruct Hin as [H | [H | [H | [H | [H | []]]]]]; discriminate.
    + intros _. exists key, text. now repeat split.
Qed.

(** X3.  Every response carries the three cross-origin headers; every
    response but the preflight also declares JSON content and has a JSON
    body, and the preflight has an empty one. *)
Theorem responses_carry_cors_headers event r calls :
  run' event = (Normal r, calls) ->
  (forall h, In h corsHeaders -> In h (Response.headers r)) /\
  (Response.statusCode r <> 204 ->
   In (js "content-type", js "application/json; charset=utf-8")
      (Response.headers r) /\
   exists v, Response.body r = Response.Json v) /\
  (Response.statusCode r = 204 -> Response.body r = Response.Empty).
Proof.
  intros Hrun.
  destruct (handler_outcomes JSON_parse base64ToUtf8 String_ responses_create
              ep env event []) as (r' & calls' & Hr & Hcases).
  unfold run in Hrun. rewrite Hrun in Hr. injection Hr as <- <-.
  assert (Hjson : forall code v,
    (forall h, In h corsHeaders -> In h (Response.headers (jsonResponse code v))) /\
    (In (js "content-type", js "application/json; charset=utf-8")
        (Response.headers (jsonResponse code v)) /\
     exists v', Response.body (jsonResponse code v) = Response.Json v')).
  { intros code v. split; [intros h Hh; now right|].
    split; [now left | now exists v]. }
  destruct Hcases as [-> | [-> | [-> | [(parsed & ->) |
    (rid & code & msg & extra & _ & -> & Hin & _)]]]].
  - split; [trivial|]. split; [intros H; now contradiction H | reflexivity].
  - split; [apply Hjson|]. split; [intros _; apply Hjson | discriminate].
  - split; [apply Hjson|]. split; [intros _; apply Hjson | discriminate].
  - split; [apply Hjson|]. split; [intros _; apply Hjson | discriminate].
  - split; [apply Hjson|]. split; [intros _; apply Hjson|].
    simpl. intros ->. simpl in Hin. intuition discriminate.
Qed.

End HandlerExtras.

Module StringFacts.

Lemma byteLength_bounds_upto n : forall s,
  (List.length s <= n)%nat ->
  strlen s <= byteLength s /\ byteLength s <= 3 * strlen s.
Proof.
  unfold strlen.
  induction n as [|n IH]; intros s Hn.
  - destruct s; [simpl; lia | simpl in Hn; lia].
  - destruct s as [|c t]; [simpl; lia|].
    assert (Ht : N.of_nat (List.length t) <= byteLength t /\
                 byteLength t <= 3 * N.of_nat (List.length t))
      by (apply IH; simpl in Hn; lia).
    cbn [byteLength]. cbn [List.length].
    destruct (c <? 128); [lia|]. destruct (c <? 2048); [lia|].
    destruct (isHighSurrogate c); [|lia].
    destruct t as [|d t']; [simpl; lia|].
    destruct (isLowSurrogate d); [|lia].
    assert (Ht' : N.of_nat (List.length t') <= byteLength t' /\
                  byteLength t' <= 3 * N.of_nat (List.length t'))
      by (apply IH; simpl in Hn; lia).
    cbn [List.length]. lia.
Qed.

Lemma byteLength_bounds s :
  strlen s <= byteLength s /\ byteLength s <= 3 * strlen s.
Proof. apply (@byteLength_bounds_upto (List.length s) s). lia. Qed.

Lemma byteLength_ascii s :
  forallb (fun c => c <? 128) s = true -> byteLength s = strlen s.
Proof.
  unfold strlen. induction s as [|c t IH]; [reflexivity|].
  cbn [forallb byteLength List.length]. intros H.
  apply andb_true_iff in H as [Hc Ht]. rewrite Hc, (IH Ht). lia.
Qed.

(** [trimStart] drops a white-space prefix and stops at the first code unit
    that is not white space. *)
Lemma trimStart_split s :
  exists pre, s = pre ++ trimStart s /\ forallb isWhiteSpace pre = true /\
              headNotBlank (trimStart s).
Proof.
  induction s as [|c t (pre & Ht & Hpre & Hh)]; [now exists []|].
  simpl. destruct (isWhiteSpace c) eqn:E.
  - exists (c :: pre). simpl. rewrite E, Hpre. repeat split; trivial. now f_equal.
  - exists []. now repeat split.
Qed.

Lemma trimStart_fixed s : headNotBlank s -> trimStart s = s.
Proof. destruct s as [|c t]; simpl; [trivial|]. now intros ->. Qed.

(** [trim s] is what is left of [s] between a white-space prefix and a
    white-space suffix, and neither begins nor ends with white space. *)
Lemma trim_split s :
  exists pre post,
    s = pre ++ trim s ++ post /\
    forallb isWhiteSpace pre = true /\ forallb isWhiteSpace post = true /\
    headNotBlank (trim s) /\ headNotBlank (rev (trim s)).
Proof.
  destruct (trimStart_split s) as (pre & Hs & Hpre & Hh).
  destruct (trimStart_split (rev (trimStart s))) as (post' & Hr & Hpost & Hh').
  exists pre, (rev post'). unfold trim.
  set (t := trimStart s) in *. set (u := trimStart (rev t)) in *.
  assert (Ht : t = rev u ++ rev post').
  { rewrite <- rev_app_distr, <- Hr. now rewrite rev_involutive. }
  repeat split; trivial.
  - now rewrite <- Ht.
  - rewrite forallb_forall in *. intros c Hc. apply Hpost. now apply in_rev.
  - destruct (rev u) as [|c0 r] eqn:E; [exact I|].
    rewrite Ht in Hh. exact Hh.
  - now rewrite rev_involutive.
Qed.

Lemma trim_idempotent s : trim (trim s) = trim s.
Proof.
  destruct (trim_split s) as (_ & _ & _ & _ & _ & Hh & Hr).
  unfold trim at 1. rewrite (trimStart_fixed _ Hh), (trimStart_fixed _ Hr).
  apply rev_involutive.
Qed.

Lemma trim_length s : strlen (trim s) <= strlen s.
Proof.
  destruct (trim_split s) as (pre & post & Hs & _).
  unfold strlen. rewrite Hs at 2. rewrite !length_app. lia.
Qed.

End StringFacts.

Section HandlerExtras2.
Import ValidatorFacts HandlerFacts ClassificationFacts AnswerFacts StringFacts.

Variable JSON_parse : jsstr -> completion value.
Variable base64ToUtf8 : jsstr -> jsstr.
Variable String_ : value -> jsstr.
Variable responses_create : createParams -> completion value.
Variable ep : endpoint.
Variable env : environment.

Local Abbreviation run' :=
  (run JSON_parse base64ToUtf8 String_ responses_create ep env).
Local Abbreviation admitted' := (admitted JSON_parse base64ToUtf8 ep env).
Local Abbreviation cases := (run_cases JSON_parse base64ToUtf8 String_
                               responses_create ep env).

Lemma too_large_iff event key r calls :
  Event.httpMethod event = js "POST" ->
  OPENAI_API_KEY env = Some key -> key <> [] ->
  run' event = (Normal r, calls) ->
  (Response.statusCode r = 413 <-> MAX_BODY_BYTES < bodyBytes event) /\
  (Response.statusCode r = 413 -> calls = []).
Proof.
  intros Hp K Hne Hrun.
  destruct (cases event) as [[Ho H] | [(Ho & code & msg & Hin & H405 & H500 & H & _) |
    [(_ & key' & rid & code & msg & _ & _ & _ & Hin & Hiff & _ & H & _) |
     (key' & rid & text & r' & Hadm & _ & H & Hans)]]];
    rewrite Hrun in H; injection H as -> ->.
  - rewrite Hp in Ho. discriminate.
  - simpl in Hin. destruct Hin as [<- | [<- | []]].
    + exfalso. now apply (H405 eq_refl).
    + destruct (H500 eq_refl) as [_ Hk]. rewrite K in Hk. simpl in Hk.
      destruct key; [contradiction | discriminate].
  - split; [exact Hiff | trivial].
  - assert (Hst : In (Response.statusCode r') [200; 429; 502])
      by (eapply providerAnswer_status; eassumption).
    destruct Hadm as (_ & _ & _ & Hsize & _).
    assert (Hn : Response.statusCode r' <> 413).
    { intros H. rewrite H in Hst. simpl in Hst. intuition discriminate. }
    split; [split; [contradiction | lia] | contradiction].
Qed.

(** X4.  The size ceiling in code units: with the method and the credential
    in order, a body of more than 65536 code units is always answered 413, a
    body of at most 21845 never is, and for a body of code units below 128
    the 413 is answered exactly when the body has more than 65536 of them. *)
Theorem body_size_in_code_units event key b r calls :
  Event.httpMethod event = js "POST" ->
  OPENAI_API_KEY env = Some key -> key <> [] ->
  Event.body event = Some b ->
  run' event = (Normal r, calls) ->
  (MAX_BODY_BYTES < strlen b -> Response.statusCode r = 413 /\ calls = []) /\
  (3 * strlen b <= MAX_BODY_BYTES -> Response.statusCode r <> 413) /\
  (forallb (fun c => c <? 128) b = true ->
   (Response.statusCode r = 413 <-> MAX_BODY_BYTES < strlen b)).
Proof.
  intros Hp K Hne Hb Hrun.
  destruct (too_large_iff event Hp K Hne Hrun) as [Hiff Hnone].
  assert (Hbytes : bodyBytes event = byteLength b)
    by (unfold bodyBytes; now rewrite Hb).
  rewrite Hbytes in Hiff. destruct (byteLength_bounds b) as [Hlo Hhi].
  split; [|split].
  - intros H. assert (Hc : Response.statusCode r = 413) by (apply Hiff; lia).
    split; [trivial | now apply Hnone].
  - intros H Hc. apply Hiff in Hc. lia.
  - intros Hascii. now rewrite Hiff, (byteLength_ascii _ Hascii).
Qed.

End HandlerExtras2.

Module FlagFacts.

Lemma lower_is a t :
  97 <= t <= 122 ->
  (if between 65 90 a then a + 32 else a) = t <-> a = t \/ a + 32 = t.
Proof.
  intros Ht. unfold between.
  destruct (65 <=? a) eqn:E1; destruct (a <=? 90) eqn:E2; cbn [andb];
    try apply N.leb_le in E1; try apply N.leb_le in E2;
    try apply N.leb_gt in E1; try apply N.leb_gt in E2; lia.
Qed.

Lemma Get_throw_has_no_status v k err : Get v k = Throw err -> statusOf err = None.
Proof. destruct v; simpl; intros [= <-]; reflexivity. Qed.

Lemma throttled_only_on_429 err e :
  toHttpError err = Normal e -> errStatusCode e = 429 ->
  exists n, statusOf err = Some n /\ isCode n 429.
Proof.
  rewrite ClassificationFacts.toHttpError_table.
  destruct (statusOf err) as [n|]; [|intros [= <-] H; discriminate H].
  destruct (num_eqb n (ofZ 401) || num_eqb n (ofZ 403));
    [intros [= <-] H; discriminate H|].
  destruct (num_eqb n (ofZ 429)) eqn:E.
  - intros _ _. exists n. split; trivial. now apply ClassificationFacts.isCode_eqb.
  - destruct (truthy (VNum n) && num_geb n (ofZ 500));
      intros [= <-] H; discriminate H.
Qed.

Lemma vor_chain_result a b c d :
  vor a (vor b (vor c (vor d VNull))) = VNull \/
  truthy (vor a (vor b (vor c (vor d VNull)))) = true.
Proof.
  unfold vor.
  destruct (truthy a) eqn:Ea; [now right|].
  destruct (truthy b) eqn:Eb; [now right|].
  destruct (truthy c) eqn:Ec; [now right|].
  destruct (truthy d) eqn:Ed; [now right | now left].
Qed.

End FlagFacts.

Section HandlerExtras3.
Import ValidatorFacts HandlerFacts ClassificationFacts AnswerFacts FlagFacts.

Variable JSON_parse : jsstr -> completion value.
Variable base64ToUtf8 : jsstr -> jsstr.
Variable String_ : value -> jsstr.
Variable responses_create : createParams -> completion value.
Variable ep : endpoint.
Variable env : environment.

Local Abbreviation run' :=
  (run JSON_parse base64ToUtf8 String_ responses_create ep env).
Local Abbreviation admitted' := (admitted JSON_parse base64ToUtf8 ep env).
Local Abbreviation cases := (run_cases JSON_parse base64ToUtf8 String_
                               responses_create ep env).

(** X5.  The correlation id: [null] when the event has no headers or none of
    the four names holds a truthy value; the value under [x-nf-request-id]
    whenever that one is truthy, whatever the other three hold; and never a
    falsy value such as the empty string. *)
Theorem request_id_selection event :
  (truthy (Event.headers event) = false -> getRequestId event = Normal VNull) /\
  (forall hs v,
     Event.headers event = VObj hs ->
     lookup (js "x-nf-request-id") hs = Some v -> truthy v = true ->
     getRequestId event = Normal v) /\
  (forall hs,
     Event.headers event = VObj hs ->
     (forall name v, In name requestIdHeaders -> lookup name hs = Some v ->
                     truthy v = false) ->
     getRequestId event = Normal VNull) /\
  (forall rid, getRequestId event = Normal rid -> rid = VNull \/ truthy rid = true).
Proof.
  split; [|split; [|split]].
  - intros H. unfold getRequestId, vor. rewrite H. reflexivity.
  - intros hs v Hh Hl Hv. unfold getRequestId. rewrite Hh.
    change (vor (VObj hs) (VObj [])) with (VObj hs). cbn [Get bind].
    rewrite Hl. unfold vor at 1. now rewrite Hv.
  - intros hs Hh Hall. unfold getRequestId. rewrite Hh.
    change (vor (VObj hs) (VObj [])) with (VObj hs). cbn [Get bind].
    assert (Hf : forall name, In name requestIdHeaders ->
              truthy (match lookup name hs with Some x => x | None => VUndefined end)
              = false).
    { intros name Hn. destruct (lookup name hs) as [v|] eqn:E; [|reflexivity].
      now apply (Hall name). }
    unfold vor. rewrite !Hf by (simpl; auto). reflexivity.
  - intros rid. unfold getRequestId.
    rewrite !Get_truthy by apply truthy_vor. cbn [bind]. intros [= <-].
    apply vor_chain_result.
Qed.

(** The debug flag is on exactly when the variable is the word [true] in
    any mix of upper and lower case. *)
Lemma debug_flag_spelling :
  DEBUG_ERRORS env = true <->
  exists a b c d,
    DEBUG_ERRORS_variable env = Some [a; b; c; d] /\
    (a = 116 \/ a = 84) /\ (b = 114 \/ b = 82) /\
    (c = 117 \/ c = 85) /\ (d = 101 \/ d = 69).
Proof.
  unfold DEBUG_ERRORS. rewrite str_eqb_eq. split.
  - intros H.
    destruct (DEBUG_ERRORS_variable env) as [[|a [|b [|c [|d [|x s]]]]]|];
      try discriminate.
    cbn [orDefault toLowerCase map] in H. injection H as Ha Hb Hc Hd.
    apply lower_is in Ha, Hb, Hc, Hd; try lia.
    exists a, b, c, d. split; [reflexivity|]. repeat split; lia.
  - intros (a & b & c & d & -> & Ha & Hb & Hc & Hd).
    destruct Ha as [-> | ->], Hb as [-> | ->], Hc as [-> | ->], Hd as [-> | ->];
      reflexivity.
Qed.

(** X6.  A 429 is only ever relayed: the handler answers 429 only when the
    provider call itself threw a value whose numeric status is 429. *)
Theorem rate_limit_only_relayed event r calls pattern :
  validate ep = validateShape pattern ->
  run' event = (Normal r, calls) ->
  Response.statusCode r = 429 ->
  exists key text err n,
    calls = [request ep env key text] /\
    responses_create (request ep env key text) = Throw err /\
    statusOf err = Some n /\ isCode n 429.
Proof.
  intros Hv Hrun Hcode.
  destruct (cases event) as [[_ H] | [(_ & code & msg & Hin & _ & _ & H & _) |
    [(_ & key & rid & code & msg & _ & _ & _ & Hin & _ & _ & H & _) |
     (key & rid & text & r' & Hadm & _ & H & Hans)]]];
    rewrite Hrun in H; injection H as -> ->.
  - discriminate.
  - simpl in Hin, Hcode. destruct Hin as [<- | [<- | []]]; discriminate.
  - simpl in Hin, Hcode. destruct Hin as [<- | [<- | []]]; discriminate.
  - destruct Hans as [(err & e & extra & Hsrc & He & _ & ->) |
          [(resp & output & _ & _ & _ & ->) |
           [(resp & out & e & _ & _ & _ & _ & ->) |
            [(resp & out & parsed & details & _ & _ & _ & _ & _ & _ & ->) |
             (resp & out & parsed & _ & _ & _ & _ & _ & ->)]]]];
      try discriminate.
    simpl in Hcode. destruct (throttled_only_on_429 _ He Hcode) as (n & Hn & Hc).
    destruct Hsrc as [C | [(resp & _ & G) | (resp & out & parsed & _ & _ & _ & _ & V)]].
    + now exists key, text, err, n.
    + apply Get_throw_has_no_status in G. congruence.
    + rewrite Hv in V.
      destruct (validateShape_returns pattern parsed) as (v & Hr & _). congruence.
Qed.

(** X7.  A provider response without usable text: when [output_text] is
    absent, not a string or empty the answer is the 502 [No text output
    received from model.], with no debug member whatever the flag; when the
    response itself is [null] or [undefined] it is the 502 [LLM request
    failed.] *)
Theorem missing_output_text event key text resp :
  admitted' event key text ->
  responses_create (request ep env key text) = Normal resp ->
  exists rid,
    getRequestId event = Normal rid /\
    (forall output,
       Get resp (js "output_text") = Normal output ->
       (forall out, output = VStr out -> out = []) ->
       answered (run' event) 502
         (errorBody (js "No text output received from model.") rid [])
         [request ep env key text]) /\
    (resp = VNull \/ resp = VUndefined ->
     DEBUG_ERRORS env = false ->
     answered (run' event) 502 (errorBody (js "LLM request failed.") rid [])
       [request ep env key text]).
Proof.
  intros Hadm C. unfold run.
  destruct (@admitted_handler JSON_parse base64ToUtf8 String_ responses_create
              ep env event key text [] Hadm) as (rid & Hrid & ->).
  exists rid. split; trivial.
  unfold tryCatch, callProvider, bindM, invoke, lift. rewrite C. cbn [app]. split.
  - intros output G Hout. apply answered_jsonResponse. rewrite G.
    destruct output as [| |b|n|[|c out]|l|o]; try reflexivity.
    specialize (Hout (c :: out) eq_refl). discriminate.
  - intros Hnull Hoff. apply answered_jsonResponse.
    assert (G : exists e, Get resp (js "output_text") = Throw e /\ statusOf e = None)
      by (destruct Hnull as [-> | ->]; eexists; split; reflexivity).
    destruct G as (e & -> & Hs).
    unfold providerFailure, bindM, lift, ret. rewrite toHttpError_table, Hs, Hoff.
    reflexivity.
Qed.

End HandlerExtras3.

(** ** Further properties of the validators and of the patterns *)

Section ValidatorExtras.
Import RegexFacts PatternFacts ValidatorFacts.

Lemma unexpectedProperty_first pre k post :
  (forall k', In k' pre -> In k' allowedKeys) -> ~ In k allowedKeys ->
  unexpectedProperty (pre ++ k :: post) = Some (js "Unexpected property: " ++ k).
Proof.
  intros Hpre Hk. induction pre as [|p pre IH]; cbn [app unexpectedProperty].
  - destruct (includes allowedKeys k) eqn:E; [|reflexivity].
    apply includes_In in E. contradiction.
  - assert (E : includes allowedKeys p = true)
      by (apply includes_In, Hpre; now left).
    rewrite E. cbn [negb]. apply IH. intros k' Hin. apply Hpre. now right.
Qed.

Lemma missingProperty_first props pre k post :
  (forall k', In k' (pre ++ k :: post) -> In k' allowedKeys) ->
  (forall k', In k' pre -> In k' (map fst props)) ->
  ~ In k (map fst props) ->
  missingProperty (VObj props) (pre ++ k :: post) =
  Normal (Some (js "Missing required property: " ++ k)).
Proof.
  intros Hall Hpre Hk.
  induction pre as [|p pre IH]; cbn [app missingProperty HasProperty bind].
  - rewrite (@allowed_not_inherited k) by (apply Hall; now left).
    destruct (lookup k props) eqn:E; [|reflexivity].
    exfalso. apply Hk, lookup_In. congruence.
  - rewrite (@allowed_not_inherited p) by (apply Hall; now left).
    destruct (lookup p props) eqn:E.
    + cbn [negb]. apply IH.
      * intros k' Hin. apply Hall. now right.
      * intros k' Hin. apply Hpre. now right.
    + exfalso. assert (Hp : In p (map fst props)) by (apply Hpre; now left).
      apply lookup_In in Hp. congruence.
Qed.

(** X8.  What a validator reports first.  A value that is not a plain object
    is [Response is not an object.]; an object with a property outside the
    six is reported by its first such property, in the order of its keys,
    whatever else it holds; an object with no such property but lacking one
    of the six is reported by the first one it lacks, in the order
    problem_statement, clarifying_questions, proposed_approach,
    recommended_tools, risks_and_privacy, next_steps. *)
Theorem key_errors_reported_first pattern :
  (forall v, (forall props, v <> VObj props) ->
     validateShape pattern v = Normal (Some (js "Response is not an object."))) /\
  (forall props pre k post,
     map fst props = pre ++ k :: post ->
     (forall k', In k' pre -> In k' allowedKeys) -> ~ In k allowedKeys ->
     validateShape pattern (VObj props) =
     Normal (Some (js "Unexpected property: " ++ k))) /\
  (forall props pre k post,
     (forall k', In k' (map fst props) -> In k' allowedKeys) ->
     allowedKeys = pre ++ k :: post ->
     (forall k', In k' pre -> In k' (map fst props)) ->
     ~ In k (map fst props) ->
     validateShape pattern (VObj props) =
     Normal (Some (js "Missing required property: " ++ k))).
Proof.
  split; [|split].
  - intros v Hv. unfold validateShape.
    destruct (negb (truthy v) || negb (isObjectType (typeof v)) || isArray v) eqn:G;
      [reflexivity|].
    apply guard_object in G as (props & ->). now contradiction (Hv props).
  - intros props pre k post Hkeys Hpre Hk. unfold validateShape.
    cbn [truthy typeof isObjectType isArray negb orb Object_keys bind].
    now rewrite Hkeys, unexpectedProperty_first.
  - intros props pre k post Hall Hsplit Hpre Hk. unfold validateShape.
    cbn [truthy typeof isObjectType isArray negb orb Object_keys bind].
    assert (U : unexpectedProperty (map fst props) = None)
      by now apply unexpectedProperty_None.
    rewrite U, Hsplit, missingProperty_first; trivial.
    intros k' Hin. now rewrite Hsplit.
Qed.

Lemma upper_not_blank c : upper c = true -> isWhiteSpace c = false.
Proof.
  unfold upper, between. intros H. apply andb_true_iff in H as [H1 H2].
  apply N.leb_le in H1, H2.
  unfold isWhiteSpace, isLineTerminator, between.
  repeat match goal with
         | |- context [c =? ?k] =>
             replace (c =? k) with false by (symmetry; apply N.eqb_neq; lia)
         end.
  replace (c <=? 8202) with true by (symmetry; apply N.leb_le; lia).
  replace (8192 <=? c) with false by (symmetry; apply N.leb_gt; lia).
  reflexivity.
Qed.

Lemma word_char_on_line c : isWordChar c = true -> dot c = true.
Proof.
  unfold isWordChar, between, dot, isLineTerminator. intros H.
  apply negb_true_iff.
  destruct (c =? 10) eqn:E1; [apply N.eqb_eq in E1; subst; discriminate|].
  destruct (c =? 13) eqn:E2; [apply N.eqb_eq in E2; subst; discriminate|].
  destruct (c =? 8232) eqn:E3; [apply N.eqb_eq in E3; subst; discriminate|].
  destruct (c =? 8233) eqn:E4; [apply N.eqb_eq in E4; subst; discriminate|].
  reflexivity.
Qed.

(** X9.  An item the triage pattern matches is one line that starts at its
    verb: no line terminator anywhere and no white space in front.  An item
    the generatePlan pattern matches is an optional numbering or bullet
    prefix followed by one line that starts with an upper-case letter: line
    terminators can only be part of the prefix. *)
Theorem next_steps_items_are_single_lines :
  (forall s, test triageNextStepsPattern s = true ->
     s <> [] /\ headNotBlank s /\ forallb dot s = true) /\
  (forall s, test planNextStepsPattern s = true ->
     exists pre c line,
       s = pre ++ c :: line /\
       (pre = [] \/ numbered pre \/ bulleted pre) /\
       upper c = true /\ forallb dot (c :: line) = true).
Proof.
  split.
  - intros s H. apply triage_pattern_iff in H.
    destruct H as (v & rest & Hv & -> & _ & Hrest).
    pose proof verbs_are_capitalized as Hcap. rewrite forallb_forall in Hcap.
    pose proof verbs_are_words as Hw. rewrite forallb_forall in Hw.
    specialize (Hcap (js v) (in_map js _ _ Hv)).
    specialize (Hw (js v) (in_map js _ _ Hv)).
    apply andb_true_iff in Hw as [_ Hw].
    destruct (js v) as [|c [|c0 w]]; try discriminate.
    apply andb_true_iff in Hcap as [Hc _].
    split; [discriminate|]. split; [now apply upper_not_blank|].
    rewrite forallb_app, Hrest, andb_true_r.
    rewrite forallb_forall in *. intros x Hx. now apply word_char_on_line, Hw.
  - intros s H. apply plan_pattern_iff in H.
    destruct H as (pre & c & w & rest & -> & Hpre & (Hc & _ & Hw) & _ & Hrest).
    exists pre, c, (w ++ rest). repeat split; trivial.
    cbn [forallb]. rewrite forallb_app, Hrest, andb_true_r.
    apply andb_true_iff. split.
    + now apply word_char_on_line, letter_isWordChar, upper_letter.
    + rewrite forallb_forall in *. intros x Hx.
      now apply word_char_on_line, letter_isWordChar, Hw.
Qed.

End ValidatorExtras.

(** ** The page *)

Section PageFacts.
Import ValidatorFacts HandlerFacts StringFacts.

Variable JSON_parse : jsstr -> completion value.
Variable String_ : value -> jsstr.
Variable fetch : fetchInit -> completion fetchResponse.

Local Abbreviation onGenerate' := (onGenerate JSON_parse String_ fetch).
Local Abbreviation fetchPlan' := (fetchPlan JSON_parse String_ fetch).

Lemma blank_trim s : forallb isWhiteSpace s = true -> nonEmpty (trim s) = false.
Proof. intros H. apply trim_nil in H. now rewrite H. Qed.

Lemma not_blank_trim s : forallb isWhiteSpace s = false -> nonEmpty (trim s) = true.
Proof.
  intros H. destruct (trim s) eqn:E; [|reflexivity].
  apply trim_nil in E. congruence.
Qed.

(** Whatever comes back, [fetchPlan] has sent one request, the one for the
    trimmed input. *)
Lemma fetchPlan_log trimmed log :
  snd (fetchPlan' trimmed log) = log ++ [planRequest trimmed].
Proof.
  unfold fetchPlan, andThen, callFetch, settle.
  destruct (fetch (planRequest trimmed)) as [res|e]; [|reflexivity].
  destruct (text res) as [t|e]; [|reflexivity]. cbv zeta.
  destruct (negb (ok res)).
  - destruct (GetOptional_returns (parseOrNull JSON_parse t) (js "error")) as (x & ->).
    destruct (GetOptional_returns (parseOrNull JSON_parse t) (js "requestId"))
      as (y & ->).
    reflexivity.
  - now destruct (negb (truthy (parseOrNull JSON_parse t)) ||
                  negb (isObjectType (typeof (parseOrNull JSON_parse t)))).
Qed.

(** What [fetchPlan] returns it received as a plan; otherwise it throws an
    [Error]. *)
Lemma fetchPlan_normal trimmed log json :
  fst (fetchPlan' trimmed log) = Normal json <->
  planReceived JSON_parse fetch trimmed json.
Proof.
  unfold fetchPlan, planReceived, andThen, callFetch, settle.
  destruct (fetch (planRequest trimmed)) as [res|e]; cbn [fst].
  2:{ split; [discriminate | intros (res & t & H & _); discriminate]. }
  destruct (text res) as [t|e] eqn:T; cbn [fst].
  2:{ split; [discriminate|]. intros (res' & t & [= <-] & _ & H & _). congruence. }
  cbv zeta. destruct (ok res) eqn:O; cbn [negb].
  - destruct (negb (truthy (parseOrNull JSON_parse t)) ||
              negb (isObjectType (typeof (parseOrNull JSON_parse t)))) eqn:G;
      cbn [fst].
    + split; [discriminate|].
      intros (res' & t' & [= <-] & _ & Ht & -> & H1 & H2).
      assert (t' = t) by congruence. subst.
      rewrite H1, H2 in G. discriminate.
    + apply orb_false_iff in G as [G1 G2].
      apply negb_false_iff in G1, G2. split.
      * intros [= <-]. now exists res, t.
      * intros (res' & t' & [= <-] & _ & Ht & -> & _). congruence.
  - destruct (GetOptional_returns (parseOrNull JSON_parse t) (js "error")) as (x & ->).
    destruct (GetOptional_returns (parseOrNull JSON_parse t) (js "requestId"))
      as (y & ->).
    cbn [fst]. split; [discriminate|].
    intros (res' & t' & [= <-] & H & _). congruence.
Qed.

(** X10.  The page sends a request exactly when the input is not blank: for
    a blank input it only shows its hint, leaving the result and the
    loading flag alone; otherwise it posts once, to the generatePlan
    function, the input without the white space around it. *)
Theorem request_sent_iff_not_blank st :
  (forallb isWhiteSpace (App.input st) = true ->
   onGenerate' st =
   (Normal {| App.input := App.input st;
              App.loading := App.loading st;
              App.message :=
                VStr (js "Type a workflow problem above, then click Generate Plan.");
              App.messageKind := js "info";
              App.result := App.result st |}, [])) /\
  (forallb isWhiteSpace (App.input st) = false ->
   exists pre post,
     App.input st = pre ++ trim (App.input st) ++ post /\
     forallb isWhiteSpace pre = true /\ forallb isWhiteSpace post = true /\
     trim (App.input st) <> [] /\
     headNotBlank (trim (App.input st)) /\
     headNotBlank (rev (trim (App.input st))) /\
     snd (onGenerate' st) =
     [{| url := js "/.netlify/functions/generatePlan";
         method := js "POST";
         contentType := js "application/json";
         fetchBody := VObj [(js "input", VStr (trim (App.input st)))] |}]).
Proof.
  split.
  - intros H. unfold onGenerate. cbn [setMessage setMessageKind App.input].
    cbv zeta. now rewrite (blank_trim _ H).
  - intros H.
    destruct (trim_split (App.input st)) as (pre & post & Hs & Hpre & Hpost & Hh & Hr).
    exists pre, post. repeat split; trivial.
    + apply not_blank_trim in H. now destruct (trim (App.input st)).
    + unfold onGenerate. cbn [setMessage setMessageKind App.input]. cbv zeta.
      rewrite (not_blank_trim _ H). cbn [negb snd]. now rewrite fetchPlan_log.
Qed.

(** X11.  However the request goes, a run on a non-blank input settles with
    the loading flag off and the input untouched.  Either a plan was
    received (an ok status and a body that parses to an object) and it
    becomes the result, under an empty message; or none was, the result
    stays what it was and a non-empty error message is shown. *)
Theorem page_settles st :
  forallb isWhiteSpace (App.input st) = false ->
  exists st',
    fst (onGenerate' st) = Normal st' /\
    App.loading st' = false /\ App.input st' = App.input st /\
    ((exists json,
        planReceived JSON_parse fetch (trim (App.input st)) json /\
        App.result st' = json /\
        App.message st' = VStr [] /\ App.messageKind st' = js "info") \/
     ((forall json, ~ planReceived JSON_parse fetch (trim (App.input st)) json) /\
      App.result st' = App.result st /\
      App.messageKind st' = js "error" /\ truthy (App.message st') = true)).
Proof.
  intros H. unfold onGenerate. cbn [setMessage setMessageKind App.input]. cbv zeta.
  rewrite (not_blank_trim _ H). cbn [negb fst].
  destruct (fst (fetchPlan' (trim (App.input st)) [])) as [json|err] eqn:F.
  - cbn [bind]. eexists. split; [reflexivity|]. repeat split.
    left. exists json. repeat split. now apply (fetchPlan_normal _ []).
  - destruct (GetOptional_returns err (js "message")) as (m & ->). cbn [bind].
    eexists. split; [reflexivity|]. repeat split. right. repeat split.
    + intros json Hj. apply (fetchPlan_normal _ []) in Hj. congruence.
    + cbn. unfold vor. now destruct (truthy m) eqn:E.
Qed.

End PageFacts.

Section PageFailures.
Import ValidatorFacts HandlerFacts StringFacts.

Variable JSON_parse : jsstr -> completion value.
Variable String_ : value -> jsstr.
Variable fetch : fetchInit -> completion fetchResponse.

Local Abbreviation onGenerate' := (onGenerate JSON_parse String_ fetch).
Local Abbreviation fetchPlan' := (fetchPlan JSON_parse String_ fetch).

Lemma onGenerate_thrown st msg :
  forallb isWhiteSpace (App.input st) = false ->
  fst (fetchPlan' (trim (App.input st)) []) = Throw (newError msg) -> msg <> [] ->
  fst (onGenerate' st) = Normal (failed st (VStr msg)).
Proof.
  intros H F Hm. unfold onGenerate. cbn [setMessage setMessageKind App.input].
  cbv zeta. rewrite (not_blank_trim _ H). cbn [negb fst]. rewrite F.
  destruct msg; [contradiction|]. reflexivity.
Qed.

Lemma fetchPlan_not_ok trimmed log res t :
  fetch (planRequest trimmed) = Normal res -> ok res = false ->
  text res = Normal t ->
  exists error id,
    GetOptional (parseOrNull JSON_parse t) (js "error") = Normal error /\
    GetOptional (parseOrNull JSON_parse t) (js "requestId") = Normal id /\
    fst (fetchPlan' trimmed log) =
    Throw (newError
             (toText String_
                (vor error
                   (VStr (js "Request failed (" ++ showN (status res) ++ js ")")))
              ++ (if truthy id then requestIdSuffix (toText String_ id) else []))).
Proof.
  intros F O T. unfold fetchPlan, andThen, callFetch, settle.
  rewrite F, T. cbv zeta. rewrite O. cbn [negb].
  destruct (GetOptional_returns (parseOrNull JSON_parse t) (js "error")) as (x & Hx).
  destruct (GetOptional_returns (parseOrNull JSON_parse t) (js "requestId"))
    as (y & Hy).
  exists x, y. rewrite Hx, Hy. split; [reflexivity|]. split; reflexivity.
Qed.

(** X12.  What the page shows for a response that is not ok.  When the body
    is an object with a non-empty [error] string, that string, followed by
    [ (requestId: <id>)] when the body also has a non-empty [requestId]
    string and by nothing when [requestId] is absent or [null]; when the
    body is empty or is not JSON, [Request failed (<status>)]. *)
Theorem failures_shown st res t :
  forallb isWhiteSpace (App.input st) = false ->
  fetch (planRequest (trim (App.input st))) = Normal res ->
  ok res = false -> text res = Normal t ->
  (forall props msg,
     t <> [] -> JSON_parse t = Normal (VObj props) ->
     lookup (js "error") props = Some (VStr msg) -> msg <> [] ->
     (forall id,
        lookup (js "requestId") props = Some (VStr id) -> id <> [] ->
        fst (onGenerate' st) =
        Normal (failed st (VStr (msg ++ requestIdSuffix id)))) /\
     (lookup (js "requestId") props = None \/
      lookup (js "requestId") props = Some VNull ->
      fst (onGenerate' st) = Normal (failed st (VStr msg)))) /\
  ((t = [] \/ exists e, JSON_parse t = Throw e) ->
   fst (onGenerate' st) =
   Normal (failed st
             (VStr (js "Request failed (" ++ showN (status res) ++ js ")")))).
Proof.
  intros Hnb F O T.
  destruct (fetchPlan_not_ok [] F O T) as (error & id & He & Hi & Hthrow).
  split.
  - intros props msg Ht P Hl Hm.
    assert (J : parseOrNull JSON_parse t = VObj props).
    { unfold parseOrNull. rewrite P. now destruct t. }
    rewrite J in He, Hi. cbn [GetOptional Get] in He, Hi. rewrite Hl in He.
    injection He as <-.
    assert (Hv : vor (VStr msg)
                   (VStr (js "Request failed (" ++ showN (status res) ++ js ")"))
                 = VStr msg) by (unfold vor; now destruct msg).
    rewrite Hv in Hthrow. cbn [toText] in Hthrow. split.
    + intros id' Hid Hne. rewrite Hid in Hi. injection Hi as <-.
      assert (Ht' : truthy (VStr id') = true) by now destruct id'.
      rewrite Ht' in Hthrow. cbn [toText] in Hthrow.
      apply onGenerate_thrown; trivial. now destruct msg.
    + intros Hnone.
      assert (Hf : truthy id = false)
        by (destruct Hnone as [Hn | Hn]; rewrite Hn in Hi; now injection Hi as <-).
      rewrite Hf, app_nil_r in Hthrow. now apply onGenerate_thrown.
  - intros Hbad.
    assert (J : parseOrNull JSON_parse t = VNull).
    { unfold parseOrNull. destruct Hbad as [-> | (e & P)]; [reflexivity|].
      rewrite P. now destruct (nonEmpty t). }
    rewrite J in He, Hi. cbn [GetOptional] in He, Hi.
    injection He as <-. injection Hi as <-.
    cbn [vor truthy toText] in Hthrow. rewrite app_nil_r in Hthrow.
    apply onGenerate_thrown; trivial. discriminate.
Qed.

End PageFailures.

(** ** The page and the generatePlan function together *)

Module ProviderMessages.
Import ValidatorFacts HandlerFacts ClassificationFacts.

(** The four messages of the error table. *)
Lemma toHttpError_messages err e :
  toHttpError err = Normal e ->
  In (message e)
     [js "LLM authentication failed.";
      js "Rate limited by LLM provider. Try again shortly.";
      js "LLM provider error. Try again shortly.";
      js "LLM request failed."].
Proof.
  rewrite toHttpError_table.
  destruct (statusOf err) as [n|]; [|intros [= <-]; simpl; auto].
  destruct (num_eqb n (ofZ 401) || num_eqb n (ofZ 403));
    [intros [= <-]; simpl; auto|].
  destruct (num_eqb n (ofZ 429)); [intros [= <-]; simpl; auto|].
  destruct (truthy (VNum n) && num_geb n (ofZ 500)); intros [= <-]; simpl; auto.
Qed.

End ProviderMessages.

Section PageAndHandler.
Import ValidatorFacts HandlerFacts StringFacts AnswerFacts ProviderMessages.

Variable JSON_parse : jsstr -> completion value.
Variable base64ToUtf8 : jsstr -> jsstr.
Variable String_ : value -> jsstr.
Variable responses_create : createParams -> completion value.
Variable env : environment.
Variable fetch : fetchInit -> completion fetchResponse.

Local Abbreviation run' :=
  (run JSON_parse base64ToUtf8 String_ responses_create generatePlan env).
Local Abbreviation missingInput := (js "Missing required field: input").

(** What the provider stage of generatePlan answers is never the message for
    a missing field. *)
Lemma providerAnswer_not_missing key rid text r :
  providerAnswer JSON_parse responses_create generatePlan env key rid text r ->
  lookup (js "error") (bodyMembers r) <> Some (VStr missingInput).
Proof.
  intros [(err & e & extra & _ & He & _ & ->) |
          [(resp & output & _ & _ & _ & ->) |
           [(resp & out & e & _ & _ & _ & _ & ->) |
            [(resp & out & parsed & details & _ & _ & _ & _ & _ & _ & ->) |
             (resp & out & parsed & _ & _ & _ & _ & V & ->)]]]].
  - apply toHttpError_messages in He. intros [= H]. rewrite H in He.
    vm_compute in He. intuition discriminate.
  - intros H. vm_compute in H. discriminate H.
  - intros H. vm_compute in H. discriminate H.
  - intros H. vm_compute in H. discriminate H.
  - change (validate generatePlan) with (validateShape planNextStepsPattern) in V.
    destruct V as [V | V]; [|apply validateShape_message in V; contradiction].
    apply validateShape_None in V. destruct V as (props & -> & Hkeys & _).
    cbn [bodyMembers jsonResponse Response.body members].
    destruct (lookup (js "error") props) as [v|] eqn:E; [|discriminate].
    exfalso. apply error_not_allowed, Hkeys, lookup_In. congruence.
Qed.

(** X13.  What the page posts is never refused for its text field.  When
    the generatePlan function receives, with the method, the credential and
    the size in order, a body that parses to what the page sent, its answer
    is never [Missing required field: input]: if the trimmed input has at
    most 8000 code units the provider is called once, for that very text,
    and the status is 200, 429 or 502; otherwise the answer is the 400
    [Input is too long], with no call. *)
Theorem page_request_passes_field_check st init event key r calls :
  In init (snd (onGenerate JSON_parse String_ fetch st)) ->
  Event.httpMethod event = js "POST" ->
  OPENAI_API_KEY env = Some key -> key <> [] ->
  bodyBytes event <= MAX_BODY_BYTES ->
  JSON_parse (bodyText base64ToUtf8 event) = Normal (fetchBody init) ->
  run' event = (Normal r, calls) ->
  lookup (js "error") (bodyMembers r) <> Some (VStr missingInput) /\
  (strlen (trim (App.input st)) <= MAX_INPUT_CHARS ->
   calls = [request generatePlan env key (trim (App.input st))] /\
   In (Response.statusCode r) [200; 429; 502]) /\
  (MAX_INPUT_CHARS < strlen (trim (App.input st)) ->
   calls = [] /\ Response.statusCode r = 400 /\
   lookup (js "error") (bodyMembers r) =
   Some (VStr (js "Input is too long. Please keep it under 8000 characters."))).
Proof.
  intros Hsent Hp K Hne Hsize P Hrun.
  assert (Hnb : forallb isWhiteSpace (App.input st) = false).
  { destruct (forallb isWhiteSpace (App.input st)) eqn:E; [|reflexivity].
    exfalso. revert Hsent. unfold onGenerate.
    cbn [setMessage setMessageKind App.input]. cbv zeta.
    rewrite (blank_trim _ E). intros []. }
  assert (Hinit : init = planRequest (trim (App.input st))).
  { revert Hsent. unfold onGenerate.
    cbn [setMessage setMessageKind App.input]. cbv zeta.
    rewrite (not_blank_trim _ Hnb). cbn [negb snd]. rewrite fetchPlan_log.
    intros [H | []]. now symmetry. }
  subst init. set (input := App.input st) in *.
  assert (Htext : textOf (textField generatePlan)
                    (fetchBody (planRequest (trim input))) = trim input)
    by reflexivity.
  assert (Htrim : trim (trim input) <> []).
  { rewrite trim_idempotent. intros E. apply trim_nil in E. congruence. }
  destruct (N.le_gt_cases (strlen (trim input)) MAX_INPUT_CHARS) as [Hlen | Hlen].
  - assert (Hadm : admitted JSON_parse base64ToUtf8 generatePlan env event key
                     (trim input)).
    { split; [trivial|]. split; [trivial|]. split; [trivial|]. split; [trivial|].
      exists (fetchBody (planRequest (trim input))).
      rewrite Htext. split; [trivial|]. split; [trivial|]. split; trivial. }
    destruct (@admitted_handler JSON_parse base64ToUtf8 String_ responses_create
                generatePlan env event key (trim input) [] Hadm)
      as (rid & Hrid & Hstage).
    destruct (stage_answer JSON_parse String_ responses_create generatePlan env
                key rid (trim input)) as (r' & Hr' & Hans).
    unfold run in Hrun. rewrite Hstage, Hr' in Hrun. injection Hrun as <- <-.
    split; [now apply (providerAnswer_not_missing Hans)|]. split.
    + intros _. split; [reflexivity|]. eapply providerAnswer_status; eassumption.
    + intros H. lia.
  - destruct (@run_text_checks JSON_parse base64ToUtf8 String_ responses_create
                generatePlan env event key _ Hp K Hne Hsize P)
      as (rid & Hrid & _ & Hlong).
    rewrite Htext in Hlong. rewrite (Hlong Htrim Hlen) in Hrun.
    injection Hrun as <- <-.
    split; [intros H; vm_compute in H; discriminate H|]. split.
    + intros H. lia.
    + intros _. split; [reflexivity|]. split; reflexivity.
Qed.

End PageAndHandler.

(** ** Error envelopes, from the function to the page *)

Module EnvelopeFacts.
Import ValidatorFacts HandlerFacts ClassificationFacts AnswerFacts.

Lemma toHttpError_message err e : toHttpError err = Normal e -> message e <> [].
Proof.
  rewrite toHttpError_table.
  destruct (statusOf err) as [n|]; [|intros [= <-]; discriminate].
  destruct (num_eqb n (ofZ 401) || num_eqb n (ofZ 403));
    [intros [= <-]; discriminate|].
  destruct (num_eqb n (ofZ 429)); [intros [= <-]; discriminate|].
  destruct (truthy (VNum n) && num_geb n (ofZ 500)); intros [= <-]; discriminate.
Qed.

Section Envelopes.
Variable JSON_parse : jsstr -> completion value.
Variable base64ToUtf8 : jsstr -> jsstr.
Variable String_ : value -> jsstr.
Variable responses_create : createParams -> completion value.
Variable ep : endpoint.
Variable env : environment.

Local Abbreviation run' :=
  (run JSON_parse base64ToUtf8 String_ responses_create ep env).

Lemma error_responses event r calls :
  run' event = (Normal r, calls) ->
  Response.statusCode r <> 200 -> Response.statusCode r <> 204 ->
  exists msg rest,
    Response.body r = Response.Json (VObj ((js "error", VStr msg) :: rest)) /\
    msg <> [] /\
    In (Response.statusCode r) [400; 405; 413; 429; 500; 502] /\
    (In (Response.statusCode r) [400; 413; 429; 502] ->
     exists rid extra,
       rest = (js "requestId", rid) :: extra /\ getRequestId event = Normal rid).
Proof.
  intros Hrun H200 H204.
  destruct (run_cases JSON_parse base64ToUtf8 String_ responses_create ep env event)
    as [[_ H] | [(_ & code & msg & Hin & _ & _ & H & Hm) |
    [(_ & key & rid & code & msg & _ & _ & Hrid & Hin & _ & _ & H & Hm) |
     (key & rid & text & r' & _ & Hrid & H & Hans)]]];
    rewrite Hrun in H; injection H as -> ->.
  - now contradiction H204.
  - exists msg, []. split; [reflexivity|]. split; [trivial|].
    simpl in Hin. destruct Hin as [<- | [<- | []]]; simpl;
      (split; [tauto|]); intros [H | [H | [H | [H | []]]]]; discriminate.
  - exists msg, [(js "requestId", rid)]. split; [reflexivity|]. split; [trivial|].
    simpl in Hin. destruct Hin as [<- | [<- | []]]; simpl;
      (split; [tauto|]); intros _; now exists rid, [].
  - destruct Hans as [(err & e & extra & _ & He & _ & ->) |
          [(resp & output & _ & _ & _ & ->) |
           [(resp & out & e & _ & _ & _ & _ & ->) |
            [(resp & out & parsed & details & _ & _ & _ & _ & _ & _ & ->) |
             (resp & out & parsed & _ & _ & _ & _ & _ & ->)]]]].
    + exists (message e), ((js "requestId", rid) :: extra).
      split; [reflexivity|]. split; [now apply (toHttpError_message err)|].
      destruct (toHttpError_returns err) as (e' & He' & Hc).
      assert (e' = e) by congruence. subst. simpl.
      split; [destruct Hc as [-> | ->]; tauto|]. intros _. now exists rid, extra.
    + do 2 eexists. split; [reflexivity|]. split; [discriminate|]. simpl.
      split; [tauto|]. intros _. now exists rid, [].
    + do 2 eexists. split; [reflexivity|]. split; [discriminate|]. simpl.
      split; [tauto|]. intros _. eauto.
    + do 2 eexists. split; [reflexivity|]. split; [discriminate|]. simpl.
      split; [tauto|]. intros _. eauto.
    + now contradiction H200.
Qed.

End Envelopes.
End EnvelopeFacts.

Section EnvelopeExtras.
Import ValidatorFacts HandlerFacts EnvelopeFacts RequestIdFacts.

Variable JSON_parse : jsstr -> completion value.
Variable base64ToUtf8 : jsstr -> jsstr.
Variable String_ : value -> jsstr.
Variable responses_create : createParams -> completion value.
Variable ep : endpoint.
Variable env : environment.
Variable fetch : fetchInit -> completion fetchResponse.

Local Abbreviation run' :=
  (run JSON_parse base64ToUtf8 String_ responses_create ep env).

(** X14.  Every response other than the 200 and the preflight is a JSON
    object whose first member is [error], a non-empty message; its status is
    400, 405, 413, 429, 500 or 502, and for 400, 413, 429 and 502 the next
    member is [requestId], the value [getRequestId] read from the event
    ([null] when there was none). *)
Theorem errors_carry_message event r calls :
  run' event = (Normal r, calls) ->
  Response.statusCode r <> 200 -> Response.statusCode r <> 204 ->
  exists msg rest,
    Response.body r = Response.Json (VObj ((js "error", VStr msg) :: rest)) /\
    msg <> [] /\
    In (Response.statusCode r) [400; 405; 413; 429; 500; 502] /\
    (In (Response.statusCode r) [400; 413; 429; 502] ->
     exists rid extra,
       rest = (js "requestId", rid) :: extra /\ getRequestId event = Normal rid).
Proof. apply error_responses. Qed.

(** X15.  An error of the function reaches the user: when the page receives
    a response with the status and the body of an error response of the
    function, it shows the function's message, followed by the correlation
    id in parentheses when the request carried one and the status is 400,
    413, 429 or 502; the result on the page is left as it was. *)
Theorem handler_errors_reach_the_user event r calls st res t v :
  run' event = (Normal r, calls) ->
  Response.statusCode r <> 200 -> Response.statusCode r <> 204 ->
  forallb isWhiteSpace (App.input st) = false ->
  fetch (planRequest (trim (App.input st))) = Normal res ->
  status res = Response.statusCode r ->
  text res = Normal t -> t <> [] ->
  Response.body r = Response.Json v -> JSON_parse t = Normal v ->
  exists msg suffix,
    lookup (js "error") (bodyMembers r) = Some (VStr msg) /\ msg <> [] /\
    fst (onGenerate JSON_parse String_ fetch st) =
    Normal (failed st (VStr (msg ++ suffix))) /\
    (forall id,
       carriesRequestId (Event.headers event) id ->
       In (Response.statusCode r) [400; 413; 429; 502] ->
       suffix = requestIdSuffix id).
Proof.
  intros Hrun H200 H204 Hnb F Hst T Ht Hbody P.
  destruct (error_responses _ _ _ _ _ _ _ Hrun H200 H204)
    as (msg & rest & Hb & Hm & Hin & Hrest).
  assert (Hv : v = VObj ((js "error", VStr msg) :: rest)) by congruence. subst v.
  assert (O : ok res = false).
  { unfold ok. rewrite Hst. simpl in Hin.
    destruct Hin as [<- | [<- | [<- | [<- | [<- | [<- | []]]]]]]; reflexivity. }
  destruct (@fetchPlan_not_ok JSON_parse String_ fetch _ [] _ _ F O T)
    as (error & id & He & Hi & Hthrow).
  assert (J : parseOrNull JSON_parse t = VObj ((js "error", VStr msg) :: rest)).
  { unfold parseOrNull. rewrite P. now destruct t. }
  rewrite J in He, Hi. injection He as <-.
  assert (Hvor : vor (VStr msg)
                   (VStr (js "Request failed (" ++ showN (status res) ++ js ")"))
                 = VStr msg) by (unfold vor; now destruct msg).
  rewrite Hvor in Hthrow. cbn [toText] in Hthrow.
  exists msg. eexists. split; [unfold bodyMembers; now rewrite Hb|].
  split; [trivial|]. split.
  - eapply onGenerate_thrown; [exact Hnb | exact Hthrow | now destruct msg].
  - intros id' Hc Hs. destruct (Hrest Hs) as (rid & extra & -> & Hrid).
    assert (Hne : id' <> []) by (destruct Hc as (hs & _ & Hne & _); exact Hne).
    apply getRequestId_carried in Hc. rewrite Hc in Hrid. injection Hrid as <-.
    injection Hi as <-. destruct id'; [now contradiction Hne | reflexivity].
Qed.

End EnvelopeExtras.

(** ** The further properties on the samples *)

Section MoreSamples.
Import ValidatorFacts.

Local Abbreviation sampleRun :=
  (run sampleParse sampleDecode sampleString).
Local Abbreviation pageRun :=
  (run pageParse sampleDecode sampleString).
Local Abbreviation sampleRequest :=
  (request triage sampleEnv (js "sk-test") (js "Our tickets pile up")).
Local Abbreviation throttled :=
  (jsonResponse 429
     (errorBody (js "Rate limited by LLM provider. Try again shortly.")
                (VStr (js "req-1")) [])).

Lemma page_not_blank : forallb isWhiteSpace (App.input samplePage) = false.
Proof. reflexivity. Defined.

Lemma success_only_after_validation_witness :
  exists key text resp out parsed,
    admitted sampleParse sampleDecode triage sampleEnv
      (sampleEvent "POST" (Some (js "REQ"))) key text /\
    [sampleRequest] = [request triage sampleEnv key text] /\
    answering (js "PLAN") (request triage sampleEnv key text) = Normal resp /\
    Get resp (js "output_text") = Normal (VStr out) /\
    sampleParse out = Normal parsed /\
    Response.body (jsonResponse 200 samplePlan) = Response.Json parsed /\
    conforms (matches triageNextStepsPattern) parsed.
Proof.
  apply (@success_only_after_validation sampleParse sampleDecode sampleString
           (answering (js "PLAN")) triage sampleEnv
           (sampleEvent "POST" (Some (js "REQ"))) (jsonResponse 200 samplePlan)
           [sampleRequest] triageNextStepsPattern).
  - reflexivity.
  - vm_compute. reflexivity.
  - reflexivity.
Defined.

Lemma statuses_and_calls_witness :
  exists key text,
    [sampleRequest] = [request triage sampleEnv key text] /\
    OPENAI_API_KEY sampleEnv = Some key /\ key <> [] /\
    trim text <> [] /\ strlen text <= MAX_INPUT_CHARS /\
    bodyBytes (sampleEvent "POST" (Some (js "REQ"))) <= MAX_BODY_BYTES.
Proof.
  apply (@statuses_and_calls sampleParse sampleDecode sampleString (failing 429)
           triage sampleEnv (sampleEvent "POST" (Some (js "REQ"))) throttled
           [sampleRequest]).
  - vm_compute. reflexivity.
  - simpl. auto.
Defined.

Lemma responses_carry_cors_headers_witness :
  (forall h, In h corsHeaders -> In h (Response.headers throttled)) /\
  (Response.statusCode throttled <> 204 ->
   In (js "content-type", js "application/json; charset=utf-8")
      (Response.headers throttled) /\
   exists v, Response.body throttled = Response.Json v) /\
  (Response.statusCode throttled = 204 -> Response.body throttled = Response.Empty).
Proof.
  apply (@responses_carry_cors_headers sampleParse sampleDecode sampleString
           (failing 429) triage sampleEnv (sampleEvent "POST" (Some (js "REQ")))
           throttled [sampleRequest]).
  vm_compute. reflexivity.
Defined.

Lemma body_size_in_code_units_witness :
  Response.statusCode throttled <> 413.
Proof.
  apply (@body_size_in_code_units sampleParse sampleDecode sampleString
           (failing 429) triage sampleEnv (sampleEvent "POST" (Some (js "REQ")))
           (js "sk-test") (js "REQ") throttled [sampleRequest]).
  - reflexivity.
  - reflexivity.
  - discriminate.
  - reflexivity.
  - vm_compute. reflexivity.
  - vm_compute. discriminate.
Defined.

Lemma request_id_selection_witness :
  getRequestId
    {| Event.httpMethod := js "POST";
       Event.headers := VObj [(js "x-request-id", VStr (js "req-1"));
                              (js "x-nf-request-id", VStr (js "nf-7"))];
       Event.body := None;
       Event.isBase64Encoded := false |} = Normal (VStr (js "nf-7")) /\
  getRequestId
    {| Event.httpMethod := js "POST";
       Event.headers := VUndefined;
       Event.body := None;
       Event.isBase64Encoded := false |} = Normal VNull.
Proof.
  split.
  - eapply (proj1 (proj2 (request_id_selection _))); reflexivity.
  - apply (proj1 (request_id_selection _)). reflexivity.
Defined.

Lemma rate_limit_only_relayed_witness :
  exists key text err n,
    [sampleRequest] = [request triage sampleEnv key text] /\
    failing 429 (request triage sampleEnv key text) = Throw err /\
    statusOf err = Some n /\ isCode n 429.
Proof.
  apply (@rate_limit_only_relayed sampleParse sampleDecode sampleString
           (failing 429) triage sampleEnv (sampleEvent "POST" (Some (js "REQ")))
           throttled [sampleRequest] triageNextStepsPattern).
  - reflexivity.
  - vm_compute. reflexivity.
  - reflexivity.
Defined.

Lemma missing_output_text_witness :
  answered
    (sampleRun (answering []) triage debugEnv
       (sampleEvent "POST" (Some (js "REQ"))))
    502
    (errorBody (js "No text output received from model.") (VStr (js "req-1")) [])
    [request triage debugEnv (js "sk-test") (js "Our tickets pile up")].
Proof.
  destruct (@missing_output_text sampleParse sampleDecode sampleString
              (answering []) triage debugEnv (sampleEvent "POST" (Some (js "REQ")))
              (js "sk-test") (js "Our tickets pile up")
              (VObj [(js "output_text", VStr [])]))
    as (rid & Hrid & H & _).
  - apply sample_admitted. reflexivity.
  - reflexivity.
  - injection Hrid as <-. apply (H (VStr [])); [reflexivity|].
    now intros out [= <-].
Defined.

Lemma key_errors_reported_first_witness :
  validateTriageShape
    (VObj [(js "problem_statement", VStr (js "Tickets are triaged by hand."));
           (js "severity", VStr (js "high"));
           (js "next_steps", VNull)]) =
  Normal (Some (js "Unexpected property: severity")) /\
  validatePlanShape
    (VObj [(js "clarifying_questions", VNull);
           (js "problem_statement", VStr [])]) =
  Normal (Some (js "Missing required property: proposed_approach")).
Proof.
  split.
  - apply (proj1 (proj2 (key_errors_reported_first triageNextStepsPattern)))
      with (pre := [js "problem_statement"]) (post := [js "next_steps"]).
    + reflexivity.
    + intros k' [<- | []]. simpl. auto.
    + simpl. intros H. decompose [or] H; try discriminate; assumption.
  - apply (proj2 (proj2 (key_errors_reported_first planNextStepsPattern)))
      with (pre := [js "problem_statement"; js "clarifying_questions"])
           (post := [js "recommended_tools"; js "risks_and_privacy";
                     js "next_steps"]).
    + simpl. intros k' [<- | [<- | []]]; auto.
    + reflexivity.
    + simpl. intros k' [<- | [<- | []]]; auto.
    + simpl. intros H. decompose [or] H; try discriminate; assumption.
Defined.

Lemma next_steps_items_are_single_lines_witness :
  (js "Define the labels" <> [] /\ headNotBlank (js "Define the labels") /\
   forallb dot (js "Define the labels") = true) /\
  (exists pre c line,
     js "2. Implement the router" = pre ++ c :: line /\
     (pre = [] \/ numbered pre \/ bulleted pre) /\
     upper c = true /\ forallb dot (c :: line) = true).
Proof.
  split.
  - apply (proj1 next_steps_items_are_single_lines). vm_compute. reflexivity.
  - apply (proj2 next_steps_items_are_single_lines). vm_compute. reflexivity.
Defined.

Lemma request_sent_iff_not_blank_witness :
  exists pre post,
    App.input samplePage = pre ++ trim (App.input samplePage) ++ post /\
    forallb isWhiteSpace pre = true /\ forallb isWhiteSpace post = true /\
    trim (App.input samplePage) <> [] /\
    headNotBlank (trim (App.input samplePage)) /\
    headNotBlank (rev (trim (App.input samplePage))) /\
    snd (onGenerate pageParse sampleString (replying 200 (js "PLAN")) samplePage) =
    [{| url := js "/.netlify/functions/generatePlan";
        method := js "POST";
        contentType := js "application/json";
        fetchBody := VObj [(js "input", VStr (trim (App.input samplePage)))] |}].
Proof.
  apply (proj2 (@request_sent_iff_not_blank pageParse sampleString
                  (replying 200 (js "PLAN")) samplePage)).
  exact page_not_blank.
Defined.

Lemma page_settles_witness :
  exists st',
    fst (onGenerate pageParse sampleString (replying 200 (js "PLAN")) samplePage) =
    Normal st' /\
    App.loading st' = false /\ App.input st' = App.input samplePage /\
    ((exists json,
        planReceived pageParse (replying 200 (js "PLAN"))
          (trim (App.input samplePage)) json /\
        App.result st' = json /\
        App.message st' = VStr [] /\ App.messageKind st' = js "info") \/
     ((forall json, ~ planReceived pageParse (replying 200 (js "PLAN"))
                        (trim (App.input samplePage)) json) /\
      App.result st' = App.result samplePage /\
      App.messageKind st' = js "error" /\ truthy (App.message st') = true)).
Proof.
  apply (@page_settles pageParse sampleString (replying 200 (js "PLAN")) samplePage).
  exact page_not_blank.
Defined.

Lemma failures_shown_witness :
  fst (onGenerate pageParse sampleString (replying 429 (js "ERR")) samplePage) =
  Normal (failed samplePage
            (VStr (js "Rate limited by LLM provider. Try again shortly." ++
                   requestIdSuffix (js "req-1")))) /\
  fst (onGenerate pageParse sampleString (replying 502 (js "<html>")) samplePage) =
  Normal (failed samplePage (VStr (js "Request failed (502)"))).
Proof.
  split.
  - destruct (proj1 (@failures_shown pageParse sampleString
                       (replying 429 (js "ERR")) samplePage _ (js "ERR")
                       page_not_blank eq_refl eq_refl eq_refl)
                [(js "error",
                  VStr (js "Rate limited by LLM provider. Try again shortly."));
                 (js "requestId", VStr (js "req-1"))]
                (js "Rate limited by LLM provider. Try again shortly."))
      as [H _]; [discriminate | reflexivity | reflexivity | discriminate |].
    apply (H (js "req-1")); [reflexivity | discriminate].
  - apply (proj2 (@failures_shown pageParse sampleString
                    (replying 502 (js "<html>")) samplePage _ (js "<html>")
                    page_not_blank eq_refl eq_refl eq_refl)).
    right. exists syntaxError. reflexivity.
Defined.

Lemma page_request_passes_field_check_witness :
  lookup (js "error") (bodyMembers (jsonResponse 200 samplePlan)) <>
  Some (VStr (js "Missing required field: input")) /\
  [request generatePlan sampleEnv (js "sk-test") (js "Our tickets pile up")] =
  [request generatePlan sampleEnv (js "sk-test") (trim (App.input samplePage))] /\
  In (Response.statusCode (jsonResponse 200 samplePlan)) [200; 429; 502].
Proof.
  destruct (@page_request_passes_field_check pageParse sampleDecode sampleString
              (answering (js "PLAN")) sampleEnv (replying 200 (js "PLAN"))
              samplePage (planRequest (js "Our tickets pile up"))
              (sampleEvent "POST" (Some (js "PAGE"))) (js "sk-test")
              (jsonResponse 200 samplePlan)
              [request generatePlan sampleEnv (js "sk-test")
                 (js "Our tickets pile up")])
    as (Hnever & Hshort & _).
  - left. reflexivity.
  - reflexivity.
  - reflexivity.
  - discriminate.
  - vm_compute. discriminate.
  - reflexivity.
  - vm_compute. reflexivity.
  - split; [exact Hnever|]. apply Hshort. vm_compute. discriminate.
Defined.

Lemma error_envelopes_echo_requestId_witness :
  (exists props,
     Response.body
       (jsonResponse 429
          (errorBody (js "Rate limited by LLM provider. Try again shortly.")
                     (VStr (js "nf-7")) [])) = Response.Json (VObj props) /\
     lookup (js "requestId") props = Some (VStr (js "nf-7"))) /\
  (exists props,
     Response.body (jsonResponse 200 samplePlan) = Response.Json (VObj props) /\
     validate triage (VObj props) = Normal None /\
     (forall k, In k (map fst props) <-> In k allowedKeys) /\
     lookup (js "requestId") props = None).
Proof.
  split.
  - destruct (@error_envelopes_echo_requestId sampleParse sampleDecode sampleString
                (failing 429) triage sampleEnv twoIdEvent
                (jsonResponse 429
                   (errorBody (js "Rate limited by LLM provider. Try again shortly.")
                              (VStr (js "nf-7")) []))
                [sampleRequest]) as [Hecho _].
    + vm_compute. reflexivity.
    + apply (Hecho (VStr (js "nf-7"))); [|simpl; auto].
      exists [(js "x-request-id", VStr (js "req-1"));
              (js "x-nf-request-id", VStr (js "nf-7"))],
             [], (js "x-nf-request-id"),
             [js "X-Nf-Request-Id"; js "x-request-id"; js "X-Request-Id"].
      split; [reflexivity|]. split; [reflexivity|]. split; [reflexivity|].
      split; [reflexivity|]. intros n v [].
  - destruct (@error_envelopes_echo_requestId sampleParse sampleDecode sampleString
                (answering (js "PLAN")) triage sampleEnv
                (sampleEvent "POST" (Some (js "REQ")))
                (jsonResponse 200 samplePlan) [sampleRequest]) as [_ Hplain].
    + vm_compute. reflexivity.
    + apply Hplain; [now left | reflexivity].
Defined.

Lemma errors_carry_message_witness :
  exists msg rest,
    Response.body throttled = Response.Json (VObj ((js "error", VStr msg) :: rest)) /\
    msg <> [] /\
    In (Response.statusCode throttled) [400; 405; 413; 429; 500; 502] /\
    (In (Response.statusCode throttled) [400; 413; 429; 502] ->
     exists rid extra,
       rest = (js "requestId", rid) :: extra /\
       getRequestId (sampleEvent "POST" (Some (js "REQ"))) = Normal rid).
Proof.
  apply (@errors_carry_message sampleParse sampleDecode sampleString (failing 429)
           triage sampleEnv (sampleEvent "POST" (Some (js "REQ"))) throttled
           [sampleRequest]).
  - vm_compute. reflexivity.
  - discriminate.
  - discriminate.
Defined.

Lemma handler_errors_reach_the_user_witness :
  exists msg suffix,
    lookup (js "error") (bodyMembers throttled) = Some (VStr msg) /\ msg <> [] /\
    fst (onGenerate pageParse sampleString (replying 429 (js "ERR")) samplePage) =
    Normal (failed samplePage (VStr (msg ++ suffix))) /\
    (forall id,
       carriesRequestId (Event.headers (sampleEvent "POST" (Some (js "PAGE")))) id ->
       In (Response.statusCode throttled) [400; 413; 429; 502] ->
       suffix = requestIdSuffix id).
Proof.
  apply (@handler_errors_reach_the_user pageParse sampleDecode sampleString
           (failing 429) generatePlan sampleEnv (replying 429 (js "ERR"))
           (sampleEvent "POST" (Some (js "PAGE"))) throttled
           [request generatePlan sampleEnv (js "sk-test") (js "Our tickets pile up")]
           samplePage {| status := 429; text := Normal (js "ERR") |} (js "ERR")
           (errorBody (js "Rate limited by LLM provider. Try again shortly.")
                      (VStr (js "req-1")) [])).
  - vm_compute. reflexivity.
  - discriminate.
  - discriminate.
  - exact page_not_blank.
  - reflexivity.
  - reflexivity.
  - reflexivity.
  - discriminate.
  - reflexivity.
  - reflexivity.
Defined.

End MoreSamples.
